(** * BEACON: iterative feature selection (iterative_feature_selection_svr.py)

    A shallow embedding of [train_model], [feature_selection] and
    [optimize_model], with the statistical libraries, the file system, the
    console and the random generator as explicit collaborators, and the
    properties of the selection loop, of the best-model choice and of the
    persistence stage. *)

From Stdlib Require Import ZArith Lia Ascii String.
From Stdlib Require Import Floats.SpecFloat.
From stdpp Require Import gmap strings list pretty.

Local Open Scope Z_scope.
Local Open Scope string_scope.
Local Open Scope list_scope.

(* ===================================================================== *)
(** * Python floats *)
(* ===================================================================== *)

(** A Python [float] is an IEEE-754 binary64 value; [spec_float] is the
    Standard Library's specification of those values, NaN included. *)
Module PyFloat.

Definition float : Type := spec_float.

Definition nan : float := S754_nan.

Definition is_nan (a : float) : bool :=
  match a with S754_nan => true | _ => false end.

(** [a > b], [a >= b] and [a == b] of Python: all are [False] as soon as
    one side is NaN. *)
Definition gtb (a b : float) : bool := SFltb b a.
Definition geb (a b : float) : bool := SFleb b a.
Definition eqb (a b : float) : bool := SFeqb a b.

(** [np.sqrt] on a float64. *)
Definition sqrt (a : float) : float := SFsqrt 53 1024 a.

(** [a - b], [a * b] and the IEEE quotient of [a] by [b]. *)
Definition sub (a b : float) : float := SFsub 53 1024 a b.
Definition mul (a b : float) : float := SFmul 53 1024 a b.
Definition div (a b : float) : float := SFdiv 53 1024 a b.

Definition is_zero (a : float) : bool :=
  match a with S754_zero _ => true | _ => false end.

Definition is_finite (a : float) : bool :=
  match a with S754_zero _ | S754_finite _ _ _ => true | _ => false end.

(** The conversion of a Python [int] in mixed arithmetic: the nearest
    float, ties to even; [None] stands for the [OverflowError] of an integer
    beyond the range. *)
Definition of_int (z : Z) : option float :=
  match binary_normalize 53 1024 z 0 false with
  | S754_infinity _ => None
  | a => Some a
  end.

(** The literals [0.2], [0.0], [0.5] and [1.0]. *)
Definition lit_0_2 : float := S754_finite false 7205759403792794 (-55).
Definition zero : float := S754_zero false.
Definition half : float := S754_finite false 4503599627370496 (-53).
Definition one : float := S754_finite false 4503599627370496 (-52).

End PyFloat.

Import PyFloat.

(* ===================================================================== *)
(** * Data frames *)
(* ===================================================================== *)

(** A [pandas.DataFrame] as the script uses it: an ordered sequence of named
    columns over a default row index.  The number of rows of a frame without
    columns is not represented; the script never builds such a frame without
    handing it to a collaborator that rejects it. *)
Abbreviation Series := (list float).
Abbreviation Column := (string * Series)%type.
Abbreviation DataFrame := (list Column).

(** [df.columns] *)
Definition columns (df : DataFrame) : list string := fst <$> df.

(** [df.shape[1]] and [df.shape[0]] *)
Definition shape1 (df : DataFrame) : Z := Z.of_nat (length df).
Definition n_rows (df : DataFrame) : nat :=
  match df with [] => 0%nat | c :: _ => length (snd c) end.

(** [df.iloc[:, :-1]] *)
Definition iloc_features (df : DataFrame) : DataFrame :=
  take (length df - 1)%nat df.

(** [df.iloc[:, -1]]: an [IndexError] on a frame without columns. *)
Definition iloc_target (df : DataFrame) : option Series := snd <$> last df.

(** [index[mask]] for a boolean mask: an [IndexError] unless the mask has
    one entry per label. *)
Fixpoint mask_filter {A} (mask : list bool) (l : list A) : list A :=
  match mask, l with
  | b :: mask', x :: l' => if b then x :: mask_filter mask' l' else mask_filter mask' l'
  | _, _ => []
  end.

Definition mask_index {A} (l : list A) (mask : list bool) : option (list A) :=
  if decide (length mask = length l) then Some (mask_filter mask l) else None.

(** [df.loc[:, labels]]: for each label in turn, the columns carrying it. *)
Definition loc_columns (df : DataFrame) (labels : list string) : DataFrame :=
  mbind (M := list) (fun name => filter (fun c : Column => fst c = name) df) labels.

(** [df[name] = values]: overwrites the column of that name where it stands,
    appends a new last column otherwise. *)
Definition setitem (df : DataFrame) (name : string) (values : Series) : DataFrame :=
  if decide (name ∈ columns df)
  then (fun c : Column => if decide (fst c = name) then (name, values) else c) <$> df
  else df ++ [(name, values)].

(** All columns have the length of the row index. *)
Definition rectangular (df : DataFrame) : Prop :=
  Forall (fun c : Column => length (snd c) = n_rows df) df.

(* ===================================================================== *)
(** * CSV files *)
(* ===================================================================== *)

(** A CSV file at the level of its header line and its records; a cell holds
    the number it denotes (how pandas prints and parses a number is not
    modelled). *)
Record Table : Type := mkTable { header : list string; records : list (list float) }.

(** [df.to_csv(path, index=index)]: a header line, then one record per row;
    with [index=True] a leading unnamed column holds the row number. *)
Definition row_values (df : DataFrame) (i : nat) : list float :=
  (fun c : Column => default nan (snd c !! i)) <$> df.

Definition index_cell (i : nat) : float :=
  match i with
  | O => S754_zero false
  | S _ => S754_finite false (Pos.of_nat i) 0
  end.

Definition to_csv (df : DataFrame) (index : bool) : Table :=
  {| header := if index then "" :: columns df else columns df;
     records := (fun i => if index then index_cell i :: row_values df i
                          else row_values df i) <$> seq 0 (n_rows df) |}.

(** The names [pd.read_csv] gives the columns.  A name that has occurred
    before is renamed: [counts] holds, for each name met so far, the number
    of the next copy, and the copy number [k] of [name] is called [name.k],
    [k] being advanced past the names the header already holds. *)
Definition count_of (counts : gmap string nat) (col : string) : nat :=
  default 0%nat (counts !! col).

Definition copy_name (old_col : string) (cur_count : nat) : string :=
  old_col +:+ "." +:+ pretty cur_count.

(** The loop [while cur_count > 0], entered with a positive [cur_count];
    it ends within as many rounds as the header has names, and one more. *)
Fixpoint rename_column (fuel : nat) (names : list string) (old_col : string)
    (cur_count : nat) (counts : gmap string nat) : option (string * gmap string nat) :=
  match fuel with
  | O => None
  | S fuel' =>
    let counts := <[old_col := S cur_count]> counts in
    let col := copy_name old_col cur_count in
    let cur_count :=
      if bool_decide (col ∈ names) then S cur_count else count_of counts col in
    match cur_count with
    | O => Some (col, counts)
    | S _ => rename_column fuel' names old_col cur_count counts
    end
  end.

(** One round of the loop over the columns. *)
Definition dedup_step (names : list string) (counts : gmap string nat) (i : nat)
  : option (list string * gmap string nat) :=
  match names !! i with
  | Some col =>
    match count_of counts col with
    | O => Some (names, <[col := 1%nat]> counts)
    | S _ as cur_count =>
      match rename_column (S (length names)) names col cur_count counts with
      | Some (col', counts') => Some (<[i := col']> names, <[col' := 1%nat]> counts')
      | None => None
      end
    end
  | None => Some (names, counts)
  end.

Fixpoint dedup_from (todo : list nat) (names : list string) (counts : gmap string nat)
  : option (list string) :=
  match todo with
  | [] => Some names
  | i :: todo' =>
    match dedup_step names counts i with
    | Some (names', counts') => dedup_from todo' names' counts'
    | None => None
    end
  end.

Definition dedup_names (names : list string) : option (list string) :=
  dedup_from (seq 0 (length names)) names ∅.

(** The fields that the first record has beyond the header are taken as the
    row index, and are no columns of the frame. *)
Definition index_width (t : Table) : nat :=
  match records t with
  | r :: _ => length r - length (header t)
  | [] => 0
  end.

(** [pd.read_csv(path)]: the first line names the columns; a record with
    fewer fields is completed with NaN, one with more fields than the header
    and the row index take is a [ParserError], and so is a file without a
    header. *)
Definition field (r : list float) (j : nat) : float := default nan (r !! j).

Definition read_csv (t : Table) : option DataFrame :=
  match header t with
  | [] => None
  | _ =>
    let width := (length (header t) + index_width t)%nat in
    if forallb (fun r : list float => bool_decide (length r ≤ width)%nat) (records t)
    then
      names ← dedup_names (header t);
      Some (imap (fun j name => (name, (fun r => field r (index_width t + j)) <$> records t))
                 names)
    else None
  end.

(* ===================================================================== *)
(** * Strings and paths *)
(* ===================================================================== *)

(** [str.strip()].  A Python [str] is held as its UTF-8 encoding; the
    white space removed at both ends is that of [str.isspace]: the ASCII
    characters 9-13, 28-31 and the blank, and the characters U+0085, U+00A0,
    U+1680, U+2000-U+200A, U+2028, U+2029, U+202F, U+205F and U+3000, which
    take two or three bytes. *)
Definition is_space (c : ascii) : bool :=
  let n := nat_of_ascii c in
  ((9 <=? n) && (n <=? 13) || (28 <=? n) && (n <=? 32))%nat.

(** U+0085 is [C2 85] and U+00A0 is [C2 A0]. *)
Definition is_space2 (c1 c2 : ascii) : bool :=
  let a := nat_of_ascii c1 in
  let b := nat_of_ascii c2 in
  ((a =? 194) && ((b =? 133) || (b =? 160)))%nat.

(** U+1680 is [E1 9A 80], U+2000-U+200A are [E2 80 80] to [E2 80 8A],
    U+2028, U+2029 and U+202F are [E2 80 A8], [E2 80 A9] and [E2 80 AF],
    U+205F is [E2 81 9F] and U+3000 is [E3 80 80]. *)
Definition is_space3 (c1 c2 c3 : ascii) : bool :=
  let a := nat_of_ascii c1 in
  let b := nat_of_ascii c2 in
  let c := nat_of_ascii c3 in
  ((a =? 225) && (b =? 154) && (c =? 128)
   || (a =? 226) && (b =? 128)
      && ((128 <=? c) && (c <=? 138) || (c =? 168) || (c =? 169) || (c =? 175))
   || (a =? 226) && (b =? 129) && (c =? 159)
   || (a =? 227) && (b =? 128) && (c =? 128))%nat.

(** Removes the white space at the front, the two- and three-byte
    characters being recognised by [sp2] and [sp3]. *)
Fixpoint strip_front (sp2 : ascii -> ascii -> bool) (sp3 : ascii -> ascii -> ascii -> bool)
    (s : string) : string :=
  match s with
  | String c1 s1 =>
    if is_space c1 then strip_front sp2 sp3 s1
    else
      match s1 with
      | String c2 s2 =>
        if sp2 c1 c2 then strip_front sp2 sp3 s2
        else
          match s2 with
          | String c3 s3 => if sp3 c1 c2 c3 then strip_front sp2 sp3 s3 else s
          | EmptyString => s
          end
      | EmptyString => s
      end
  | EmptyString => EmptyString
  end.

Definition lstrip (s : string) : string := strip_front is_space2 is_space3 s.

(** The same from the back, on the reversed string. *)
Definition rstrip (s : string) : string :=
  String.rev (strip_front (fun c2 c1 => is_space2 c1 c2)
                          (fun c3 c2 c1 => is_space3 c1 c2 c3) (String.rev s)).

Definition strip (s : string) : string := rstrip (lstrip s).

(** [str.lower()] as far as the scripts need it: they compare the result
    with the words [yes], [y], [no] and [n], and no character outside ASCII
    lowers to a letter of these words, so only the letters [A]-[Z] are
    mapped. *)
Definition lower_ascii (c : ascii) : ascii :=
  let n := nat_of_ascii c in
  if ((65 <=? n) && (n <=? 90))%nat then ascii_of_nat (n + 32) else c.

Fixpoint lower (s : string) : string :=
  match s with
  | String c s' => String (lower_ascii c) (lower s')
  | EmptyString => EmptyString
  end.

(** [int(s)] on ASCII text: surrounding white space, an optional sign, then
    decimal digits in which single underscores may separate digits; a
    [ValueError] otherwise, and for more than [sys.int_max_str_digits]
    digits. *)
Definition is_digit (c : ascii) : bool :=
  let n := nat_of_ascii c in ((48 <=? n) && (n <=? 57))%nat.

Definition digit_value (c : ascii) : Z := Z.of_nat (nat_of_ascii c) - 48.

Definition int_max_str_digits : nat := 4300.

Fixpoint int_digits (s : string) (value : Z) (count : nat) (after_digit : bool)
  : option (Z * nat) :=
  match s with
  | String c s' =>
    if is_digit c then int_digits s' (10 * value + digit_value c) (S count) true
    else if bool_decide (c = "_"%char) && after_digit then int_digits s' value count false
    else None
  | EmptyString => if after_digit then Some (value, count) else None
  end.

Definition int (s : string) : option Z :=
  let s := strip s in
  let '(negative, body) :=
    match s with
    | String "+" body => (false, body)
    | String "-" body => (true, body)
    | _ => (false, s)
    end in
  match int_digits body 0 0 false with
  | Some (value, count) =>
    if (int_max_str_digits <? count)%nat then None
    else Some (if negative then - value else value)
  | None => None
  end.

(** [os.path.join(a, b)] *)
Fixpoint ends_with_sep (s : string) : bool :=
  match s with
  | String c EmptyString => bool_decide (c = "/"%char)
  | String _ s' => ends_with_sep s'
  | EmptyString => false
  end.

Definition starts_with_sep (s : string) : bool :=
  match s with
  | String c _ => bool_decide (c = "/"%char)
  | EmptyString => false
  end.

Definition path_join (a b : string) : string :=
  if starts_with_sep b then b
  else if bool_decide (a = "") || ends_with_sep a then a +:+ b
  else a +:+ "/" +:+ b.

(** [posixpath.split(p)]: the head is what precedes the last separator,
    without its trailing separators unless it consists of separators only;
    the tail is what follows. *)
Fixpoint cut_last_sep (p : string) : option string * string :=
  match p with
  | EmptyString => (None, EmptyString)
  | String c p' =>
    match cut_last_sep p' with
    | (Some head, tail) => (Some (String c head), tail)
    | (None, tail) =>
      if bool_decide (c = "/"%char) then (Some (String c EmptyString), tail)
      else (None, String c tail)
    end
  end.

Fixpoint rstrip_sep (s : string) : string :=
  match s with
  | String c s' =>
    match rstrip_sep s' with
    | EmptyString => if bool_decide (c = "/"%char) then EmptyString else String c EmptyString
    | r => String c r
    end
  | EmptyString => EmptyString
  end.

Definition path_split (p : string) : string * string :=
  match cut_last_sep p with
  | (Some head, tail) =>
    (if bool_decide (rstrip_sep head = "") then head else rstrip_sep head, tail)
  | (None, tail) => ("", tail)
  end.

(** The labels and file names of the script. *)
Definition initial_model_name : string := "initial_model".
Definition iteration_name (iteration : nat) : string :=
  "model_iteration_" +:+ pretty iteration.
Definition model_file_name (name : string) : string :=
  "best_model_" +:+ name +:+ ".joblib".
Definition features_file_name (name : string) : string :=
  "best_features_" +:+ name +:+ ".csv".

(* ===================================================================== *)
(** * The world of a run *)
(* ===================================================================== *)

(** The four metrics of [train_model]'s dictionary. *)
Record Metrics : Type := mkMetrics {
  R2 : float;
  RMSE : float;
  MAE : float;
  ExplainedVariance : float
}.

(** One entry of [models_metrics]: name, metrics, data. *)
Definition Recorded : Type := string * Metrics * DataFrame.

Definition rec_name (r : Recorded) : string := r.1.1.
Definition rec_metrics (r : Recorded) : Metrics := r.1.2.
Definition rec_data (r : Recorded) : DataFrame := r.2.

(** What [print] writes. *)
Inductive Msg : Type :=
| MsgNotFound (file_path : string)
| MsgInitialCount (initial_features : Z)
| MsgTrainingInitial
| MsgSelectionIteration (iteration : nat)
| MsgReachedMinimum (min_features : Z)
| MsgSelected (current_features : Z) (selected_features : list string)
| MsgTrainingIteration (iteration : nat)
| MsgBestFound
| MsgBestName (name : string)
| MsgBestMetrics (metrics : Metrics)
| MsgModelSaved (path : string)
| MsgFeaturesSaved (path : string).

(** The calls a run makes to the outside, in the order it makes them. *)
Inductive Event : Type :=
| EPrint (m : Msg)
| EInput (prompt : string)
| ERfe (X : DataFrame) (y : Series) (step n_features_to_select : Z)
| EMakedirs (path : string)
| EDump (path : string)
| EToCsv (path : string).

(** Python exceptions, by the step that raises them. *)
Inductive Exn : Type :=
| ParserError     (* pd.read_csv *)
| IndexError      (* positional or mask indexing *)
| FitError        (* split, fit, predict *)
| RankingError    (* RFE(...).fit *)
| ValueError      (* max of an empty sequence *)
| IOError         (* makedirs, dump, to_csv *)
| EOFError.       (* input *)

Inductive Res (A : Type) : Type :=
| Val (a : A)
| Raise (e : Exn)
| OutOfFuel.
Arguments Val {A} a.
Arguments Raise {A} e.
Arguments OutOfFuel {A}.

Section World.
Context {Model Rng : Type}.

(** Files hold a CSV table, a serialized model, or something else.  Paths
    are keys as written: neither normalisation nor the directory hierarchy
    is modelled. *)
Inductive Node : Type :=
| Dir
| CsvFile (t : Table)
| JoblibFile (m : Model)
| OtherFile.

Record World : Type := mkWorld {
  fs : gmap string Node;
  stdin : list string;
  rng : Rng;
  log : list Event
}.

Definition M (A : Type) : Type := World -> Res A * World.

Definition ret {A} (a : A) : M A := fun w => (Val a, w).
Definition raise {A} (e : Exn) : M A := fun w => (Raise e, w).
Definition out_of_fuel {A} : M A := fun w => (OutOfFuel, w).
Definition bind {A B} (m : M A) (k : A -> M B) : M B :=
  fun w =>
    match m w with
    | (Val a, w') => k a w'
    | (Raise e, w') => (Raise e, w')
    | (OutOfFuel, w') => (OutOfFuel, w')
    end.

Definition or_raise {A} (e : Exn) (o : option A) : M A :=
  match o with Some a => ret a | None => raise e end.

Definition emit (e : Event) : M unit :=
  fun w => (Val tt, {| fs := fs w; stdin := stdin w; rng := rng w; log := log w ++ [e] |}).

Definition print (m : Msg) : M unit := emit (EPrint m).

(** [input(prompt)]: the next line of standard input, [EOFError] at its end. *)
Definition input (prompt : string) : M string :=
  fun w =>
    match stdin w with
    | line :: rest =>
      (Val line, {| fs := fs w; stdin := rest; rng := rng w; log := log w ++ [EInput prompt] |})
    | [] => (Raise EOFError, {| fs := fs w; stdin := []; rng := rng w; log := log w ++ [EInput prompt] |})
    end.

(** [os.path.exists(path)] *)
Definition path_exists (path : string) : M bool :=
  fun w => (Val (bool_decide (path <> "") && bool_decide (is_Some (fs w !! path))), w).

(** What [os.mkdir] can fail with. *)
Inductive FsError : Type :=
| NoSuchPath      (* FileNotFoundError *)
| PathExists      (* FileExistsError *)
| NotADirectory.  (* NotADirectoryError *)

(** [os.mkdir(path)]: fails on the empty path, on an existing path and
    below a regular file. *)
Definition mkdir (path : string) (files : gmap string Node) : FsError + gmap string Node :=
  if bool_decide (path = "") then inl NoSuchPath
  else if bool_decide (is_Some (files !! path)) then inl PathExists
  else
    let head := (path_split path).1 in
    match (if bool_decide (head = "") then None else files !! head) with
    | Some Dir | None => inr (<[path := Dir]> files)
    | Some _ => inl NotADirectory
    end.

(** [os.makedirs(name)]: creates the head first when it is missing, then
    the directory itself.  The head is shorter than the name, so the
    length of the name bounds the recursion. *)
Fixpoint makedirs_in (fuel : nat) (name : string) (files : gmap string Node)
  : FsError + gmap string Node :=
  match fuel with
  | O => mkdir name files
  | S fuel' =>
    let '(head, tail) := path_split name in
    let '(head, tail) := if bool_decide (tail = "") then path_split head else (head, tail) in
    if bool_decide (head <> "") && bool_decide (tail <> "")
       && negb (bool_decide (is_Some (files !! head)))
    then
      match makedirs_in fuel' head files with
      | inr files' => mkdir name files'
      | inl PathExists => mkdir name files
      | inl e => inl e
      end
    else mkdir name files
  end.

Definition makedirs (path : string) : M unit :=
  fun w =>
    match makedirs_in (String.length path) path (fs w) with
    | inr files =>
      (Val tt, {| fs := files; stdin := stdin w; rng := rng w;
                  log := log w ++ [EMakedirs path] |})
    | inl _ =>
      (Raise IOError, {| fs := fs w; stdin := stdin w; rng := rng w;
                         log := log w ++ [EMakedirs path] |})
    end.

(** Creating or replacing the file at [path]; fails when [path] is a
    directory. *)
Definition write_file (ev : Event) (path : string) (content : Node) : M unit :=
  fun w =>
    match fs w !! path with
    | Some Dir =>
      (Raise IOError, {| fs := fs w; stdin := stdin w; rng := rng w; log := log w ++ [ev] |})
    | _ =>
      (Val tt, {| fs := <[path := content]> (fs w); stdin := stdin w; rng := rng w;
                  log := log w ++ [ev] |})
    end.

(** [joblib.dump(model, path)] and [df.to_csv(path, index=index)] *)
Definition dump (model : Model) (path : string) : M unit :=
  write_file (EDump path) path (JoblibFile model).
Definition to_csv_file (df : DataFrame) (path : string) (index : bool) : M unit :=
  write_file (EToCsv path) path (CsvFile (to_csv df index)).

(** [pd.read_csv(path)] *)
Definition read_csv_file (path : string) : M DataFrame :=
  fun w =>
    match fs w !! path with
    | Some (CsvFile t) => or_raise ParserError (read_csv t) w
    | Some Dir | None => (Raise IOError, w)
    | Some _ => (Raise ParserError, w)
    end.

End World.

Arguments Node : clear implicits.
Arguments World : clear implicits.
Arguments M : clear implicits.

(** The files after lines 113-114: [save_dir] and the directories that lead
    to it are there. *)
Definition with_directory {Model} (save_dir : string) (files : gmap string (Node Model))
  : gmap string (Node Model) :=
  if bool_decide (is_Some (files !! save_dir)) then files
  else
    match makedirs_in (String.length save_dir) save_dir files with
    | inr files' => files'
    | inl _ => files
    end.

Notation "'do' x <- c ; k" := (bind c (fun x => k))
  (at level 10, x name, c at level 100, k at level 200).
Notation "'do' ' p <- c ; k" := (bind c (fun x => let 'p := x in k))
  (at level 10, p pattern, c at level 100, k at level 200).
Notation "c ;; k" := (bind c (fun _ => k))
  (at level 100, k at level 200, right associativity).

(* ===================================================================== *)
(** * The statistical collaborators *)
(* ===================================================================== *)

(** What the script asks of scikit-learn.  [None] stands for a raised
    exception.  [train_test_split] receives the ambient generator of NumPy,
    which it consults when [random_state] is [None]. *)
Record Sklearn (Model Rng : Type) : Type := mkSklearn {
  train_test_split :
    DataFrame -> Series -> float -> option Z -> Rng ->
    option (DataFrame * DataFrame * Series * Series) * Rng;
  lr_fit : DataFrame -> Series -> option Model;
  lr_predict : Model -> DataFrame -> option Series;
  r2_score : Series -> Series -> float;
  mean_squared_error : Series -> Series -> float;
  mean_absolute_error : Series -> Series -> float;
  explained_variance_score : Series -> Series -> float;
  (** [RFE(estimator=SVR(kernel='linear'), step=step,
      n_features_to_select=n).fit(X, y).support_] *)
  rfe_support : DataFrame -> Series -> Z -> Z -> option (list bool)
}.
Arguments train_test_split {Model Rng} _.
Arguments lr_fit {Model Rng} _.
Arguments lr_predict {Model Rng} _.
Arguments r2_score {Model Rng} _.
Arguments mean_squared_error {Model Rng} _.
Arguments mean_absolute_error {Model Rng} _.
Arguments explained_variance_score {Model Rng} _.
Arguments rfe_support {Model Rng} _.

(** [max(l, key=key)] on float keys: a left-to-right scan that replaces the
    candidate only when a later key compares greater. *)
Definition max_by {A} (key : A -> float) (l : list A) : option A :=
  match l with
  | [] => None
  | x :: l' => Some (fold_left (fun best y => if gtb (key y) (key best) then y else best) l' x)
  end.

(** The prompt of line 121. *)
Definition input_prompt : string := "Do you want to save the best model? (yes/no): ".

(** [save_model in ('yes', 'y')] after [.strip().lower()] *)
Definition confirmed (answer : string) : bool :=
  let save_model := lower (strip answer) in
  bool_decide (save_model = "yes") || bool_decide (save_model = "y").

(* ===================================================================== *)
(** * The script *)
(* ===================================================================== *)

Section Pipeline.
Context {Model Rng : Type}.
Variable sk : Sklearn Model Rng.

Local Abbreviation Run := (M Model Rng).

(** The locals of [optimize_model] that are alive when it returns. *)
Record Summary : Type := mkSummary {
  models_metrics : list Recorded;
  best_model : Recorded;
  final_model : Model;
  best_model_file : string;
  best_features_file : string;
  save_model : string
}.

(** [train_test_split(X, y, test_size=0.2, random_state=42)] *)
Definition random_state : Z := 42.

Definition split (X : DataFrame) (y : Series)
  : Run (DataFrame * DataFrame * Series * Series) :=
  fun w =>
    let '(r, g) := train_test_split sk X y lit_0_2 (Some random_state) (rng w) in
    (match r with Some s => Val s | None => Raise FitError end,
     {| fs := fs w; stdin := stdin w; rng := g; log := log w |}).

Definition train_model (data : DataFrame) : Run (Model * Metrics) :=
  let X := iloc_features data in
  do y <- or_raise IndexError (iloc_target data);
  do '(X_train, X_test, y_train, y_test) <- split X y;
  do model <- or_raise FitError (lr_fit sk X_train y_train);
  do y_pred <- or_raise FitError (lr_predict sk model X_test);
  let metrics :=
    {| R2 := r2_score sk y_test y_pred;
       RMSE := sqrt (mean_squared_error sk y_test y_pred);
       MAE := mean_absolute_error sk y_test y_pred;
       ExplainedVariance := explained_variance_score sk y_test y_pred |} in
  ret (model, metrics).

(** Lines 57-59: the number of features asked of the ranking. *)
Definition n_features_to_select (X : DataFrame) (remove_count : Z) : Z :=
  let n_features := shape1 X - remove_count in
  if (n_features <? 1)%Z then 1 else n_features.

Definition feature_selection (data : DataFrame) (step remove_count : Z)
  : Run (DataFrame * list string) :=
  let X := iloc_features data in
  do y <- or_raise IndexError (iloc_target data);
  let n_features := n_features_to_select X remove_count in
  emit (ERfe X y step n_features);;
  do support_ <- or_raise RankingError (rfe_support sk X y step n_features);
  do selected_features <- or_raise IndexError (mask_index (columns X) support_);
  let X_selected := loc_columns X selected_features in
  let final_data := setitem X_selected "target" y in
  ret (final_data, selected_features).

(** The [while True] loop of lines 89-104, one pass per unit of fuel. *)
Fixpoint selection_loop (fuel : nat) (step remove_count min_features : Z)
    (data : DataFrame) (models_metrics : list Recorded)
    (iteration : nat) (current_features : Z) : Run (list Recorded) :=
  match fuel with
  | O => out_of_fuel
  | S fuel' =>
    print (MsgSelectionIteration iteration);;
    if (current_features <=? min_features)%Z then
      print (MsgReachedMinimum min_features);;
      ret models_metrics
    else
      do '(data, selected_features) <- feature_selection data step remove_count;
      let current_features := Z.of_nat (length selected_features) in
      print (MsgSelected current_features selected_features);;
      print (MsgTrainingIteration iteration);;
      do '(model, metrics) <- train_model data;
      let models_metrics := models_metrics ++ [(iteration_name iteration, metrics, data)] in
      selection_loop fuel' step remove_count min_features
                     data models_metrics (S iteration) current_features
  end.

(** Lines 113-127. *)
Definition persist (save_dir : string) (models_metrics : list Recorded)
    (best_model : Recorded) : Run Summary :=
  let '(best_model_name, best_metrics, best_data) := best_model in
  do present <- path_exists save_dir;
  (if negb present then makedirs save_dir else ret tt);;
  let best_model_file := path_join save_dir (model_file_name best_model_name) in
  let best_features_file := path_join save_dir (features_file_name best_model_name) in
  do y <- or_raise IndexError (iloc_target best_data);
  do final_model <- or_raise FitError (lr_fit sk (iloc_features best_data) y);
  do save_model <- input input_prompt;
  (if confirmed save_model then
     dump final_model best_model_file;;
     print (MsgModelSaved best_model_file)
   else ret tt);;
  to_csv_file best_data best_features_file false;;
  print (MsgFeaturesSaved best_features_file);;
  ret {| models_metrics := models_metrics; best_model := best_model;
         final_model := final_model; best_model_file := best_model_file;
         best_features_file := best_features_file; save_model := save_model |}.

(** [optimize_model]; [None] is the early [return] of line 75. *)
Definition optimize_model (fuel : nat) (file_path : string)
    (step remove_count min_features : Z) (save_dir : string) : Run (option Summary) :=
  do present <- path_exists file_path;
  if negb present then
    print (MsgNotFound file_path);;
    ret None
  else
    do data <- read_csv_file file_path;
    let initial_features := shape1 data - 1 in
    print (MsgInitialCount initial_features);;
    print MsgTrainingInitial;;
    do '(initial_model, initial_metrics) <- train_model data;
    let models_metrics := [(initial_model_name, initial_metrics, data)] in
    do models_metrics <-
      selection_loop fuel step remove_count min_features
                     data models_metrics 1%nat initial_features;
    do best_model <- or_raise ValueError (max_by (fun x => R2 (rec_metrics x)) models_metrics);
    print MsgBestFound;;
    print (MsgBestName (rec_name best_model));;
    print (MsgBestMetrics (rec_metrics best_model));;
    do summary <- persist save_dir models_metrics best_model;
    ret (Some summary).

(** The prompts of lines 130-134. *)
Definition file_path_prompt : string := "Enter the CSV file path: ".
Definition step_prompt : string := "Enter RFE step (features to remove each RFE sub-step): ".
Definition remove_count_prompt : string := "Enter how many features to remove each iteration: ".
Definition min_features_prompt : string := "Enter the minimum number of features to keep: ".
Definition save_dir_prompt : string := "Enter directory path to save results: ".

(** Lines 129-136: the script run as a program. *)
Definition main (fuel : nat) : Run (option Summary) :=
  do line <- input file_path_prompt;
  let file_path := strip line in
  do line <- input step_prompt;
  do step <- or_raise ValueError (int (strip line));
  do line <- input remove_count_prompt;
  do remove_count <- or_raise ValueError (int (strip line));
  do line <- input min_features_prompt;
  do min_features <- or_raise ValueError (int (strip line));
  do line <- input save_dir_prompt;
  let save_dir := strip line in
  optimize_model fuel file_path step remove_count min_features save_dir.

End Pipeline.

(* ===================================================================== *)
(** * Test doubles *)
(* ===================================================================== *)

(** Small deterministic collaborators on which the script can be run: the
    split holds out the first row, a fitted model is its training data, a
    prediction repeats the number of feature columns, and the ranking keeps
    the leading columns. *)
Module Stub.

Definition Model : Type := DataFrame * Series.
Definition Rng : Type := nat.

Definition rows_from (k : nat) (X : DataFrame) : DataFrame :=
  (fun c : Column => (fst c, drop k (snd c))) <$> X.
Definition rows_upto (k : nat) (X : DataFrame) : DataFrame :=
  (fun c : Column => (fst c, take k (snd c))) <$> X.

Definition split_first (X : DataFrame) (y : Series) (test_size : float)
    (seed : option Z) (g : Rng)
  : option (DataFrame * DataFrame * Series * Series) * Rng :=
  let k := match seed with Some _ => 1%nat | None => S (g `mod` 2) end in
  let g' := match seed with Some _ => g | None => S g end in
  if (length y <=? k)%nat then (None, g')
  else (Some (rows_from k X, rows_upto k X, drop k y, take k y), g').

Definition fit (X : DataFrame) (y : Series) : option Model :=
  match X with [] => None | _ => Some (X, y) end.

Definition predict (m : Model) (X : DataFrame) : option Series :=
  Some (replicate (n_rows X) (index_cell (length X))).

Definition keep_leading (X : DataFrame) (y : Series) (step n : Z) : option (list bool) :=
  if (1 <=? step)%Z && (1 <=? n)%Z && (n <=? shape1 X)%Z
  then Some (replicate (Z.to_nat n) true ++ replicate (length X - Z.to_nat n) false)
  else None.

(** The same ranking under the limits of [RFE.fit]: a frame of fewer than
    two columns is refused, and a request for more columns than there are
    keeps them all. *)
Definition rfe_leading (X : DataFrame) (y : Series) (step n : Z) : option (list bool) :=
  if (1 <=? step)%Z && (1 <=? n)%Z && (2 <=? shape1 X)%Z
  then let k := Z.to_nat (Z.min n (shape1 X)) in
       Some (replicate k true ++ replicate (length X - k) false)
  else None.

(** A ranking that gives up. *)
Definition no_ranking (X : DataFrame) (y : Series) (step n : Z) : option (list bool) := None.

(** Scores read off the prediction: the number of feature columns; NaN for
    two columns and 1.0 otherwise; a constant. *)
Definition score_width (y_true y_pred : Series) : float := default nan (head y_pred).
Definition score_nan_at_2 (y_true y_pred : Series) : float :=
  match head y_pred with
  | Some (S754_finite false 2 0) => nan
  | Some _ => one
  | None => nan
  end.
Definition score_half (y_true y_pred : Series) : float := half.
(** The fewer columns, the better. *)
Definition score_narrow (y_true y_pred : Series) : float :=
  match head y_pred with
  | Some (S754_finite false 1 0) => one
  | Some (S754_finite false 2 0) => half
  | Some _ => zero
  | None => nan
  end.

Definition sk (score : Series -> Series -> float)
    (ranking : DataFrame -> Series -> Z -> Z -> option (list bool)) : Sklearn Model Rng :=
  mkSklearn Model Rng split_first fit predict score
            (fun _ _ => zero) (fun _ _ => zero) (fun _ _ => one) ranking.

Definition num (n : positive) : float := S754_finite false n 0.

(** Three features [a], [b], [c] and the target [y], three rows. *)
Definition table_abc : Table :=
  {| header := ["a"; "b"; "c"; "y"];
     records := [[num 1; num 2; num 3; num 10];
                 [num 4; num 5; num 6; num 20];
                 [num 7; num 8; num 9; num 30]] |}.

(** Four features and the target. *)
Definition table_abcd : Table :=
  {| header := ["a"; "b"; "c"; "d"; "y"];
     records := [[num 1; num 2; num 3; num 4; num 10];
                 [num 5; num 6; num 7; num 8; num 20];
                 [num 9; num 10; num 11; num 12; num 30]] |}.

(** Two features and the target. *)
Definition table_ab : Table :=
  {| header := ["a"; "b"; "y"];
     records := [[num 1; num 2; num 10]; [num 4; num 5; num 20]; [num 7; num 8; num 30]] |}.

(** Ten features and the target, two rows. *)
Definition table_10 : Table :=
  {| header := ["f0"; "f1"; "f2"; "f3"; "f4"; "f5"; "f6"; "f7"; "f8"; "f9"; "y"];
     records := [[num 1; num 2; num 3; num 4; num 5; num 6; num 7; num 8; num 9; num 10;
                  num 100];
                 [num 2; num 3; num 4; num 5; num 6; num 7; num 8; num 9; num 10; num 11;
                  num 200]] |}.

(** One feature and the target. *)
Definition table_a : Table :=
  {| header := ["a"; "y"];
     records := [[num 1; num 10]; [num 4; num 20]; [num 7; num 30]] |}.

Definition world (t : Table) (answers : list string) (g : Rng) : World Model Rng :=
  {| fs := {[ "data.csv" := CsvFile t ]}; stdin := answers; rng := g; log := [] |}.

(** A run of the script on ["data.csv"] holding [t]. *)
Definition run (score : Series -> Series -> float)
    (ranking : DataFrame -> Series -> Z -> Z -> option (list bool))
    (t : Table) (answers : list string) (g : Rng)
    (fuel : nat) (step remove_count min_features : Z) (save_dir : string)
  : Res (option Summary) * World Model Rng :=
  optimize_model (sk score ranking) fuel "data.csv" step remove_count min_features save_dir
                 (world t answers g).

(** The collaborators of the runs below, and a world with more log. *)
Definition sk_width : Sklearn Model Rng := sk score_width keep_leading.
Definition logged (w : World Model Rng) (evs : list Event) : World Model Rng :=
  {| fs := fs w; stdin := stdin w; rng := rng w; log := log w ++ evs |}.

(** The frame of [table_a], and what a ranking pass makes of it. *)
Definition column_a : Column := ("a", [num 1; num 4; num 7]).
Definition values_y : Series := [num 10; num 20; num 30].
Definition frame_a : DataFrame := [column_a; ("y", values_y)].
Definition frame_a_target : DataFrame := [column_a; ("target", values_y)].

(** A frame whose first feature is itself named [target]. *)
Definition frame_target_b : DataFrame :=
  [("target", [num 1; num 2]); ("b", [num 3; num 4]); ("y", [num 10; num 20])].

(** A world in which the path of the baseline's feature-subset CSV is a
    directory, and one in which the path of its model file is. *)
Definition world_blocked (t : Table) (answers : list string) : World Model Rng :=
  {| fs := <["out/best_features_initial_model.csv" := Dir]>
             (<["out" := Dir]> {[ "data.csv" := CsvFile t ]});
     stdin := answers; rng := 0%nat; log := [] |}.
Definition world_model_blocked (t : Table) (answers : list string) : World Model Rng :=
  {| fs := <["out/best_model_initial_model.joblib" := Dir]>
             (<["out" := Dir]> {[ "data.csv" := CsvFile t ]});
     stdin := answers; rng := 0%nat; log := [] |}.

(** The program on ["data.csv"] holding [t]. *)
Definition program (t : Table) (answers : list string) (fuel : nat)
  : Res (option Summary) * World Model Rng :=
  main sk_width fuel (world t answers 0%nat).

End Stub.

(* ===================================================================== *)
(** * The two single-model scripts *)
(* ===================================================================== *)

(** [linear_regression_model.py] and
    [rfe_linear_regression_feature_selection.py] are programs without
    functions; they print other messages and fail in other ways than
    [optimize_model], so they run in a world of their own, over the same
    frames, files and collaborators. *)
Module Scripts.

(** What the two scripts print. *)
Inductive Msg : Type :=
| MsgFileNotFound (file_path : string)
| MsgR2 (r2 : float)
| MsgAdjustedR2 (adjusted_r2 : float)
| MsgExplainedVariance (explained_variance : float)
| MsgRMSE (rmse : float)
| MsgMAE (mae : float)
| MsgMSE (mse : float)
| MsgCreatingDirectory (save_directory : string)
| MsgModelSaved (model_name save_directory : string)
| MsgEndOfAnalysis
| MsgInvalidAnswer
| MsgSelectedFeatures (selected_features : list string)
| MsgFileSaved (save_path : string).

(** Python exceptions. *)
Inductive Exn : Type :=
| SystemExit          (* exit() *)
| FileNotFoundError   (* a path that names nothing, the empty path *)
| IsADirectoryError   (* reading or writing a directory *)
| FileExistsError     (* os.makedirs on an existing path *)
| NotADirectoryError  (* a path below a regular file *)
| ParserError         (* pd.read_csv *)
| IndexError          (* positional or mask indexing *)
| FitError            (* split, fit, predict *)
| RankingError        (* RFE(...).fit *)
| OverflowError       (* an integer too large for a float *)
| ZeroDivisionError   (* float division by zero *)
| EOFError.           (* input *)

Inductive Res (A : Type) : Type :=
| Val (a : A)
| Raise (e : Exn)
| OutOfFuel.
Arguments Val {A} a.
Arguments Raise {A} e.
Arguments OutOfFuel {A}.

(** The type of the number [r2_score] returns: a Python [float] in recent
    releases of scikit-learn, a [numpy.float64] in earlier ones.  They
    differ in the quotient by zero. *)
Inductive ScoreType : Type := PythonFloat | NumpyFloat64.

Section World.
Context {Model Rng : Type}.

(** The calls a script makes to the outside, with what it hands over. *)
Inductive Event : Type :=
| EPrint (m : Msg)
| EInput (prompt : string)
| ERfe (X : DataFrame) (y : Series) (step n_features_to_select : Z)
| EMakedirs (path : string)
| EDump (model : Model) (path : string)
| EToCsv (df : DataFrame) (path : string).

Record World : Type := mkWorld {
  fs : gmap string (Node Model);
  stdin : list string;
  rng : Rng;
  log : list Event
}.

Definition M (A : Type) : Type := World -> Res A * World.

Definition ret {A} (a : A) : M A := fun w => (Val a, w).
Definition raise {A} (e : Exn) : M A := fun w => (Raise e, w).
Definition out_of_fuel {A} : M A := fun w => (OutOfFuel, w).
Definition bind {A B} (m : M A) (k : A -> M B) : M B :=
  fun w =>
    match m w with
    | (Val a, w') => k a w'
    | (Raise e, w') => (Raise e, w')
    | (OutOfFuel, w') => (OutOfFuel, w')
    end.

Definition or_raise {A} (e : Exn) (o : option A) : M A :=
  match o with Some a => ret a | None => raise e end.

(** A computation that does not look at the world. *)
Definition lift {A} (r : Res A) : M A := fun w => (r, w).

Definition logged (w : World) (evs : list Event) : World :=
  {| fs := fs w; stdin := stdin w; rng := rng w; log := log w ++ evs |}.

Definition emit (e : Event) : M unit := fun w => (Val tt, logged w [e]).

Definition print (m : Msg) : M unit := emit (EPrint m).

(** [input(prompt)]: the next line of standard input, [EOFError] at its end. *)
Definition input (prompt : string) : M string :=
  fun w =>
    match stdin w with
    | line :: rest =>
      (Val line, {| fs := fs w; stdin := rest; rng := rng w; log := log w ++ [EInput prompt] |})
    | [] => (Raise EOFError, logged w [EInput prompt])
    end.

(** [os.path.exists(path)] *)
Definition path_exists (path : string) : M bool :=
  fun w => (Val (bool_decide (path <> "") && bool_decide (is_Some (fs w !! path))), w).

(** [os.makedirs(path)] *)
Definition fs_exn (e : FsError) : Exn :=
  match e with
  | NoSuchPath => FileNotFoundError
  | PathExists => FileExistsError
  | NotADirectory => NotADirectoryError
  end.

Definition makedirs (path : string) : M unit :=
  fun w =>
    match makedirs_in (String.length path) path (fs w) with
    | inr files =>
      (Val tt, {| fs := files; stdin := stdin w; rng := rng w;
                  log := log w ++ [EMakedirs path] |})
    | inl e => (Raise (fs_exn e), logged w [EMakedirs path])
    end.

(** A path whose last component is empty, [.] or [..] names a directory. *)
Definition names_directory (path : string) : bool :=
  let tail := (path_split path).2 in
  bool_decide (tail = "") || bool_decide (tail = ".") || bool_decide (tail = "..").

(** Creating or replacing the file at [path]. *)
Definition write_file (ev : Event) (path : string) (content : Node Model) : M unit :=
  fun w =>
    if bool_decide (path = "") then (Raise FileNotFoundError, logged w [ev])
    else if names_directory path then (Raise IsADirectoryError, logged w [ev])
    else
      match fs w !! path with
      | Some Dir => (Raise IsADirectoryError, logged w [ev])
      | _ =>
        (Val tt, {| fs := <[path := content]> (fs w); stdin := stdin w; rng := rng w;
                    log := log w ++ [ev] |})
      end.

(** [joblib.dump(model, path)] and [df.to_csv(path, index=index)] *)
Definition dump (model : Model) (path : string) : M unit :=
  write_file (EDump model path) path (JoblibFile model).
Definition to_csv_file (df : DataFrame) (path : string) (index : bool) : M unit :=
  write_file (EToCsv df path) path (CsvFile (to_csv df index)).

(** [pd.read_csv(path)] *)
Definition read_csv_file (path : string) : M DataFrame :=
  fun w =>
    if bool_decide (path = "") then (Raise FileNotFoundError, w)
    else
      match fs w !! path with
      | Some (CsvFile t) => or_raise ParserError (read_csv t) w
      | Some Dir => (Raise IsADirectoryError, w)
      | Some _ => (Raise ParserError, w)
      | None => (Raise FileNotFoundError, w)
      end.

End World.

Arguments Event : clear implicits.
Arguments World : clear implicits.
Arguments M : clear implicits.

Declare Scope script_scope.
Notation "'do' x <- c ; k" := (bind c (fun x => k))
  (at level 10, x name, c at level 100, k at level 200) : script_scope.
Notation "'do' ' p <- c ; k" := (bind c (fun x => let 'p := x in k))
  (at level 10, p pattern, c at level 100, k at level 200) : script_scope.
Notation "c ;; k" := (bind c (fun _ => k))
  (at level 100, k at level 200, right associativity) : script_scope.
Local Open Scope script_scope.

Section Programs.
Context {Model Rng : Type}.
Variable sk : Sklearn Model Rng.
Variable score_type : ScoreType.

(** [RFE(estimator=LinearRegression(), n_features_to_select=n,
    step=step).fit(X, y).support_] *)
Variable rfe_linear_support : DataFrame -> Series -> Z -> Z -> option (list bool).

Local Abbreviation Run := (M Model Rng).

(* --------------------------------------------------------------------- *)
(** ** linear_regression_model.py *)
(* --------------------------------------------------------------------- *)

(** [train_test_split(X, y, test_size=0.2, random_state=42)] *)
Definition split (X : DataFrame) (y : Series)
  : Run (DataFrame * DataFrame * Series * Series) :=
  fun w =>
    let '(r, g) := train_test_split sk X y lit_0_2 (Some 42) (rng w) in
    (match r with Some s => Val s | None => Raise FitError end,
     {| fs := fs w; stdin := stdin w; rng := g; log := log w |}).

(** [a / b] for a score [a] and an integer [b]. *)
Definition true_divide (a : float) (b : Z) : Res float :=
  match of_int b with
  | None => Raise OverflowError
  | Some b =>
    if is_zero b then
      match score_type with
      | PythonFloat => Raise ZeroDivisionError
      | NumpyFloat64 => Val (div a b)
      end
    else Val (div a b)
  end.

(** Line 54: [1 - (((1 - r2) * (n - 1)) / (n - k - 1))] *)
Definition adjusted_r2_score (r2 : float) (n k : Z) : Res float :=
  match of_int (n - 1) with
  | None => Raise OverflowError
  | Some n1 =>
    match true_divide (mul (sub one r2) n1) (n - k - 1) with
    | Val q => Val (sub one q)
    | Raise e => Raise e
    | OutOfFuel => OutOfFuel
    end
  end.

Definition file_prompt : string := "File Directory: ".
Definition save_prompt : string := "Do you want to save the model? (yes/no): ".
Definition name_prompt : string := "Model name (with the extension .joblib): ".
Definition directory_prompt : string := "Save directory: ".

(** [save_model in ("yes", "y")] and [save_model in ("no", "n")] *)
Definition is_yes (save_model : string) : bool :=
  bool_decide (save_model = "yes") || bool_decide (save_model = "y").
Definition is_no (save_model : string) : bool :=
  bool_decide (save_model = "no") || bool_decide (save_model = "n").

(** Lines 78-87. *)
Definition save_model_file (lr_model : Model) : Run unit :=
  do line <- input name_prompt;
  let model_name := strip line in
  do line <- input directory_prompt;
  let save_directory := strip line in
  do present <- path_exists save_directory;
  (if negb present then
     print (MsgCreatingDirectory save_directory);;
     makedirs save_directory
   else ret tt);;
  let full_path := path_join save_directory model_name in
  dump lr_model full_path;;
  print (MsgModelSaved model_name save_directory).

(** The [while True] loop of lines 74-95, one answer per unit of fuel. *)
Fixpoint save_dialogue (fuel : nat) (lr_model : Model) : Run unit :=
  match fuel with
  | O => out_of_fuel
  | S fuel' =>
    do line <- input save_prompt;
    let save_model := lower (strip line) in
    if is_yes save_model then save_model_file lr_model
    else if is_no save_model then print MsgEndOfAnalysis
    else
      print MsgInvalidAnswer;;
      save_dialogue fuel' lr_model
  end.

Definition linear_regression_model (fuel : nat) : Run unit :=
  do line <- input file_prompt;
  let file_path := strip line in
  do present <- path_exists file_path;
  if negb present then
    print (MsgFileNotFound file_path);;
    raise SystemExit
  else
    do data <- read_csv_file file_path;
    let X := iloc_features data in
    do y <- or_raise IndexError (iloc_target data);
    do '(X_train, X_test, y_train, y_test) <- split X y;
    do lr_model <- or_raise FitError (lr_fit sk X_train y_train);
    do y_pred <- or_raise FitError (lr_predict sk lr_model X_test);
    let r2 := r2_score sk y_test y_pred in
    print (MsgR2 r2);;
    let n := Z.of_nat (length y_test) in
    let k := shape1 X_test in
    do adjusted_r2 <- lift (adjusted_r2_score r2 n k);
    print (MsgAdjustedR2 adjusted_r2);;
    let explained_variance := explained_variance_score sk y_test y_pred in
    print (MsgExplainedVariance explained_variance);;
    let rmse := sqrt (mean_squared_error sk y_test y_pred) in
    print (MsgRMSE rmse);;
    let mae := mean_absolute_error sk y_test y_pred in
    print (MsgMAE mae);;
    let mse := mean_squared_error sk y_test y_pred in
    print (MsgMSE mse);;
    save_dialogue fuel lr_model.

(* --------------------------------------------------------------------- *)
(** ** rfe_linear_regression_feature_selection.py *)
(* --------------------------------------------------------------------- *)

Definition csv_prompt : string := "Enter the CSV file path: ".
Definition save_path_prompt : string := "Enter the path to save the new CSV file: ".

(** [n_features_to_select=32, step=1] *)
Definition n_features_to_select : Z := 32.
Definition rfe_step : Z := 1.

Definition rfe_linear_regression_feature_selection : Run unit :=
  do line <- input csv_prompt;
  let file_path := strip line in
  do data <- read_csv_file file_path;
  let X := iloc_features data in
  do y <- or_raise IndexError (iloc_target data);
  emit (ERfe X y rfe_step n_features_to_select);;
  do support_ <- or_raise RankingError (rfe_linear_support X y rfe_step n_features_to_select);
  do selected_features <- or_raise IndexError (mask_index (columns X) support_);
  print (MsgSelectedFeatures selected_features);;
  let X_selected := loc_columns X selected_features in
  let final_data := setitem X_selected "target" y in
  do line <- input save_path_prompt;
  let save_path := strip line in
  to_csv_file final_data save_path false;;
  print (MsgFileSaved save_path).

End Programs.

(* --------------------------------------------------------------------- *)
(** ** Vocabulary of the statements *)
(* --------------------------------------------------------------------- *)

Section Vocabulary.
Context {Model Rng : Type}.

(** An answer that is neither a yes nor a no. *)
Definition invalid_answer (line : string) : Prop :=
  is_yes (lower (strip line)) = false /\ is_no (lower (strip line)) = false.

(** What the dialogue logs while it is given such answers. *)
Definition asked_again (bad : list string) : list (Event Model) :=
  bad ≫= (fun _ => [EInput save_prompt; EPrint MsgInvalidAnswer]).

(** Events that create a directory or a file. *)
Definition touches_files (e : Event Model) : bool :=
  match e with EMakedirs _ | EDump _ _ | EToCsv _ _ => true | _ => false end.

(** The computation comes to an end. *)
Definition ends {A} (m : M Model Rng A) (w : World Model Rng) : Prop :=
  (m w).1 <> OutOfFuel.

(** The script has loaded the file named on the first line, split it,
    fitted [lr_model] on the training part and predicted the held-out
    part. *)
Record evaluated (sk : Sklearn Model Rng) (w : World Model Rng)
    (line : string) (rest : list string)
    (X_test : DataFrame) (y_test : Series) (g : Rng)
    (lr_model : Model) (y_pred : Series) : Prop := mkEvaluated {
  ev_stdin : stdin w = line :: rest;
  ev_path : strip line <> "";
  ev_split :
    exists t data y X_train y_train,
      fs w !! strip line = Some (CsvFile t) /\
      read_csv t = Some data /\
      iloc_target data = Some y /\
      train_test_split sk (iloc_features data) y lit_0_2 (Some 42) (rng w)
        = (Some (X_train, X_test, y_train, y_test), g) /\
      lr_fit sk X_train y_train = Some lr_model;
  ev_predict : lr_predict sk lr_model X_test = Some y_pred
}.

(** The six scores, as the script prints them. *)
Definition printed_scores (sk : Sklearn Model Rng) (y_test y_pred : Series)
    (adjusted_r2 : float) : list (Event Model) :=
  [EPrint (MsgR2 (r2_score sk y_test y_pred));
   EPrint (MsgAdjustedR2 adjusted_r2);
   EPrint (MsgExplainedVariance (explained_variance_score sk y_test y_pred));
   EPrint (MsgRMSE (sqrt (mean_squared_error sk y_test y_pred)));
   EPrint (MsgMAE (mean_absolute_error sk y_test y_pred));
   EPrint (MsgMSE (mean_squared_error sk y_test y_pred))].

End Vocabulary.

(* --------------------------------------------------------------------- *)
(** ** Test doubles *)
(* --------------------------------------------------------------------- *)

(** A split that holds out the first two rows. *)
Definition split_two (X : DataFrame) (y : Series) (test_size : float)
    (seed : option Z) (g : Stub.Rng)
  : option (DataFrame * DataFrame * Series * Series) * Stub.Rng :=
  if (length y <=? 2)%nat then (None, g)
  else (Some (Stub.rows_from 2 X, Stub.rows_upto 2 X, drop 2 y, take 2 y), g).

Definition sk_two : Sklearn Stub.Model Stub.Rng :=
  mkSklearn Stub.Model Stub.Rng split_two Stub.fit Stub.predict Stub.score_width
            (fun _ _ => zero) (fun _ _ => zero) (fun _ _ => one) Stub.no_ranking.

(** A ranking that keeps the leading columns, all of them when asked for
    more than there are. *)
Definition keep_up_to (X : DataFrame) (y : Series) (step n : Z) : option (list bool) :=
  if (1 <=? step)%Z && (1 <=? n)%Z
  then let kept := Nat.min (Z.to_nat n) (length X) in
       Some (replicate kept true ++ replicate (length X - kept) false)
  else None.

(** Thirty-three features [f0] ... [f32] and the target [y], two rows. *)
Definition table_33 : Table :=
  {| header := ((fun i => "f" +:+ pretty i) <$> seq 0 33) ++ ["y"];
     records := [replicate 34 (Stub.num 1); replicate 34 (Stub.num 2)] |}.

Definition world (t : Table) (answers : list string) : World Stub.Model Stub.Rng :=
  {| fs := {[ "data.csv" := CsvFile t ]}; stdin := answers; rng := 0%nat; log := [] |}.

End Scripts.

(* ===================================================================== *)
(** * Verification *)
(* ===================================================================== *)

Section Verification.
Context {Model Rng : Type}.
Variable sk : Sklearn Model Rng.
Implicit Types w : World Model Rng.

(* --------------------------------------------------------------------- *)
(** ** Vocabulary of the statements *)
(* --------------------------------------------------------------------- *)

(** [support_.sum()] *)
Fixpoint count_true (mask : list bool) : nat :=
  match mask with
  | [] => 0
  | b :: mask' => (if b then 1 else 0) + count_true mask'
  end.

(** Rows: every column has [n] values. *)
Definition rows_are (n : nat) (df : DataFrame) : Prop :=
  Forall (fun c : Column => length (snd c) = n) df.

(** The working data is an order-preserving selection of the original
    feature columns followed by the original target values. *)
Definition shaped_frame (data0 : DataFrame) (y0 : Series) (data : DataFrame) : Prop :=
  exists S tname, data = S ++ [(tname, y0)] /\ sublist S (iloc_features data0).

(** A recorded entry is the baseline with the original data, or an iteration
    whose data is such a selection with the target in a column [target]. *)
Definition recorded_frame (data0 : DataFrame) (y0 : Series) (r : Recorded) : Prop :=
  (rec_name r = initial_model_name /\ rec_data r = data0) \/
  (rec_name r <> initial_model_name /\
   exists S, rec_data r = S ++ [("target", y0)] /\ sublist S (iloc_features data0)).

(** The events of the selection loop: messages, and ranking requests for
    [max(1, X.shape[1] - remove_count)] features. *)
Definition loop_event (remove_count : Z) (e : Event) : Prop :=
  match e with
  | EPrint _ => True
  | ERfe X _ _ n => n = Z.max 1 (shape1 X - remove_count) /\ 1 <= n
  | _ => False
  end.

(** Every ranking request of a log asks for that many features. *)
Definition rfe_request_ok (remove_count : Z) (e : Event) : Prop :=
  match e with
  | ERfe X _ _ n => n = Z.max 1 (shape1 X - remove_count) /\ 1 <= n
  | _ => True
  end.

Definition is_write (e : Event) : bool :=
  match e with EDump _ | EToCsv _ => true | _ => false end.

(** The number of ranking passes of a log. *)
Definition is_rfe (e : Event) : bool :=
  match e with ERfe _ _ _ _ => true | _ => false end.
Definition rfe_calls (evs : list Event) : nat := length (filter is_rfe evs).

(** The feature counts a log reports, pass after pass. *)
Definition selected_counts (evs : list Event) : list Z :=
  omap (fun e => match e with EPrint (MsgSelected n _) => Some n | _ => None end) evs.

(** [ceil(a / b)] for a positive [b]. *)
Definition ceil_div (a b : Z) : Z := (a + b - 1) / b.

(** Events that create a directory or a file. *)
Definition touches_files (e : Event) : bool :=
  match e with EMakedirs _ | EDump _ | EToCsv _ => true | _ => false end.

(** The file writes of a log, in order. *)
Definition writes (evs : list Event) : list Event := filter is_write evs.

Section MaxByVocabulary.
Context {A : Type} (key : A -> float).

Definition scan_step (best y : A) : A := if gtb (key y) (key best) then y else best.

(** The candidate after scanning [pre] sits at index [i] of [pre]; it is at
    least every scanned key and greater than every key before it. *)
Definition leads (pre : list A) (i : nat) (best : A) : Prop :=
  pre !! i = Some best /\
  forall j r, pre !! j = Some r ->
    geb (key best) (key r) = true /\ ((j < i)%nat -> gtb (key best) (key r) = true).

End MaxByVocabulary.

(** The key of line 106. *)
Definition r2_key (x : Recorded) : float := R2 (rec_metrics x).

(** A relation between the world before and after holds of every outcome of
    a computation. *)
Definition keeps (R : relation (World Model Rng)) {A} (m : M Model Rng A) : Prop :=
  forall w, R w (m w).2.

(** The log only grows, by events satisfying [P]. *)
Definition extends (P : Event -> Prop) w w' : Prop :=
  exists evs, log w' = log w ++ evs /\ Forall P evs.

(** As [extends], and neither the files nor the pending input change. *)
Definition quiet (P : Event -> Prop) w w' : Prop :=
  fs w' = fs w /\ stdin w' = stdin w /\ extends P w w'.

(** The result of a computation does not depend on the world it starts in. *)
Definition pure_value {A} (m : M Model Rng A) : Prop :=
  forall w1 w2, (m w1).1 = (m w2).1.

(** Started in [w], the computation comes to an end (a value or an
    exception) after at most [k] ranking passes. *)
Definition ends_within (k : nat) {A} (m : M Model Rng A) w : Prop :=
  (m w).1 <> OutOfFuel /\
  exists evs, log (m w).2 = log w ++ evs /\ (rfe_calls evs <= k)%nat.

(** Only exceptions in [E] are raised. *)
Definition raises_only (E : Exn -> Prop) {A} (m : M Model Rng A) : Prop :=
  forall w e w', m w = (Raise e, w') -> E e.

(** The recorded metrics of a frame are those of a model fitted on the
    training part of the seeded split and evaluated on the held-out part. *)
Definition evaluated_on_split (data : DataFrame) (metrics : Metrics) : Prop :=
  exists y X_train X_test y_train y_test g g' model y_pred,
    iloc_target data = Some y /\
    train_test_split sk (iloc_features data) y lit_0_2 (Some random_state) g
      = (Some (X_train, X_test, y_train, y_test), g') /\
    lr_fit sk X_train y_train = Some model /\
    lr_predict sk model X_test = Some y_pred /\
    metrics = {| R2 := r2_score sk y_test y_pred;
                 RMSE := sqrt (mean_squared_error sk y_test y_pred);
                 MAE := mean_absolute_error sk y_test y_pred;
                 ExplainedVariance := explained_variance_score sk y_test y_pred |}.

(** The events of the persistence stage of a completed run. *)
Definition persist_events (existed : bool) (save_dir : string) (s : Summary (Model := Model))
  : list Event :=
  (if existed then [] else [EMakedirs save_dir])
  ++ [EInput input_prompt]
  ++ (if confirmed (save_model s)
      then [EDump (best_model_file s); EPrint (MsgModelSaved (best_model_file s))]
      else [])
  ++ [EToCsv (best_features_file s); EPrint (MsgFeaturesSaved (best_features_file s))].

(** What a completed persistence stage has done, read off lines 113-127. *)
Record persisted (save_dir : string) (mm : list Recorded) (best : Recorded)
    (w : World Model Rng) (s : Summary) (w' : World Model Rng) : Prop := mkPersisted {
  p_models_metrics : models_metrics s = mm;
  p_best_model : best_model s = best;
  p_model_file :
    best_model_file s = path_join save_dir (model_file_name (rec_name best));
  p_features_file :
    best_features_file s = path_join save_dir (features_file_name (rec_name best));
  p_final_model :
    exists y, iloc_target (rec_data best) = Some y /\
              lr_fit sk (iloc_features (rec_data best)) y = Some (final_model s);
  p_stdin : stdin w = save_model s :: stdin w';
  p_rng : rng w' = rng w;
  p_dir : save_dir <> "";
  p_log :
    log w' = log w ++ persist_events (bool_decide (is_Some (fs w !! save_dir))) save_dir s;
  p_fs :
    let fs1 := with_directory save_dir (fs w) in
    let fs2 := if confirmed (save_model s)
               then <[best_model_file s := JoblibFile (final_model s)]> fs1 else fs1 in
    fs w' = <[best_features_file s := CsvFile (to_csv (rec_data best) false)]> fs2;
  p_made : with_directory save_dir (fs w) !! save_dir <> None
}.

(** A completed run, stage by stage. *)
Inductive completed (fuel : nat) (file_path : string) (step remove_count min_features : Z)
    (save_dir : string) (w : World Model Rng) (s : Summary) (w' : World Model Rng)
    : Prop :=
| Completed (t : Table) (data : DataFrame) (metrics0 : Metrics) (w1 w2 w3 : World Model Rng)
    (c_path : file_path <> "")
    (c_file : fs w !! file_path = Some (CsvFile t))
    (c_read : read_csv t = Some data)
    (c_initial : exists model wa wb, train_model sk data wa = (Val (model, metrics0), wb))
    (c_loop :
       selection_loop sk fuel step remove_count min_features data
         [(initial_model_name, metrics0, data)] 1%nat (shape1 data - 1) w1
       = (Val (models_metrics s), w2))
    (c_best : max_by r2_key (models_metrics s) = Some (best_model s))
    (c_quiet : quiet (loop_event remove_count) w w3)
    (c_persist : persisted save_dir (models_metrics s) (best_model s) w3 s w').


(** The outcome of the last statement of [optimize_model], given that of
    the persistence stage. *)
Definition some_res {A} (r : Res A) : Res (option A) :=
  match r with
  | Val a => Val (Some a)
  | Raise e => Raise e
  | OutOfFuel => OutOfFuel
  end.

(** The path [d] begins with [p]. *)
Definition path_prefix (p d : string) : Prop := exists rest, d = p +:+ rest.

(** From [files] to [files'] nothing has changed but for directories
    created at paths that were free, each of them a beginning of [save_dir]. *)
Definition directories_made (save_dir : string)
    (files files' : gmap string (Node Model)) : Prop :=
  forall p,
    files' !! p = files !! p \/
    (files !! p = None /\ files' !! p = Some Dir /\ path_prefix p save_dir).

(** The files at the paths outside [P] are as they were. *)
Definition only_paths (P : string -> Prop) w w' : Prop :=
  forall p, ~ P p -> fs w' !! p = fs w !! p.


(** The exceptions of the stages before the persistence stage. *)
Definition loop_error (e : Exn) : Prop :=
  match e with
  | ValueError | EOFError => False
  | _ => True
  end.

(** The events of lines 113-114. *)
Definition makedirs_events (save_dir : string) (files : gmap string (Node Model))
  : list Event :=
  if bool_decide (is_Some (files !! save_dir)) then [] else [EMakedirs save_dir].

(** From one working frame to the next: the features are a selection of
    the previous features, in their order and with their values, and the
    target values are the same. *)
Definition shrinks_to (prev next : DataFrame) : Prop :=
  sublist (iloc_features next) (iloc_features prev) /\
  iloc_target next = iloc_target prev.

(** Each recorded frame shrinks the one before it, starting from [prev]. *)
Fixpoint shrinking (prev : DataFrame) (rest : list Recorded) : Prop :=
  match rest with
  | [] => True
  | r :: rest' => shrinks_to prev (rec_data r) /\ shrinking (rec_data r) rest'
  end.

(** The feature count that pass [i] (from 1) leaves, starting from [n]
    features and removing [remove_count] per pass. *)
Definition count_after (n remove_count : Z) (i : nat) : Z :=
  Z.max 1 (n - Z.of_nat i * remove_count).

(** The five prompts of the program, in order. *)
Definition main_prompts : list Event :=
  [EInput file_path_prompt; EInput step_prompt; EInput remove_count_prompt;
   EInput min_features_prompt; EInput save_dir_prompt].

Definition is_input (e : Event) : Prop :=
  match e with EInput _ => True | _ => False end.

(** Text within ASCII, on which [strip], [lower] and [int] are modelled. *)
Fixpoint ascii_text (s : string) : bool :=
  match s with
  | String c s' => (nat_of_ascii c <? 128)%nat && ascii_text s'
  | EmptyString => true
  end.
(* --------------------------------------------------------------------- *)
(** ** Order on floats *)
(* --------------------------------------------------------------------- *)

Ltac float_cases :=
  repeat match goal with s : bool |- _ => destruct s end;
  cbn; try reflexivity; try discriminate.

Ltac compare_cases :=
  repeat match goal with
  | |- context [Z.compare ?a ?b] => destruct (Z.compare_spec a b); subst
  | H : context [Z.compare ?a ?b] |- _ => destruct (Z.compare_spec a b); subst
  | |- context [Pos.compare_cont Eq ?a ?b] =>
      change (Pos.compare_cont Eq a b) with (Pos.compare a b);
      destruct (Pos.compare_spec a b); subst
  | H : context [Pos.compare_cont Eq ?a ?b] |- _ =>
      change (Pos.compare_cont Eq a b) with (Pos.compare a b) in H;
      destruct (Pos.compare_spec a b); subst
  end;
  cbn in *; try reflexivity; try discriminate; try lia.

Lemma gtb_geb_trans (y b r : float) :
  gtb y b = true -> geb b r = true -> gtb y r = true.
Proof.
  unfold gtb, geb, SFleb, SFltb, SFcompare.
  destruct r as [s1|s1| |s1 m1 e1], b as [s2|s2| |s2 m2 e2], y as [s3|s3| |s3 m3 e3];
    float_cases; intros; compare_cases.
Qed.

Lemma not_gtb_geb (y b : float) :
  is_nan y = false -> is_nan b = false -> gtb y b = false -> geb b y = true.
Proof.
  unfold gtb, geb, SFleb, SFltb, SFcompare.
  destruct b as [s2|s2| |s2 m2 e2], y as [s3|s3| |s3 m3 e3];
    float_cases; intros; compare_cases.
Qed.

Lemma gtb_geb (a b : float) : gtb a b = true -> geb a b = true.
Proof.
  unfold gtb, geb, SFleb, SFltb. destruct (SFcompare b a) as [[]|]; congruence.
Qed.

Lemma geb_refl (a : float) : is_nan a = false -> geb a a = true.
Proof.
  unfold geb, SFleb, SFcompare.
  destruct a as [s|s| |s m e]; float_cases; intros; compare_cases.
Qed.

Lemma gtb_not_eqb (a b : float) : gtb a b = true -> eqb b a = false.
Proof.
  unfold gtb, eqb, SFeqb, SFltb. destruct (SFcompare b a) as [[]|]; congruence.
Qed.

Lemma geb_not_nan (a b : float) : geb a b = true -> is_nan a = false /\ is_nan b = false.
Proof.
  unfold geb, SFleb, SFcompare. destruct a, b; cbn; try discriminate; auto.
Qed.

(* --------------------------------------------------------------------- *)
(** ** The scan of [max] *)
(* --------------------------------------------------------------------- *)

Section MaxBy.
Context {A : Type} (key : A -> float).

Lemma leads_scan (l pre : list A) (i : nat) (best : A) :
  Forall (fun r => is_nan (key r) = false) (pre ++ l) ->
  leads key pre i best ->
  exists i', leads key (pre ++ l) i' (fold_left (scan_step key) l best).
Proof.
  revert pre i best. induction l as [|y l IH]; intros pre i best Hnan Hl.
  - rewrite app_nil_r. eauto.
  - cbn [fold_left]. replace (pre ++ y :: l) with ((pre ++ [y]) ++ l) in *
      by (rewrite <- app_assoc; reflexivity).
    assert (Hy : is_nan (key y) = false).
    { rewrite Forall_app in Hnan. destruct Hnan as [Hnan _].
      rewrite Forall_app in Hnan. destruct Hnan as [_ Hnan].
      inversion Hnan; auto. }
    destruct Hl as [Hi Hall].
    assert (Hb : is_nan (key best) = false).
    { destruct (Hall _ _ Hi) as [Hge _]. apply geb_not_nan in Hge. tauto. }
    unfold scan_step at 2. destruct (gtb (key y) (key best)) eqn:Hgt.
    + apply (IH _ (length pre)); [assumption|]. split.
      * rewrite lookup_app_r by lia. rewrite Nat.sub_diag. reflexivity.
      * intros j r Hj. destruct (decide (j < length pre)%nat) as [Hlt|Hge].
        -- rewrite lookup_app_l in Hj by assumption.
           destruct (Hall _ _ Hj) as [Hr _].
           pose proof (gtb_geb_trans _ _ _ Hgt Hr) as Hs.
           split; [apply gtb_geb; assumption | intros _; assumption].
        -- rewrite lookup_app_r in Hj by lia.
           destruct (j - length pre)%nat as [|k] eqn:Hk; cbn in Hj; [|destruct k; discriminate].
           inversion Hj; subst r. split; [apply geb_refl; assumption | intros; lia].
    + apply (IH _ i); [assumption|]. split.
      * rewrite lookup_app_l; [assumption|]. apply lookup_lt_Some in Hi. assumption.
      * intros j r Hj. destruct (decide (j < length pre)%nat) as [Hlt|Hge].
        -- rewrite lookup_app_l in Hj by assumption. apply (Hall _ _ Hj).
        -- rewrite lookup_app_r in Hj by lia.
           destruct (j - length pre)%nat as [|k] eqn:Hk; cbn in Hj; [|destruct k; discriminate].
           inversion Hj; subst r. split; [apply not_gtb_geb; assumption|].
           apply lookup_lt_Some in Hi. intros; lia.
Qed.

Lemma max_by_leads (l : list A) (best : A) :
  Forall (fun r => is_nan (key r) = false) l ->
  max_by key l = Some best ->
  exists i, leads key l i best.
Proof.
  destruct l as [|x l]; [discriminate|]. cbn. intros Hnan [= <-].
  apply (leads_scan l [x] 0%nat x); [assumption|]. split; [reflexivity|].
  intros [|j] r Hj; cbn in Hj; [|discriminate].
  inversion Hj; subst r. inversion Hnan; subst.
  split; [apply geb_refl; assumption | intros; lia].
Qed.

Lemma max_by_elem (l : list A) (best : A) : max_by key l = Some best -> best ∈ l.
Proof.
  destruct l as [|x l]; [discriminate|]. cbn. intros [= <-].
  assert (H : forall l b, fold_left (scan_step key) l b = b \/ fold_left (scan_step key) l b ∈ l).
  { clear. induction l as [|y l IH]; intros b; cbn; [auto|].
    destruct (IH (scan_step key b y)) as [-> | Hin].
    - unfold scan_step. destruct (gtb _ _); [right; left | left; reflexivity].
    - right. right. assumption. }
  destruct (H l x) as [E | Hin].
  - fold (scan_step key). rewrite E. left.
  - right. exact Hin.
Qed.

End MaxBy.

(* --------------------------------------------------------------------- *)
(** ** Frames *)
(* --------------------------------------------------------------------- *)

Lemma mask_filter_sublist {A} (mask : list bool) (l : list A) :
  sublist (mask_filter mask l) l.
Proof.
  revert l. induction mask as [|b mask IH]; intros [|x l]; cbn; try apply sublist_nil_l.
  destruct b; [apply sublist_skip | apply sublist_cons]; apply IH.
Qed.

Lemma mask_filter_fmap {A B} (f : A -> B) (mask : list bool) (l : list A) :
  f <$> mask_filter mask l = mask_filter mask (f <$> l).
Proof.
  revert l. induction mask as [|b mask IH]; intros [|x l]; cbn; try reflexivity.
  destruct b; cbn; rewrite IH; reflexivity.
Qed.


Lemma mask_filter_length {A} (mask : list bool) (l : list A) :
  length mask = length l -> length (mask_filter mask l) = count_true mask.
Proof.
  revert l. induction mask as [|b mask IH]; intros [|x l]; cbn; try reflexivity; try discriminate.
  intros [= H]. destruct b; cbn; rewrite IH by assumption; reflexivity.
Qed.

Lemma loc_columns_cons (X : DataFrame) (name : string) (labels : list string) :
  loc_columns X (name :: labels)
  = filter (fun c : Column => fst c = name) X ++ loc_columns X labels.
Proof. reflexivity. Qed.

Lemma loc_columns_absent (c : Column) (X : DataFrame) (labels : list string) :
  fst c ∉ labels -> loc_columns (c :: X) labels = loc_columns X labels.
Proof.
  unfold loc_columns.
  induction labels as [|name labels IH]; intros Hc; [reflexivity|].
  rewrite !bind_cons. rewrite IH by (intros ?; apply Hc; right; assumption).
  rewrite filter_cons_False; [reflexivity|].
  intros E. apply Hc. rewrite E. left.
Qed.

Lemma loc_columns_none (X : DataFrame) (name : string) :
  name ∉ columns X -> filter (fun c : Column => fst c = name) X = [].
Proof.
  induction X as [|c X IH]; intros Hn; [reflexivity|].
  rewrite filter_cons_False.
  - apply IH. intros ?. apply Hn. right. assumption.
  - intros E. apply Hn. rewrite <- E. left.
Qed.

(** With distinct column names, selecting the masked labels selects the
    masked columns. *)
Lemma loc_columns_mask (X : DataFrame) (mask : list bool) :
  NoDup (columns X) ->
  loc_columns X (mask_filter mask (columns X)) = mask_filter mask X.
Proof.
  revert mask. induction X as [|c X IH]; intros mask Hnd.
  - destruct mask; reflexivity.
  - destruct mask as [|b mask]; [reflexivity|].
    change (columns (c :: X)) with (fst c :: columns X) in *.
    apply NoDup_cons in Hnd as [Hc Hnd].
    assert (Hsub : fst c ∉ mask_filter mask (columns X)).
    { intros Hin. apply Hc. eapply elem_of_sublist; [exact Hin|]. apply mask_filter_sublist. }
    destruct b.
    + change (mask_filter (true :: mask) (fst c :: columns X))
        with (fst c :: mask_filter mask (columns X)).
      change (mask_filter (true :: mask) (c :: X)) with (c :: mask_filter mask X).
      rewrite loc_columns_cons.
      rewrite loc_columns_absent by assumption. rewrite IH by assumption.
      rewrite filter_cons_True by reflexivity.
      rewrite loc_columns_none by assumption. reflexivity.
    + change (mask_filter (false :: mask) (fst c :: columns X))
        with (mask_filter mask (columns X)).
      change (mask_filter (false :: mask) (c :: X)) with (mask_filter mask X).
      rewrite loc_columns_absent by assumption. apply IH. assumption.
Qed.

Lemma setitem_fresh (df : DataFrame) (name : string) (values : Series) :
  name ∉ columns df -> setitem df name values = df ++ [(name, values)].
Proof. intros H. unfold setitem. rewrite decide_False by assumption. reflexivity. Qed.

Lemma iloc_features_snoc (df : DataFrame) (c : Column) : iloc_features (df ++ [c]) = df.
Proof.
  unfold iloc_features. rewrite length_app. cbn.
  replace (length df + 1 - 1)%nat with (length df) by lia.
  rewrite take_app_length. reflexivity.
Qed.

Lemma iloc_target_snoc (df : DataFrame) (c : Column) : iloc_target (df ++ [c]) = Some (snd c).
Proof. unfold iloc_target. rewrite last_snoc. reflexivity. Qed.

Lemma frame_snoc (df : DataFrame) (y : Series) :
  iloc_target df = Some y ->
  exists name, df = iloc_features df ++ [(name, y)].
Proof.
  unfold iloc_target, iloc_features.
  destruct df as [|c df] using rev_ind; [discriminate|].
  rewrite last_snoc. cbn. intros [= <-]. exists (fst c).
  rewrite length_app. cbn. replace (length df + 1 - 1)%nat with (length df) by lia.
  rewrite take_app_length. destruct c; reflexivity.
Qed.


Lemma rows_are_rectangular (n : nat) (df : DataFrame) : rows_are n df -> rectangular df.
Proof.
  unfold rows_are, rectangular. destruct df as [|c df]; [constructor|].
  intros H. cbn. inversion H; subst. assumption.
Qed.

(** *** The names of the columns *)

Lemma count_of_insert (counts : gmap string nat) (k c : string) (v : nat) :
  count_of (<[k := v]> counts) c = if decide (c = k) then v else count_of counts c.
Proof.
  unfold count_of. destruct (decide (c = k)) as [->|Hne].
  - rewrite lookup_insert_eq. reflexivity.
  - rewrite lookup_insert_ne by congruence. reflexivity.
Qed.

(** The renamed column is new to the header, it is a copy of the old name,
    and the names already counted stay counted. *)
Lemma rename_column_spec (fuel : nat) (names : list string) (old_col : string) :
  forall cur_count counts col' counts',
    rename_column fuel names old_col cur_count counts = Some (col', counts') ->
    (col' ∉ names) /\ (exists k, col' = copy_name old_col k) /\
    forall c, (0 < count_of counts c)%nat -> (0 < count_of counts' c)%nat.
Proof.
  induction fuel as [|fuel IH]; intros cur_count counts col' counts'; [discriminate|].
  cbn [rename_column].
  assert (Hpos : forall c, (0 < count_of counts c)%nat ->
                           (0 < count_of (<[old_col := S cur_count]> counts) c)%nat).
  { intros c Hc. rewrite count_of_insert. destruct (decide (c = old_col)); lia. }
  destruct (decide (copy_name old_col cur_count ∈ names)) as [Hin|Hin].
  - rewrite (bool_decide_eq_true_2 _ Hin). intros H. apply IH in H as (? & ? & H).
    auto.
  - rewrite (bool_decide_eq_false_2 _ Hin).
    destruct (count_of _ (copy_name old_col cur_count)) as [|n].
    + intros [= <- <-]. eauto.
    + intros H. apply IH in H as (? & ? & H). auto.
Qed.

(** The names dealt with so far are distinct and counted. *)
Definition deduped (i : nat) (names : list string) (counts : gmap string nat) : Prop :=
  NoDup (take i names) /\ forall c, c ∈ take i names -> (0 < count_of counts c)%nat.

Lemma dedup_step_spec (names : list string) (counts : gmap string nat) (i : nat)
    names' counts' :
  dedup_step names counts i = Some (names', counts') ->
  (i < length names)%nat ->
  deduped i names counts ->
  deduped (S i) names' counts' /\ length names' = length names /\
  (forall j, j <> i -> names' !! j = names !! j) /\
  (names' !! i = names !! i \/ exists old_col k, names' !! i = Some (copy_name old_col k)).
Proof.
  unfold dedup_step. intros H Hi [Hnd Hcounted].
  destruct (lookup_lt_is_Some_2 names i Hi) as [col Hcol]. rewrite Hcol in H.
  assert (Hnext : forall (l : list string) (c : string) (m : gmap string nat),
            l !! i = Some c -> take i l = take i names -> c ∉ take i names ->
            (forall x, (0 < count_of counts x)%nat -> (0 < count_of m x)%nat) ->
            deduped (S i) l (<[c := 1%nat]> m)).
  { intros l c m Hl Htake Hnew Hm. unfold deduped. rewrite (take_S_r _ _ _ Hl), Htake.
    split.
    - apply NoDup_app. split; [exact Hnd|]. split; [|apply NoDup_singleton].
      intros x Hx Hx'. apply list_elem_of_singleton in Hx'. subst x. contradiction.
    - intros x Hx. rewrite count_of_insert. destruct (decide (x = c)); [lia|].
      apply elem_of_app in Hx as [Hx|Hx]; [apply Hm, Hcounted, Hx|].
      apply list_elem_of_singleton in Hx. contradiction. }
  destruct (count_of counts col) as [|n] eqn:Hcount.
  - injection H as <- <-. split; [|auto].
    apply Hnext; auto. intros Hin. apply Hcounted in Hin. lia.
  - destruct (rename_column _ names col (S n) counts) as [[col' counts1]|] eqn:Hren;
      [|discriminate].
    injection H as <- <-. apply rename_column_spec in Hren as (Hnew & (k & ->) & Hpos).
    split; [|split; [apply length_insert|split]].
    + apply Hnext; auto.
      * apply list_lookup_insert_eq. exact Hi.
      * apply take_insert_ge. lia.
      * intros Hin. apply Hnew. eapply elem_of_take in Hin as (j & Hj & _).
        eapply list_elem_of_lookup_2. exact Hj.
    + intros j Hj. apply list_lookup_insert_ne. congruence.
    + right. exists col, k. apply list_lookup_insert_eq. exact Hi.
Qed.

Lemma dedup_from_spec (n : nat) :
  forall i names counts result,
    dedup_from (seq i n) names counts = Some result ->
    (i + n = length names)%nat ->
    deduped i names counts ->
    NoDup result /\ length result = length names /\
    forall j c, result !! j = Some c ->
      names !! j = Some c \/ exists old_col k, c = copy_name old_col k.
Proof.
  induction n as [|n IH]; intros i names counts result; cbn [seq dedup_from].
  - intros [= <-] Hlen [Hnd _]. rewrite take_ge in Hnd by lia. auto.
  - destruct (dedup_step names counts i) as [[names' counts']|] eqn:Hstep; [|discriminate].
    intros H Hlen Hinv.
    apply dedup_step_spec in Hstep as (Hinv' & Hlen' & Hsame & Hat); [|lia|exact Hinv].
    apply IH in H as (Hnd & Hl & Hshape); [|lia|exact Hinv'].
    split; [exact Hnd|]. split; [congruence|].
    intros j c Hj. destruct (Hshape j c Hj) as [Hj'|?]; [|auto].
    destruct (decide (j = i)) as [->|Hne].
    + destruct Hat as [E|(old_col & k & E)]; [left; congruence|].
      right. exists old_col, k. congruence.
    + left. rewrite <- (Hsame j Hne). exact Hj'.
Qed.

(** The names of a frame are distinct, as many as the header has, and each
    is the name the header has in its place or a copy. *)
Lemma dedup_names_spec (names result : list string) :
  dedup_names names = Some result ->
  NoDup result /\ length result = length names /\
  forall j c, result !! j = Some c ->
    names !! j = Some c \/ exists old_col k, c = copy_name old_col k.
Proof.
  unfold dedup_names. intros H. apply dedup_from_spec in H; [exact H | lia|].
  split; [apply NoDup_nil_2|]. intros c Hc. apply elem_of_nil in Hc. contradiction.
Qed.

(** Distinct names are kept as they are. *)
Lemma dedup_from_distinct (names : list string) (n : nat) :
  NoDup names ->
  forall i counts,
    (i + n = length names)%nat ->
    (forall c, (0 < count_of counts c)%nat -> c ∈ take i names) ->
    dedup_from (seq i n) names counts = Some names.
Proof.
  intros Hnd. induction n as [|n IH]; intros i counts Hlen Hcounts; [reflexivity|].
  cbn [seq dedup_from]. unfold dedup_step.
  destruct (lookup_lt_is_Some_2 names i ltac:(lia)) as [col Hcol]. rewrite Hcol.
  assert (Hnew : count_of counts col = 0%nat).
  { destruct (count_of counts col) as [|k] eqn:E; [reflexivity|]. exfalso.
    assert (Hin : col ∈ take i names) by (apply Hcounts; lia).
    apply elem_of_take in Hin as (j & Hj & Hlt).
    assert (j = i) by (eapply NoDup_lookup; eauto). lia. }
  rewrite Hnew. apply IH; [lia|].
  intros c Hc. rewrite count_of_insert in Hc. rewrite (take_S_r _ _ _ Hcol).
  apply elem_of_app. destruct (decide (c = col)) as [->|Hne].
  - right. apply list_elem_of_singleton. reflexivity.
  - left. apply Hcounts, Hc.
Qed.

Lemma dedup_names_distinct (names : list string) :
  NoDup names -> dedup_names names = Some names.
Proof.
  intros Hnd. unfold dedup_names. apply dedup_from_distinct; [exact Hnd | lia|].
  intros c Hc. unfold count_of in Hc. rewrite lookup_empty in Hc. cbn in Hc. lia.
Qed.

(** No copy is called [target]: a copy has a dot in its name. *)
Lemma copy_name_not_target (old_col : string) (k : nat) : copy_name old_col k <> "target".
Proof.
  unfold copy_name. intros H.
  do 6 (destruct old_col as [|? old_col]; cbn in H; [discriminate|]; injection H as _ H).
  destruct old_col; discriminate.
Qed.

(** *** Reading a file *)

Lemma read_csv_val (t : Table) (df : DataFrame) :
  read_csv t = Some df ->
  header t <> [] /\
  exists names,
    dedup_names (header t) = Some names /\
    df = imap (fun j name => (name, (fun r => field r (index_width t + j)) <$> records t))
              names.
Proof.
  unfold read_csv. destruct (header t) as [|h hs] eqn:Hh; [discriminate|].
  rewrite <- Hh. destruct (forallb _ _); [|discriminate].
  destruct (dedup_names (header t)) as [names|]; [|discriminate].
  cbn. intros [= <-]. split; [congruence|]. eauto.
Qed.

Lemma read_csv_names (t : Table) (df : DataFrame) :
  read_csv t = Some df -> dedup_names (header t) = Some (columns df).
Proof.
  intros H. apply read_csv_val in H as (_ & names & Hnames & ->). rewrite Hnames.
  f_equal. unfold columns. rewrite fmap_imap. apply list_eq. intros j.
  rewrite list_lookup_imap. destruct (names !! j); reflexivity.
Qed.

(** A frame has as many columns as the header has names, and no two of the
    same name. *)
Lemma read_csv_width (t : Table) (df : DataFrame) :
  read_csv t = Some df -> length df = length (header t).
Proof.
  intros H. apply read_csv_names, dedup_names_spec in H as (_ & H & _).
  unfold columns in H. rewrite length_fmap in H. exact H.
Qed.

Lemma read_csv_distinct (t : Table) (df : DataFrame) :
  read_csv t = Some df -> NoDup (columns df).
Proof. intros H. apply read_csv_names, dedup_names_spec in H as (H & _). exact H. Qed.

Lemma read_csv_rows (t : Table) (df : DataFrame) :
  read_csv t = Some df -> rows_are (length (records t)) df /\ df <> [].
Proof.
  intros H. pose proof (read_csv_width _ _ H) as Hw.
  apply read_csv_val in H as (Hh & names & _ & ->). split.
  - unfold rows_are. apply Forall_forall. intros c Hc.
    apply list_elem_of_lookup in Hc as [j Hj].
    rewrite list_lookup_imap in Hj.
    destruct (names !! j); [|discriminate]. cbn in Hj. injection Hj as <-.
    cbn. apply length_fmap.
  - intros E. rewrite E in Hw. destruct (header t); [congruence | discriminate].
Qed.


(** No feature of the frame is called [target] unless the header gives a
    feature that name. *)
Lemma read_csv_no_target (t : Table) (df : DataFrame) :
  read_csv t = Some df ->
  "target" ∉ take (length (header t) - 1) (header t) ->
  "target" ∉ columns (iloc_features df).
Proof.
  intros H Hnt Hin. pose proof (read_csv_width _ _ H) as Hw.
  apply read_csv_names, dedup_names_spec in H as (_ & _ & Hshape).
  unfold columns, iloc_features in Hin. rewrite fmap_take, Hw in Hin.
  apply elem_of_take in Hin as (j & Hj & Hlt).
  destruct (Hshape j _ Hj) as [Hh | (old_col & k & E)].
  - apply Hnt. apply elem_of_take. eauto.
  - symmetry in E. exact (copy_name_not_target _ _ E).
Qed.

(** Writing a frame without index and reading it back. *)
Lemma read_csv_to_csv (df : DataFrame) :
  rectangular df -> df <> [] -> NoDup (columns df) ->
  read_csv (to_csv df false) = Some df.
Proof.
  intros Hrect Hne Hnd. unfold read_csv, to_csv. cbn [header records].
  destruct (columns df) as [|h hs] eqn:Hcols.
  { destruct df; [congruence | discriminate]. }
  rewrite <- Hcols in *. clear h hs Hcols.
  set (rows := (fun i => row_values df i) <$> seq 0 (n_rows df)).
  assert (Hrow : forall r, r ∈ rows -> length r = length (columns df)).
  { intros r Hr. apply list_elem_of_fmap in Hr as (i & -> & _).
    unfold row_values, columns. rewrite !length_fmap. reflexivity. }
  assert (Hwidth : index_width {| header := columns df; records := rows |} = 0%nat).
  { unfold index_width. cbn [header records]. destruct rows as [|r rows'] eqn:E; [reflexivity|].
    rewrite (Hrow r) by left. lia. }
  rewrite Hwidth, Nat.add_0_r.
  assert (Hall : forallb (fun r : list float => bool_decide (length r ≤ length (columns df))%nat)
                   rows = true).
  { apply forallb_forall. intros r Hr. apply bool_decide_eq_true.
    rewrite (Hrow r); [lia|]. apply list_elem_of_In. exact Hr. }
  rewrite Hall, (dedup_names_distinct _ Hnd). cbn. f_equal. apply list_eq. intros j.
  rewrite list_lookup_imap. unfold columns. rewrite list_lookup_fmap.
  destruct (df !! j) as [[name values]|] eqn:Hj; [|reflexivity]. cbn. f_equal. f_equal.
  subst rows. rewrite <- list_fmap_compose.
  assert (Hlen : length values = n_rows df).
  { unfold rectangular in Hrect. rewrite Forall_forall in Hrect.
    apply (Hrect (name, values)). apply list_elem_of_lookup. eauto. }
  rewrite <- Hlen. apply list_eq. intros i.
  rewrite list_lookup_fmap.
  destruct (decide (i < length values)%nat) as [Hlt|Hge].
  - rewrite lookup_seq_lt by assumption. cbn. unfold field, row_values.
    rewrite list_lookup_fmap, Hj. cbn.
    destruct (lookup_lt_is_Some_2 values i Hlt) as [v Hv]. rewrite Hv. reflexivity.
  - rewrite lookup_seq_ge by lia. cbn. symmetry. apply lookup_ge_None. lia.
Qed.

(* --------------------------------------------------------------------- *)
(** ** Paths and directories *)
(* --------------------------------------------------------------------- *)

Lemma string_app_nil_r (p : string) : p +:+ "" = p.
Proof.
  induction p as [|c p IH]; [reflexivity|].
  change (String c p +:+ "") with (String c (p +:+ "")). rewrite IH. reflexivity.
Qed.

Lemma string_app_assoc (p q r : string) : (p +:+ q) +:+ r = p +:+ (q +:+ r).
Proof.
  induction p as [|c p IH]; [reflexivity|].
  change (String c p +:+ q) with (String c (p +:+ q)).
  change (String c (p +:+ q) +:+ r) with (String c ((p +:+ q) +:+ r)).
  rewrite IH. reflexivity.
Qed.

Lemma path_prefix_refl (p : string) : path_prefix p p.
Proof. exists "". symmetry. apply string_app_nil_r. Qed.

Lemma path_prefix_trans (p q d : string) :
  path_prefix p q -> path_prefix q d -> path_prefix p d.
Proof.
  intros [r1 ->] [r2 ->]. exists (r1 +:+ r2). apply string_app_assoc.
Qed.

Lemma path_prefix_cons (c : ascii) (p d : string) :
  path_prefix p d -> path_prefix (String c p) (String c d).
Proof. intros [r ->]. exists r. reflexivity. Qed.

Lemma path_prefix_nil (d : string) : path_prefix "" d.
Proof. exists d. reflexivity. Qed.

Lemma string_app_length (d a : string) :
  String.length (d +:+ a) = (String.length d + String.length a)%nat.
Proof.
  induction d as [|c d IH]; [reflexivity|].
  change (String c d +:+ a) with (String c (d +:+ a)). cbn. f_equal. exact IH.
Qed.

Lemma path_prefix_length (p d : string) :
  path_prefix p d -> (String.length p <= String.length d)%nat.
Proof. intros [r ->]. rewrite string_app_length. lia. Qed.

Lemma rstrip_sep_prefix (s : string) : path_prefix (rstrip_sep s) s.
Proof.
  induction s as [|c s IH]; [apply path_prefix_refl|].
  cbn [rstrip_sep]. destruct (rstrip_sep s) as [|c' r] eqn:Hr.
  - destruct (bool_decide (c = "/"%char)); [apply path_prefix_nil|].
    apply path_prefix_cons, path_prefix_nil.
  - apply path_prefix_cons. exact IH.
Qed.

Lemma cut_last_sep_head (p head tail : string) :
  cut_last_sep p = (Some head, tail) -> path_prefix head p.
Proof.
  revert head tail. induction p as [|c p IH]; intros head tail; [discriminate|].
  cbn [cut_last_sep]. destruct (cut_last_sep p) as [[h|] t].
  - intros [= <- <-]. apply path_prefix_cons. exact (IH h t eq_refl).
  - destruct (bool_decide (c = "/"%char)); [|discriminate].
    intros [= <- <-]. apply path_prefix_cons, path_prefix_nil.
Qed.

Lemma path_split_prefix (p : string) : path_prefix (path_split p).1 p.
Proof.
  unfold path_split. destruct (cut_last_sep p) as [[head|] tail] eqn:H; cbn [fst].
  - apply cut_last_sep_head in H. destruct (bool_decide _); [exact H|].
    eapply path_prefix_trans; [apply rstrip_sep_prefix | exact H].
  - apply path_prefix_nil.
Qed.

Lemma mkdir_inr (path : string) (files files' : gmap string (Node Model)) :
  mkdir path files = inr files' ->
  path <> "" /\ files !! path = None /\ files' = <[path := Dir]> files.
Proof.
  unfold mkdir. destruct (decide (path = "")) as [->|Hne].
  - rewrite bool_decide_eq_true_2 by reflexivity. discriminate.
  - rewrite (bool_decide_eq_false_2 _ Hne).
    destruct (decide (is_Some (files !! path))) as [Hex|Hex].
    + rewrite (bool_decide_eq_true_2 _ Hex). discriminate.
    + rewrite (bool_decide_eq_false_2 _ Hex).
      assert (files !! path = None).
      { destruct (files !! path) eqn:E; [exfalso; apply Hex; eauto | reflexivity]. }
      destruct (if bool_decide _ then _ else _) as [[]|]; intros [= <-]; auto.
Qed.

Lemma mkdir_made (path : string) (files files' : gmap string (Node Model)) :
  mkdir path files = inr files' ->
  files' !! path = Some Dir /\ directories_made path files files'.
Proof.
  intros H. apply mkdir_inr in H as (_ & Hnone & ->). split; [apply lookup_insert_eq|].
  intros p. destruct (decide (p = path)) as [->|Hp].
  - right. rewrite lookup_insert_eq. auto using path_prefix_refl.
  - left. apply lookup_insert_ne. congruence.
Qed.

Lemma directories_made_refl (d : string) (files : gmap string (Node Model)) :
  directories_made d files files.
Proof. intros p. left. reflexivity. Qed.

Lemma directories_made_trans (d1 d2 : string) (f1 f2 f3 : gmap string (Node Model)) :
  path_prefix d1 d2 ->
  directories_made d1 f1 f2 -> directories_made d2 f2 f3 -> directories_made d2 f1 f3.
Proof.
  intros Hd H12 H23 p. destruct (H23 p) as [E23|(N2 & D3 & P3)].
  - destruct (H12 p) as [E12|(N1 & D2 & P2)].
    + left. congruence.
    + right. split; [exact N1|]. split; [congruence|].
      eapply path_prefix_trans; eassumption.
  - destruct (H12 p) as [E12|(N1 & D2 & P2)].
    + right. split; [congruence|]. auto.
    + congruence.
Qed.

Lemma makedirs_in_made (fuel : nat) :
  forall (name : string) (files files' : gmap string (Node Model)),
    makedirs_in fuel name files = inr files' ->
    files' !! name = Some Dir /\ directories_made name files files'.
Proof.
  induction fuel as [|fuel IH]; intros name files files'; [apply mkdir_made|].
  cbn [makedirs_in].
  pose proof (path_split_prefix name) as Hhead1.
  destruct (path_split name) as [head1 tail1]. cbn [fst] in Hhead1.
  assert (Hhead : path_prefix
            (if bool_decide (tail1 = "") then path_split head1 else (head1, tail1)).1 name).
  { destruct (bool_decide (tail1 = "")); [|exact Hhead1].
    eapply path_prefix_trans; [apply path_split_prefix | exact Hhead1]. }
  destruct (if bool_decide (tail1 = "") then path_split head1 else (head1, tail1))
    as [head tail]. cbn [fst] in Hhead.
  destruct (_ && _ && _); [|apply mkdir_made].
  destruct (makedirs_in fuel head files) as [[]|files1] eqn:Hrec;
    try discriminate; try apply mkdir_made.
  intros Hmk. apply IH in Hrec as [_ Hrec]. apply mkdir_made in Hmk as [Hname Hmk].
  split; [exact Hname|]. eapply directories_made_trans; eassumption.
Qed.

Lemma makedirs_in_empty (fuel : nat) (files : gmap string (Node Model)) :
  makedirs_in fuel "" files = inl NoSuchPath.
Proof. destruct fuel; reflexivity. Qed.


Lemma with_directory_made (d : string) (files : gmap string (Node Model)) :
  directories_made d files (with_directory d files).
Proof.
  unfold with_directory. destruct (bool_decide _); [apply directories_made_refl|].
  destruct (makedirs_in _ d files) as [e|files'] eqn:H; [apply directories_made_refl|].
  apply makedirs_in_made in H as [_ H]. exact H.
Qed.

(** The outcome of lines 113-114. *)
Lemma makedirs_outcome (path : string) w :
  (exists files,
     makedirs_in (String.length path) path (fs w) = inr files /\
     makedirs path w
     = (Val tt, {| fs := files; stdin := stdin w; rng := rng w;
                   log := log w ++ [EMakedirs path] |})) \/
  ((exists e, makedirs_in (String.length path) path (fs w) = inl e) /\
   makedirs path w
   = (Raise IOError, {| fs := fs w; stdin := stdin w; rng := rng w;
                        log := log w ++ [EMakedirs path] |})).
Proof.
  unfold makedirs. destruct (makedirs_in _ path (fs w)) as [e|files]; [right|left]; eauto.
Qed.

(** A path longer than [d] is not touched on the way to [d]. *)
Lemma with_directory_longer (d p : string) (files : gmap string (Node Model)) :
  (String.length d < String.length p)%nat ->
  with_directory d files !! p = files !! p.
Proof.
  intros Hlen. destruct (with_directory_made d files p) as [E|(_ & _ & Hpre)]; [exact E|].
  apply path_prefix_length in Hpre. lia.
Qed.
(* --------------------------------------------------------------------- *)
(** ** Reasoning about runs *)
(* --------------------------------------------------------------------- *)

Lemma bind_val {A B} (m : M Model Rng A) (k : A -> M Model Rng B) w b w' :
  bind m k w = (Val b, w') ->
  exists a w1, m w = (Val a, w1) /\ k a w1 = (Val b, w').
Proof.
  unfold bind. destruct (m w) as [[a| |] w1]; intros H; try discriminate. eauto.
Qed.

Lemma bind_raise {A B} (m : M Model Rng A) (k : A -> M Model Rng B) w e w' :
  bind m k w = (Raise e, w') ->
  m w = (Raise e, w') \/ exists a w1, m w = (Val a, w1) /\ k a w1 = (Raise e, w').
Proof.
  unfold bind. destruct (m w) as [[a| |] w1]; intros H; try discriminate.
  - right. exists a, w1. auto.
  - left. injection H as -> ->. reflexivity.
Qed.

Lemma bind_eq_val {A B} (m : M Model Rng A) (k : A -> M Model Rng B) w a w1 :
  m w = (Val a, w1) -> bind m k w = k a w1.
Proof. unfold bind. intros ->. reflexivity. Qed.

Lemma ret_val {A} (a b : A) w w' : ret a w = (Val b, w') -> a = b /\ w' = w.
Proof. unfold ret. intros [= -> ->]. auto. Qed.

Lemma or_raise_val {A} e (o : option A) a w w' :
  or_raise e o w = (Val a, w') -> o = Some a /\ w' = w.
Proof. destruct o; cbn; intros [= ]; subst; auto. Qed.

Lemma or_raise_raise {A} e e' (o : option A) w w' :
  or_raise e o w = (Raise e', w') -> e' = e /\ o = None /\ w' = w.
Proof. destruct o; cbn; intros [= ]; subst; auto. Qed.

Section Keeps.
Variable R : relation (World Model Rng).
Context `{!PreOrder R}.

Lemma keeps_ret {A} (a : A) : keeps R (ret a).
Proof. intros w. reflexivity. Qed.

Lemma keeps_raise {A} e : keeps R (raise (A := A) e).
Proof. intros w. reflexivity. Qed.

Lemma keeps_out_of_fuel {A} : keeps R (out_of_fuel (A := A)).
Proof. intros w. reflexivity. Qed.

Lemma keeps_or_raise {A} e (o : option A) : keeps R (or_raise e o).
Proof. destruct o; [apply keeps_ret | apply keeps_raise]. Qed.

Lemma keeps_bind {A B} (m : M Model Rng A) (k : A -> M Model Rng B) :
  keeps R m -> (forall a, keeps R (k a)) -> keeps R (bind m k).
Proof.
  intros Hm Hk w. unfold bind. specialize (Hm w).
  destruct (m w) as [[a| |] w1]; cbn in *; try assumption.
  etransitivity; [exact Hm | apply Hk].
Qed.

Lemma keeps_if {A} (b : bool) (m1 m2 : M Model Rng A) :
  keeps R m1 -> keeps R m2 -> keeps R (if b then m1 else m2).
Proof. destruct b; auto. Qed.

End Keeps.

#[global] Instance extends_preorder P : PreOrder (extends P).
Proof.
  split.
  - intros w. exists []. rewrite app_nil_r. auto.
  - intros w1 w2 w3 (e1 & H1 & F1) (e2 & H2 & F2). exists (e1 ++ e2).
    rewrite H2, H1, app_assoc. split; [reflexivity|]. apply Forall_app; auto.
Qed.

#[global] Instance quiet_preorder P : PreOrder (quiet P).
Proof.
  split.
  - intros w. repeat split. reflexivity.
  - intros w1 w2 w3 (F1 & S1 & E1) (F2 & S2 & E2). repeat split; try congruence.
    etransitivity; eassumption.
Qed.

Lemma quiet_extends P w w' : quiet P w w' -> extends P w w'.
Proof. intros (_ & _ & H). exact H. Qed.

Lemma extends_weaken (P Q : Event -> Prop) w w' :
  (forall e, P e -> Q e) -> extends P w w' -> extends Q w w'.
Proof.
  intros HPQ (evs & H & F). exists evs. split; [assumption|].
  eapply Forall_impl; eauto.
Qed.

Lemma quiet_weaken (P Q : Event -> Prop) w w' :
  (forall e, P e -> Q e) -> quiet P w w' -> quiet Q w w'.
Proof.
  intros HPQ (F & S & E). repeat split; try assumption. eapply extends_weaken; eauto.
Qed.

Lemma keeps_weaken (R R' : relation (World Model Rng)) {A} (m : M Model Rng A) :
  (forall w w', R w w' -> R' w w') -> keeps R m -> keeps R' m.
Proof. intros H Hm w. apply H, Hm. Qed.

Lemma keeps_emit P e : P e -> keeps (quiet P) (emit e).
Proof.
  intros He w. cbn. repeat split. exists [e]. split; [reflexivity|]. repeat constructor. exact He.
Qed.

Lemma keeps_path_exists P path : keeps (quiet P) (path_exists path).
Proof. intros w. cbn. reflexivity. Qed.

Lemma keeps_read_csv_file P path : keeps (quiet P) (read_csv_file path).
Proof.
  intros w. unfold read_csv_file.
  destruct (fs w !! path) as [[]|]; cbn; try reflexivity.
  apply (keeps_or_raise _).
Qed.


(* --------------------------------------------------------------------- *)
(** ** What each step of the script touches *)
(* --------------------------------------------------------------------- *)

Ltac keeps_bind_with tac x :=
  apply keeps_bind; [typeclasses eauto | tac | intros x].

Ltac keeps_leaf :=
  first
    [ apply keeps_ret; typeclasses eauto
    | apply keeps_or_raise; typeclasses eauto
    | apply keeps_emit; exact I ].

Lemma n_features_to_select_max (X : DataFrame) (remove_count : Z) :
  n_features_to_select X remove_count = Z.max 1 (shape1 X - remove_count).
Proof.
  unfold n_features_to_select. destruct (Z.ltb_spec (shape1 X - remove_count) 1); lia.
Qed.

Lemma keeps_split P X y : keeps (quiet P) (split sk X y).
Proof.
  intros w. unfold split.
  destruct (train_test_split sk X y lit_0_2 (Some random_state) (rng w)) as [r g].
  cbn. repeat split. exists []. rewrite app_nil_r. auto.
Qed.

Lemma keeps_train_model P data : keeps (quiet P) (train_model sk data).
Proof.
  unfold train_model.
  keeps_bind_with keeps_leaf y.
  keeps_bind_with ltac:(apply keeps_split) parts.
  destruct parts as [[[X_train X_test] y_train] y_test].
  keeps_bind_with keeps_leaf model.
  keeps_bind_with keeps_leaf y_pred.
  keeps_leaf.
Qed.

Lemma keeps_feature_selection data step remove_count :
  keeps (quiet (loop_event remove_count)) (feature_selection sk data step remove_count).
Proof.
  unfold feature_selection.
  keeps_bind_with keeps_leaf y.
  keeps_bind_with ltac:(apply keeps_emit; cbn; rewrite n_features_to_select_max; lia) u.
  keeps_bind_with keeps_leaf support_.
  keeps_bind_with keeps_leaf selected_features.
  keeps_leaf.
Qed.

Lemma keeps_selection_loop fuel step remove_count min_features data mm it cf :
  keeps (quiet (loop_event remove_count))
        (selection_loop sk fuel step remove_count min_features data mm it cf).
Proof.
  revert data mm it cf.
  induction fuel as [|fuel IH]; intros data mm it cf; cbn [selection_loop].
  - apply keeps_out_of_fuel. typeclasses eauto.
  - keeps_bind_with keeps_leaf u.
    destruct (cf <=? min_features)%Z.
    + keeps_bind_with keeps_leaf u'. keeps_leaf.
    + keeps_bind_with ltac:(apply keeps_feature_selection) selected.
      destruct selected as [data' selected_features].
      keeps_bind_with keeps_leaf u1.
      keeps_bind_with keeps_leaf u2.
      keeps_bind_with ltac:(apply keeps_train_model) trained.
      destruct trained as [model metrics].
      apply IH.
Qed.

(* --------------------------------------------------------------------- *)
(** ** Inversion of the persistence stage *)
(* --------------------------------------------------------------------- *)

Lemma emit_val e w u w' :
  emit e w = (Val u, w') ->
  w' = {| fs := fs w; stdin := stdin w; rng := rng w; log := log w ++ [e] |}.
Proof. unfold emit. intros [= _ <-]. reflexivity. Qed.

Lemma write_file_val ev path content w u w' :
  write_file ev path content w = (Val u, w') ->
  w' = {| fs := <[path := content]> (fs w); stdin := stdin w; rng := rng w;
          log := log w ++ [ev] |}.
Proof.
  unfold write_file. destruct (fs w !! path) as [[]|]; intros [= ]; subst; reflexivity.
Qed.

Lemma persist_val save_dir mm best w s w' :
  persist sk save_dir mm best w = (Val s, w') -> persisted save_dir mm best w s w'.
Proof.
  unfold persist. destruct best as [[name metrics] data].
  intros H.
  apply bind_val in H as (present & w1 & Hp & H).
  unfold path_exists in Hp. injection Hp as <- <-.
  apply bind_val in H as ([] & w2 & Hmk & H).
  apply bind_val in H as (y & w3 & Hy & H). apply or_raise_val in Hy as [Hy ->].
  apply bind_val in H as (fm & w4 & Hfm & H). apply or_raise_val in Hfm as [Hfm ->].
  apply bind_val in H as (answer & w5 & Hin & H).
  apply bind_val in H as ([] & w6 & Hdump & H).
  apply bind_val in H as ([] & w7 & Hcsv & H). apply write_file_val in Hcsv.
  apply bind_val in H as ([] & w8 & Hpr & H). apply emit_val in Hpr.
  apply ret_val in H as [<- ->].
  unfold input in Hin. destruct (stdin w2) as [|line rest] eqn:Hstdin; [discriminate|].
  injection Hin as -> <-.
  assert (Hw2 : save_dir <> "" /\ stdin w2 = stdin w /\ rng w2 = rng w /\
                fs w2 = with_directory save_dir (fs w) /\
                log w2 = log w ++ (if bool_decide (is_Some (fs w !! save_dir)) then []
                                   else [EMakedirs save_dir]) /\
                with_directory save_dir (fs w) !! save_dir <> None).
  { unfold with_directory.
    destruct (bool_decide (save_dir <> "")) eqn:Hne; cbn in Hmk.
    - apply bool_decide_eq_true in Hne.
      destruct (bool_decide (is_Some (fs w !! save_dir))) eqn:Hex; cbn in Hmk.
      + apply ret_val in Hmk as [_ ->]. rewrite app_nil_r.
        apply bool_decide_eq_true in Hex as [x Hx]. repeat split; auto. congruence.
      + destruct (makedirs_outcome save_dir w) as [(files & Hin & E)|(_ & E)];
          rewrite E in Hmk; [|discriminate].
        injection Hmk as <-. rewrite Hin. cbn. repeat split; auto.
        apply makedirs_in_made in Hin as [-> _]. discriminate.
    - apply bool_decide_eq_false in Hne.
      assert (save_dir = "") as -> by (destruct (decide (save_dir = "")); tauto).
      unfold makedirs in Hmk. rewrite makedirs_in_empty in Hmk. discriminate. }
  destruct Hw2 as (Hne & Hs2 & Hr2 & Hf2 & Hl2 & Hd2).
  assert (Hw6 : w6 = (if confirmed answer
      then {| fs := <[path_join save_dir (model_file_name name) := JoblibFile fm]> (fs w2);
              stdin := rest; rng := rng w2;
              log := (log w2 ++ [EInput input_prompt])
                     ++ [EDump (path_join save_dir (model_file_name name));
                         EPrint (MsgModelSaved (path_join save_dir (model_file_name name)))] |}
      else {| fs := fs w2; stdin := rest; rng := rng w2;
              log := log w2 ++ [EInput input_prompt] |})).
  { destruct (confirmed answer).
    - apply bind_val in Hdump as ([] & w9 & Hd & Hpr').
      apply write_file_val in Hd. apply emit_val in Hpr'. subst. cbn.
      rewrite <- app_assoc. reflexivity.
    - apply ret_val in Hdump as [_ ->]. reflexivity. }
  subst. split; unfold persist_events; cbn; try reflexivity; try assumption.
  - eauto.
  - rewrite <- Hs2. destruct (confirmed answer); exact Hstdin.
  - destruct (confirmed answer); cbn; congruence.
  - destruct (confirmed answer); cbn; rewrite Hl2, <- ?app_assoc; cbn; reflexivity.
  - rewrite <- Hf2. destruct (confirmed answer); reflexivity.
Qed.


(* --------------------------------------------------------------------- *)
(** ** Inversion of a completed run *)
(* --------------------------------------------------------------------- *)

Lemma bind_val_keeps (R : relation (World Model Rng)) `{!PreOrder R} {A B}
    (m : M Model Rng A) (k : A -> M Model Rng B) w0 w b w' :
  keeps R m -> R w0 w -> bind m k w = (Val b, w') ->
  exists a w1, R w0 w1 /\ m w = (Val a, w1) /\ k a w1 = (Val b, w').
Proof.
  intros Hm H0 H. apply bind_val in H as (a & w1 & Hv & H).
  exists a, w1. split; [|auto]. etransitivity; [exact H0|].
  specialize (Hm w). rewrite Hv in Hm. exact Hm.
Qed.

Lemma bind_raise_keeps (R : relation (World Model Rng)) `{!PreOrder R} {A B}
    (m : M Model Rng A) (k : A -> M Model Rng B) w0 w e w' :
  keeps R m -> R w0 w -> bind m k w = (Raise e, w') ->
  (m w = (Raise e, w') /\ R w0 w') \/
  exists a w1, R w0 w1 /\ m w = (Val a, w1) /\ k a w1 = (Raise e, w').
Proof.
  intros Hm H0 H. apply bind_raise in H as [H | (a & w1 & Hv & H)].
  - left. split; [assumption|]. etransitivity; [exact H0|].
    specialize (Hm w). rewrite H in Hm. exact Hm.
  - right. exists a, w1. split; [|auto]. etransitivity; [exact H0|].
    specialize (Hm w). rewrite Hv in Hm. exact Hm.
Qed.

Lemma optimize_model_val fuel file_path step remove_count min_features save_dir w s w' :
  optimize_model sk fuel file_path step remove_count min_features save_dir w
    = (Val (Some s), w') ->
  completed fuel file_path step remove_count min_features save_dir w s w'.
Proof.
  unfold optimize_model. intros H.
  assert (Q0 : quiet (loop_event remove_count) w w) by reflexivity.
  apply bind_val in H as (present & w1 & Hp & H).
  unfold path_exists in Hp. injection Hp as <- <-.
  destruct (bool_decide (file_path <> "")) eqn:Hne; cbn [andb negb] in H;
    [|apply bind_val in H as (? & ? & _ & H); apply ret_val in H as [[=] _]].
  destruct (bool_decide (is_Some (fs w !! file_path))) eqn:Hex; cbn [negb] in H;
    [|apply bind_val in H as (? & ? & _ & H); apply ret_val in H as [[=] _]].
  apply bool_decide_eq_true in Hne.
  apply (bind_val_keeps (quiet (loop_event remove_count)) _ _ w) in H as (data & w2 & Q2 & Hread & H);
    [|apply keeps_read_csv_file|exact Q0].
  apply (bind_val_keeps (quiet (loop_event remove_count)) _ _ w) in H as ([] & w3 & Q3 & _ & H);
    [|apply keeps_emit; exact I|exact Q2].
  apply (bind_val_keeps (quiet (loop_event remove_count)) _ _ w) in H as ([] & w4 & Q4 & _ & H);
    [|apply keeps_emit; exact I|exact Q3].
  apply (bind_val_keeps (quiet (loop_event remove_count)) _ _ w) in H as ([model0 metrics0] & w5 & Q5 & Htrain & H);
    [|apply keeps_train_model|exact Q4].
  apply (bind_val_keeps (quiet (loop_event remove_count)) _ _ w) in H as (mm & w6 & Q6 & Hloop & H);
    [|apply keeps_selection_loop|exact Q5].
  apply (bind_val_keeps (quiet (loop_event remove_count)) _ _ w) in H as (best & w7 & Q7 & Hmax & H);
    [|apply keeps_or_raise; typeclasses eauto|exact Q6].
  apply or_raise_val in Hmax as [Hmax _].
  apply (bind_val_keeps (quiet (loop_event remove_count)) _ _ w) in H as ([] & w8 & Q8 & _ & H);
    [|apply keeps_emit; exact I|exact Q7].
  apply (bind_val_keeps (quiet (loop_event remove_count)) _ _ w) in H as ([] & w9 & Q9 & _ & H);
    [|apply keeps_emit; exact I|exact Q8].
  apply (bind_val_keeps (quiet (loop_event remove_count)) _ _ w) in H as ([] & w10 & Q10 & _ & H);
    [|apply keeps_emit; exact I|exact Q9].
  apply bind_val in H as (s' & w11 & Hpersist & H).
  apply ret_val in H as [[= ->] ->].
  apply persist_val in Hpersist.
  pose proof (p_models_metrics _ _ _ _ _ _ Hpersist) as Emm.
  pose proof (p_best_model _ _ _ _ _ _ Hpersist) as Ebest.
  subst mm best.
  unfold read_csv_file in Hread.
  destruct (fs w !! file_path) as [[| t | |]|] eqn:Hfile; try discriminate.
  apply or_raise_val in Hread as [Hread _].
  apply (Completed _ _ _ _ _ _ _ _ _ t data metrics0 w5 w6 w10); eauto.
Qed.

(** An invariant of the working data and a property of the recorded entries
    are carried through the loop. *)
Lemma selection_loop_inv (I : DataFrame -> Prop) (J : Recorded -> Prop)
    step remove_count min_features :
  (forall data data' sel w w' it metrics model w1 w2,
     I data ->
     feature_selection sk data step remove_count w = (Val (data', sel), w') ->
     train_model sk data' w1 = (Val (model, metrics), w2) ->
     I data' /\ J (iteration_name it, metrics, data')) ->
  forall fuel data mm it cf w mm' w',
    I data -> Forall J mm ->
    selection_loop sk fuel step remove_count min_features data mm it cf w = (Val mm', w') ->
    Forall J mm' /\ exists rest, mm' = mm ++ rest.
Proof.
  intros Hstep. induction fuel as [|fuel IH]; intros data mm it cf w mm' w' HI HJ H;
    cbn [selection_loop] in H; [discriminate|].
  apply bind_val in H as ([] & w1 & _ & H).
  destruct (cf <=? min_features)%Z.
  - apply bind_val in H as ([] & w2 & _ & H). apply ret_val in H as [<- _].
    split; [assumption|]. exists []. rewrite app_nil_r. reflexivity.
  - apply bind_val in H as ([data' sel] & w2 & Hfs & H).
    apply bind_val in H as ([] & w3 & _ & H).
    apply bind_val in H as ([] & w4 & _ & H).
    apply bind_val in H as ([model metrics] & w5 & Htm & H).
    destruct (Hstep _ _ _ _ _ it _ _ _ _ HI Hfs Htm) as [HI' HJ'].
    apply IH in H as [HF (rest & ->)]; [| assumption |].
    + split; [assumption|]. exists ((iteration_name it, metrics, data') :: rest).
      rewrite <- app_assoc. reflexivity.
    + apply Forall_app. split; [assumption|]. repeat constructor. assumption.
Qed.


(* --------------------------------------------------------------------- *)
(** ** Paths and names *)
(* --------------------------------------------------------------------- *)

Lemma append_inj_r (d a b : string) : d +:+ a = d +:+ b -> a = b.
Proof. apply (inj (String.append d)). Qed.

Lemma path_join_length (d a : string) :
  starts_with_sep a = false -> a <> "" ->
  (String.length d < String.length (path_join d a))%nat.
Proof.
  unfold path_join. intros -> Ha.
  destruct (bool_decide (d = "") || ends_with_sep d);
    rewrite !string_app_length; (destruct a; [congruence | cbn; lia]).
Qed.

Lemma path_join_inj (d a b : string) :
  starts_with_sep a = false -> starts_with_sep b = false ->
  path_join d a = path_join d b -> a = b.
Proof.
  unfold path_join. intros -> ->.
  destruct (bool_decide (d = "") || ends_with_sep d).
  - apply append_inj_r.
  - intros H. apply append_inj_r in H. apply (append_inj_r "/") in H. exact H.
Qed.

Lemma path_join_longer (d a : string) :
  starts_with_sep a = false -> a <> "" -> path_join d a <> d.
Proof.
  intros Hs Ha E. pose proof (path_join_length d a Hs Ha) as H. rewrite E in H. lia.
Qed.

Lemma files_differ (save_dir name : string) :
  path_join save_dir (model_file_name name) <> path_join save_dir (features_file_name name).
Proof. intros H. apply path_join_inj in H; [discriminate | reflexivity | reflexivity]. Qed.

Lemma model_file_not_dir (save_dir name : string) :
  path_join save_dir (model_file_name name) <> save_dir.
Proof. apply path_join_longer; [reflexivity | discriminate]. Qed.


(** The output files are not on the way to [save_dir]. *)
Lemma with_directory_model_file (save_dir name : string) (files : gmap string (Node Model)) :
  with_directory save_dir files !! path_join save_dir (model_file_name name)
  = files !! path_join save_dir (model_file_name name).
Proof. apply with_directory_longer, path_join_length; [reflexivity | discriminate]. Qed.

Lemma with_directory_features_file (save_dir name : string)
    (files : gmap string (Node Model)) :
  with_directory save_dir files !! path_join save_dir (features_file_name name)
  = files !! path_join save_dir (features_file_name name).
Proof. apply with_directory_longer, path_join_length; [reflexivity | discriminate]. Qed.

Lemma iteration_name_not_initial (iteration : nat) :
  iteration_name iteration <> initial_model_name.
Proof. discriminate. Qed.

(* --------------------------------------------------------------------- *)
(** ** Exceptions and inversion of the steps *)
(* --------------------------------------------------------------------- *)

Lemma raises_only_bind (E : Exn -> Prop) {A B} (m : M Model Rng A) (k : A -> M Model Rng B) :
  raises_only E m -> (forall a, raises_only E (k a)) -> raises_only E (bind m k).
Proof.
  intros Hm Hk w e w' H. apply bind_raise in H as [H | (a & w1 & _ & H)].
  - eapply Hm; eauto.
  - eapply Hk; eauto.
Qed.

Lemma raises_only_ret (E : Exn -> Prop) {A} (a : A) : raises_only E (ret a).
Proof. intros w e w' [=]. Qed.

Lemma raises_only_emit (E : Exn -> Prop) ev : raises_only E (emit ev).
Proof. intros w e w' [=]. Qed.

Lemma raises_only_or_raise (E : Exn -> Prop) {A} e (o : option A) :
  E e -> raises_only E (or_raise e o).
Proof. intros He w e' w' H. apply or_raise_raise in H as (-> & _). exact He. Qed.

Lemma persist_raises save_dir mm best :
  raises_only (fun e => e <> RankingError) (persist sk save_dir mm best).
Proof.
  unfold persist. destruct best as [[name metrics] data].
  apply raises_only_bind; [intros w e w' [=]|intros present].
  apply raises_only_bind.
  { destruct (negb present); [|apply raises_only_ret].
    intros w e w'. unfold makedirs. destruct (makedirs_in _ _ _);
      intros [= <- _]; discriminate. }
  intros _. apply raises_only_bind; [apply raises_only_or_raise; discriminate|intros y].
  apply raises_only_bind; [apply raises_only_or_raise; discriminate|intros fm].
  apply raises_only_bind.
  { intros w e w'. unfold input. destruct (stdin w); intros [= <- _]; discriminate. }
  intros answer. apply raises_only_bind.
  { destruct (confirmed answer); [|apply raises_only_ret].
    apply raises_only_bind; [|intros _; apply raises_only_emit].
    intros w e w'. unfold dump, write_file.
    destruct (fs w !! _) as [[]|]; intros [= <- _]; discriminate. }
  intros _. apply raises_only_bind.
  { intros w e w'. unfold to_csv_file, write_file.
    destruct (fs w !! _) as [[]|]; intros [= <- _]; discriminate. }
  intros _. apply raises_only_bind; [apply raises_only_emit|intros _; apply raises_only_ret].
Qed.

Lemma feature_selection_val data step remove_count w data' sel w' :
  feature_selection sk data step remove_count w = (Val (data', sel), w') ->
  exists y mask,
    iloc_target data = Some y /\
    rfe_support sk (iloc_features data) y step
      (n_features_to_select (iloc_features data) remove_count) = Some mask /\
    length mask = length (iloc_features data) /\
    sel = mask_filter mask (columns (iloc_features data)) /\
    data' = setitem (loc_columns (iloc_features data) sel) "target" y.
Proof.
  unfold feature_selection. intros H.
  apply bind_val in H as (y & w1 & Hy & H). apply or_raise_val in Hy as [Hy ->].
  apply bind_val in H as ([] & w2 & _ & H).
  apply bind_val in H as (mask & w3 & Hm & H). apply or_raise_val in Hm as [Hm ->].
  apply bind_val in H as (sel' & w4 & Hs & H). apply or_raise_val in Hs as [Hs ->].
  apply ret_val in H as [[= <- <-] _].
  unfold mask_index in Hs. destruct (decide _) as [Hlen|]; [|discriminate].
  injection Hs as <-. exists y, mask. unfold columns in Hlen. rewrite length_fmap in Hlen.
  auto.
Qed.

Lemma train_model_val data w model metrics w' :
  train_model sk data w = (Val (model, metrics), w') -> evaluated_on_split data metrics.
Proof.
  unfold train_model. intros H.
  apply bind_val in H as (y & w1 & Hy & H). apply or_raise_val in Hy as [Hy ->].
  apply bind_val in H as ([[[X_train X_test] y_train] y_test] & w2 & Hs & H).
  apply bind_val in H as (model' & w3 & Hm & H). apply or_raise_val in Hm as [Hm ->].
  apply bind_val in H as (y_pred & w4 & Hp & H). apply or_raise_val in Hp as [Hp ->].
  apply ret_val in H as [[= <- <-] _].
  unfold split in Hs.
  destruct (train_test_split sk _ y lit_0_2 (Some random_state) (rng w)) as [[r|] g'] eqn:Hsplit;
    [|discriminate].
  injection Hs as -> _.
  exists y, X_train, X_test, y_train, y_test, (rng w), g', model', y_pred. auto.
Qed.


(* --------------------------------------------------------------------- *)
(** ** Properties of a run *)
(* --------------------------------------------------------------------- *)

Lemma loop_events_no_writes remove_count (evs : list Event) :
  Forall (loop_event remove_count) evs -> writes evs = [].
Proof.
  unfold writes. induction 1 as [|e evs He _ IH]; [reflexivity|].
  rewrite filter_cons_False; [exact IH|]. destruct e; cbn in *; tauto.
Qed.

(** The log and the files of a completed run. *)
Lemma completed_effects fuel file_path step remove_count min_features save_dir w s w' :
  completed fuel file_path step remove_count min_features save_dir w s w' ->
  let existed := bool_decide (is_Some (fs w !! save_dir)) in
  let fs1 := with_directory save_dir (fs w) in
  let fs2 := if confirmed (save_model s)
             then <[best_model_file s := JoblibFile (final_model s)]> fs1 else fs1 in
  (exists evs, Forall (loop_event remove_count) evs /\
               log w' = log w ++ evs ++ persist_events existed save_dir s) /\
  fs w' = <[best_features_file s
            := CsvFile (to_csv (rec_data (best_model s)) false)]> fs2 /\
  stdin w = save_model s :: stdin w' /\
  best_model_file s = path_join save_dir (model_file_name (rec_name (best_model s))) /\
  best_features_file s = path_join save_dir (features_file_name (rec_name (best_model s))).
Proof.
  intros [t data metrics0 w1 w2 w3 _ _ _ _ _ _ (Hfs & Hin & evs & Hlog & Hevs) P].
  destruct P as [_ _ Hmf Hff _ Hstdin _ _ Hplog Hpfs _]. cbn zeta in *.
  rewrite Hfs in *. rewrite Hin in *. repeat split; try assumption.
  exists evs. split; [assumption|]. rewrite Hplog, Hlog.
  rewrite <- !app_assoc. reflexivity.
Qed.


(* --------------------------------------------------------------------- *)
(** ** Best-model selection *)
(* --------------------------------------------------------------------- *)

Lemma recorded_starts_with_baseline fuel step remove_count min_features data metrics0
    w mm w' :
  selection_loop sk fuel step remove_count min_features data
    [(initial_model_name, metrics0, data)] 1%nat (shape1 data - 1) w = (Val mm, w') ->
  head mm = Some (initial_model_name, metrics0, data).
Proof.
  intros H.
  apply (selection_loop_inv (fun _ => True) (fun _ => True)) in H as [_ [rest ->]];
    [reflexivity | auto | exact I | repeat constructor].
Qed.

(** C1, as amended: in every completed run none of whose recorded R² is NaN,
    the list of recorded iterations starts with the baseline, the winner is
    one of its entries, its R² is greater than or equal to the R² of every
    recorded entry, and an entry whose R² equals the winner's does not come
    before the winner (first occurrence wins). *)
Theorem best_model_is_first_maximum
    fuel file_path step remove_count min_features save_dir w s w' :
  optimize_model sk fuel file_path step remove_count min_features save_dir w
    = (Val (Some s), w') ->
  Forall (fun x => is_nan (r2_key x) = false) (models_metrics s) ->
  (exists metrics0 data0,
     head (models_metrics s) = Some (initial_model_name, metrics0, data0)) /\
  exists i,
    models_metrics s !! i = Some (best_model s) /\
    forall j x, models_metrics s !! j = Some x ->
      geb (r2_key (best_model s)) (r2_key x) = true /\
      (eqb (r2_key x) (r2_key (best_model s)) = true -> (i <= j)%nat).
Proof.
  intros Hrun Hnan. apply optimize_model_val in Hrun.
  destruct Hrun as [t data metrics0 w1 w2 w3 _ _ _ _ Hloop Hbest _ _].
  split.
  - exists metrics0, data. eapply recorded_starts_with_baseline. exact Hloop.
  - destruct (max_by_leads r2_key _ _ Hnan Hbest) as [i [Hi Hall]].
    exists i. split; [exact Hi|]. intros j x Hx.
    destruct (Hall j x Hx) as [Hge Hlt]. split; [exact Hge|].
    intros Heq. destruct (decide (j < i)%nat) as [Hji|]; [|lia].
    apply Hlt, gtb_not_eqb in Hji. congruence.
Qed.

(** X2: when the loaded data has no more features than [min_features], a
    completed run has recorded the baseline alone, and the baseline wins. *)
Theorem baseline_alone_when_minimum_reached
    fuel file_path step remove_count min_features save_dir w s w' t :
  optimize_model sk fuel file_path step remove_count min_features save_dir w
    = (Val (Some s), w') ->
  fs w !! file_path = Some (CsvFile t) ->
  Z.of_nat (length (header t)) - 1 <= min_features ->
  exists metrics0 data0,
    read_csv t = Some data0 /\
    models_metrics s = [(initial_model_name, metrics0, data0)] /\
    best_model s = (initial_model_name, metrics0, data0).
Proof.
  intros Hrun Hfile Hmin. apply optimize_model_val in Hrun.
  destruct Hrun as [t' data metrics0 w1 w2 w3 _ Hfile' Hread _ Hloop Hbest _ _].
  rewrite Hfile in Hfile'. injection Hfile' as <-.
  assert (Hcf : (shape1 data - 1 <=? min_features)%Z = true).
  { apply Z.leb_le. unfold shape1. rewrite (read_csv_width _ _ Hread). exact Hmin. }
  destruct fuel as [|fuel]; [discriminate|]. cbn [selection_loop] in Hloop.
  rewrite Hcf in Hloop.
  apply bind_val in Hloop as ([] & wa & _ & Hloop).
  apply bind_val in Hloop as ([] & wb & _ & Hloop).
  apply ret_val in Hloop as [Hmm _].
  exists metrics0, data. split; [exact Hread|]. split; [congruence|].
  rewrite <- Hmm in Hbest. cbn in Hbest. congruence.
Qed.

(* --------------------------------------------------------------------- *)
(** ** Ranking requests *)
(* --------------------------------------------------------------------- *)

Lemma loop_event_request_ok remove_count e :
  loop_event remove_count e -> rfe_request_ok remove_count e.
Proof. destruct e; cbn; tauto. Qed.

Lemma keeps_extends_log (P : Event -> Prop) {A} (m : M Model Rng A) :
  (forall w, exists evs, log (m w).2 = log w ++ evs /\ Forall P evs) ->
  keeps (extends P) m.
Proof. intros H w. apply H. Qed.

Lemma keeps_persist remove_count save_dir mm best :
  keeps (extends (rfe_request_ok remove_count)) (persist sk save_dir mm best).
Proof.
  assert (Hone : forall e w, rfe_request_ok remove_count e ->
            exists evs, log w ++ [e] = log w ++ evs /\ Forall (rfe_request_ok remove_count) evs).
  { intros e w He. exists [e]. split; [reflexivity|]. repeat constructor. exact He. }
  assert (Hwrite : forall ev path content, rfe_request_ok remove_count ev ->
            keeps (extends (rfe_request_ok remove_count)) (write_file ev path content)).
  { intros ev path content Hev. apply keeps_extends_log. intros w. unfold write_file.
    destruct (fs w !! path) as [[]|]; cbn; apply Hone; exact Hev. }
  assert (Hemit : forall ev, rfe_request_ok remove_count ev ->
            keeps (extends (rfe_request_ok remove_count)) (emit ev)).
  { intros ev Hev. apply keeps_extends_log. intros w. cbn. apply Hone; exact Hev. }
  unfold persist. destruct best as [[name metrics] data].
  apply keeps_bind; [typeclasses eauto | intros w; cbn; reflexivity | intros present].
  apply keeps_bind; [typeclasses eauto | | intros _].
  { destruct (negb present); [|apply keeps_ret; typeclasses eauto].
    apply keeps_extends_log. intros w. unfold makedirs.
    destruct (makedirs_in _ _ _); cbn; apply Hone; exact I. }
  apply keeps_bind; [typeclasses eauto | apply keeps_or_raise; typeclasses eauto | intros y].
  apply keeps_bind; [typeclasses eauto | apply keeps_or_raise; typeclasses eauto | intros fm].
  apply keeps_bind; [typeclasses eauto | | intros answer].
  { apply keeps_extends_log. intros w. unfold input.
    destruct (stdin w); cbn; apply Hone; exact I. }
  apply keeps_bind; [typeclasses eauto | | intros _].
  { destruct (confirmed answer); [|apply keeps_ret; typeclasses eauto].
    apply keeps_bind; [typeclasses eauto | apply Hwrite; exact I | intros _].
    apply Hemit. exact I. }
  apply keeps_bind; [typeclasses eauto | apply Hwrite; exact I | intros _].
  apply keeps_bind; [typeclasses eauto | apply Hemit; exact I | intros _].
  apply keeps_ret. typeclasses eauto.
Qed.

Lemma keeps_quiet_extends remove_count {A} (m : M Model Rng A) :
  keeps (quiet (loop_event remove_count)) m ->
  keeps (extends (rfe_request_ok remove_count)) m.
Proof.
  apply keeps_weaken. intros w w' H. apply quiet_extends in H.
  eapply extends_weaken; [|exact H]. apply loop_event_request_ok.
Qed.

Lemma keeps_optimize_model fuel file_path step remove_count min_features save_dir :
  keeps (extends (rfe_request_ok remove_count))
        (optimize_model sk fuel file_path step remove_count min_features save_dir).
Proof.
  pose proof (@keeps_quiet_extends remove_count) as Q.
  unfold optimize_model.
  apply keeps_bind; [typeclasses eauto | apply Q, keeps_path_exists | intros present].
  destruct (negb present).
  { apply keeps_bind; [typeclasses eauto | apply Q, keeps_emit; exact I | intros _].
    apply keeps_ret. typeclasses eauto. }
  apply keeps_bind; [typeclasses eauto | apply Q, keeps_read_csv_file | intros data].
  apply keeps_bind; [typeclasses eauto | apply Q, keeps_emit; exact I | intros _].
  apply keeps_bind; [typeclasses eauto | apply Q, keeps_emit; exact I | intros _].
  apply keeps_bind; [typeclasses eauto | apply Q, keeps_train_model | intros [model0 metrics0]].
  apply keeps_bind; [typeclasses eauto | apply Q, keeps_selection_loop | intros mm].
  apply keeps_bind; [typeclasses eauto | apply keeps_or_raise; typeclasses eauto | intros best].
  apply keeps_bind; [typeclasses eauto | apply Q, keeps_emit; exact I | intros _].
  apply keeps_bind; [typeclasses eauto | apply Q, keeps_emit; exact I | intros _].
  apply keeps_bind; [typeclasses eauto | apply Q, keeps_emit; exact I | intros _].
  apply keeps_bind; [typeclasses eauto | apply keeps_persist | intros summary].
  apply keeps_ret. typeclasses eauto.
Qed.

(** C5: whatever the outcome of a run, every request it makes to the
    ranking collaborator asks for [max(1, X.shape[1] - remove_count)]
    features of the frame [X] it passes, which is never less than 1. *)
Theorem ranking_request_is_clamped
    fuel file_path step remove_count min_features save_dir w :
  exists evs,
    log (optimize_model sk fuel file_path step remove_count min_features save_dir w).2
      = log w ++ evs /\
    forall X y step' n, ERfe X y step' n ∈ evs ->
      n = Z.max 1 (shape1 X - remove_count) /\ 1 <= n.
Proof.
  destruct (keeps_optimize_model fuel file_path step remove_count min_features save_dir w)
    as (evs & Hlog & Hall).
  exists evs. split; [exact Hlog|]. intros X y step' n Hin.
  rewrite Forall_forall in Hall. exact (Hall _ Hin).
Qed.

(* --------------------------------------------------------------------- *)
(** ** Persistence *)
(* --------------------------------------------------------------------- *)

Lemma writes_app (l1 l2 : list Event) : writes (l1 ++ l2) = writes l1 ++ writes l2.
Proof. unfold writes. apply filter_app. Qed.

Lemma writes_persist_events existed save_dir (s : Summary (Model := Model)) :
  writes (persist_events existed save_dir s)
  = (if confirmed (save_model s) then [EDump (best_model_file s)] else [])
    ++ [EToCsv (best_features_file s)].
Proof.
  unfold persist_events. destruct existed, (confirmed (save_model s)); reflexivity.
Qed.

(** The writes of a completed run. *)
Lemma completed_writes fuel file_path step remove_count min_features save_dir w s w' :
  completed fuel file_path step remove_count min_features save_dir w s w' ->
  exists evs,
    log w' = log w ++ evs /\
    writes evs = (if confirmed (save_model s) then [EDump (best_model_file s)] else [])
                 ++ [EToCsv (best_features_file s)].
Proof.
  intros H. apply completed_effects in H as ((evs & Hevs & Hlog) & _).
  eexists. split; [exact Hlog|].
  rewrite writes_app, (loop_events_no_writes _ _ Hevs), writes_persist_events. reflexivity.
Qed.

Lemma elem_of_writes (e : Event) (evs : list Event) :
  e ∈ writes evs <-> e ∈ evs /\ is_write e = true.
Proof.
  unfold writes. rewrite list_elem_of_filter.
  destruct (is_write e); cbn; intuition congruence.
Qed.

(** C8, as amended: in every completed run the file writes are, in this
    order, the dump of the model artifact (when the answer confirms it) and
    then the feature-subset CSV: the model file is written first. *)
Theorem model_dumped_before_features_csv
    fuel file_path step remove_count min_features save_dir w s w' :
  optimize_model sk fuel file_path step remove_count min_features save_dir w
    = (Val (Some s), w') ->
  exists evs,
    log w' = log w ++ evs /\
    writes evs = (if confirmed (save_model s) then [EDump (best_model_file s)] else [])
                 ++ [EToCsv (best_features_file s)].
Proof. intros Hrun. apply optimize_model_val in Hrun. eapply completed_writes. exact Hrun. Qed.

(* --------------------------------------------------------------------- *)
(** ** Aborted runs *)
(* --------------------------------------------------------------------- *)

Lemma loop_event_no_files remove_count e :
  loop_event remove_count e -> touches_files e = false.
Proof. destruct e; cbn; tauto. Qed.

Lemma ranking_error_is_quiet fuel file_path step remove_count min_features save_dir w w' :
  optimize_model sk fuel file_path step remove_count min_features save_dir w
    = (Raise RankingError, w') ->
  quiet (loop_event remove_count) w w'.
Proof.
  unfold optimize_model. intros H.
  assert (Q0 : quiet (loop_event remove_count) w w) by reflexivity.
  apply bind_raise in H as [[=] | (present & w1 & Hp & H)].
  unfold path_exists in Hp. injection Hp as <- <-.
  destruct (negb _).
  { apply bind_raise in H as [[=] | (? & ? & _ & [=])]. }
  apply (bind_raise_keeps (quiet (loop_event remove_count)) _ _ w) in H
    as [[_ ?] | (data & w2 & Q2 & _ & H)]; [assumption| |apply keeps_read_csv_file|exact Q0].
  apply (bind_raise_keeps (quiet (loop_event remove_count)) _ _ w) in H
    as [[_ ?] | ([] & w3 & Q3 & _ & H)]; [assumption| |apply keeps_emit; exact I|exact Q2].
  apply (bind_raise_keeps (quiet (loop_event remove_count)) _ _ w) in H
    as [[_ ?] | ([] & w4 & Q4 & _ & H)]; [assumption| |apply keeps_emit; exact I|exact Q3].
  apply (bind_raise_keeps (quiet (loop_event remove_count)) _ _ w) in H
    as [[_ ?] | ([model0 metrics0] & w5 & Q5 & _ & H)];
    [assumption| |apply keeps_train_model|exact Q4].
  apply (bind_raise_keeps (quiet (loop_event remove_count)) _ _ w) in H
    as [[_ ?] | (mm & w6 & Q6 & _ & H)]; [assumption| |apply keeps_selection_loop|exact Q5].
  apply (bind_raise_keeps (quiet (loop_event remove_count)) _ _ w) in H
    as [[_ ?] | (best & w7 & Q7 & _ & H)];
    [assumption| |apply keeps_or_raise; typeclasses eauto|exact Q6].
  apply (bind_raise_keeps (quiet (loop_event remove_count)) _ _ w) in H
    as [[_ ?] | ([] & w8 & Q8 & _ & H)]; [assumption| |apply keeps_emit; exact I|exact Q7].
  apply (bind_raise_keeps (quiet (loop_event remove_count)) _ _ w) in H
    as [[_ ?] | ([] & w9 & Q9 & _ & H)]; [assumption| |apply keeps_emit; exact I|exact Q8].
  apply (bind_raise_keeps (quiet (loop_event remove_count)) _ _ w) in H
    as [[_ ?] | ([] & w10 & Q10 & _ & H)]; [assumption| |apply keeps_emit; exact I|exact Q9].
  apply bind_raise in H as [H | (? & ? & _ & [=])].
  apply persist_raises in H. congruence.
Qed.

(** C9: when the dataset path does not exist the run returns at once,
    having only printed the diagnostic: no file or directory is touched; and
    when a run ends in a [RankingError] the files are exactly as before and
    the run has neither created a directory nor written a file. *)
Theorem aborted_run_leaves_no_files
    fuel file_path step remove_count min_features save_dir w r w' :
  optimize_model sk fuel file_path step remove_count min_features save_dir w = (r, w') ->
  (file_path = "" \/ fs w !! file_path = None ->
     r = Val None /\ fs w' = fs w /\ stdin w' = stdin w /\
     log w' = log w ++ [EPrint (MsgNotFound file_path)]) /\
  (r = Raise RankingError ->
     fs w' = fs w /\
     exists evs, log w' = log w ++ evs /\ Forall (fun e => touches_files e = false) evs).
Proof.
  intros Hrun. split.
  - intros Hnone. unfold optimize_model, bind, path_exists in Hrun.
    assert (Hp : bool_decide (file_path <> "")
                 && bool_decide (is_Some (fs w !! file_path)) = false).
    { destruct Hnone as [-> | Hnone].
      - rewrite bool_decide_eq_false_2 by (intros H; apply H; reflexivity). reflexivity.
      - rewrite Hnone, (bool_decide_eq_false_2 (is_Some None)) by (intros [? [=]]).
        apply andb_false_r. }
    rewrite Hp in Hrun. cbn in Hrun. injection Hrun as <- <-. auto.
  - intros ->. apply ranking_error_is_quiet in Hrun as (Hfs & _ & evs & Hlog & Hall).
    split; [exact Hfs|]. exists evs. split; [exact Hlog|].
    eapply Forall_impl; [exact Hall|]. apply loop_event_no_files.
Qed.

(* --------------------------------------------------------------------- *)
(** ** The working data *)
(* --------------------------------------------------------------------- *)

Section WorkingData.
Variable data0 : DataFrame.
Variable y0 : Series.
Hypothesis target0 : iloc_target data0 = Some y0.
Hypothesis distinct0 : NoDup (columns data0).
Hypothesis no_target0 : "target" ∉ columns (iloc_features data0).

Local Abbreviation shaped := (shaped_frame data0 y0).
Local Abbreviation recorded_shape := (recorded_frame data0 y0).

Lemma shaped_data0 : shaped data0.
Proof.
  destruct (frame_snoc _ _ target0) as [tname E].
  exists (iloc_features data0), tname. split; [exact E | reflexivity].
Qed.

Lemma distinct_features (S : DataFrame) :
  sublist S (iloc_features data0) -> NoDup (columns S) /\ "target" ∉ columns S.
Proof.
  intros Hsub.
  assert (Hcols : sublist (columns S) (columns (iloc_features data0)))
    by (unfold columns; apply fmap_sublist; exact Hsub).
  split.
  - eapply sublist_NoDup; [|exact Hcols].
    eapply sublist_NoDup; [exact distinct0|].
    unfold columns, iloc_features. rewrite fmap_take. apply sublist_take.
  - intros Hin. apply no_target0. eapply elem_of_sublist; eauto.
Qed.

Lemma feature_selection_shaped data step remove_count w data' sel w' :
  shaped data ->
  feature_selection sk data step remove_count w = (Val (data', sel), w') ->
  exists S, data' = S ++ [("target", y0)] /\ sublist S (iloc_features data0).
Proof.
  intros (S & tname & -> & Hsub) H.
  apply feature_selection_val in H as (y & mask & Hy & _ & _ & -> & ->).
  rewrite iloc_features_snoc in *. rewrite iloc_target_snoc in Hy. injection Hy as <-.
  destruct (distinct_features S Hsub) as [Hnd Hnt].
  rewrite loc_columns_mask by exact Hnd.
  assert (Hsub' : sublist (mask_filter mask S) (iloc_features data0)).
  { etransitivity; [apply mask_filter_sublist | exact Hsub]. }
  rewrite setitem_fresh by (apply (distinct_features _ Hsub')).
  eauto.
Qed.

Lemma selection_loop_shapes fuel step remove_count min_features metrics0 w mm w' :
  selection_loop sk fuel step remove_count min_features data0
    [(initial_model_name, metrics0, data0)] 1%nat (shape1 data0 - 1) w = (Val mm, w') ->
  Forall recorded_shape mm.
Proof.
  intros H.
  assert (Hstep : forall data data' sel wa wb it metrics model w1 w2,
    shaped data ->
    feature_selection sk data step remove_count wa = (Val (data', sel), wb) ->
    train_model sk data' w1 = (Val (model, metrics), w2) ->
    shaped data' /\ recorded_shape (iteration_name it, metrics, data')).
  { intros data data' sel wa wb it metrics model w1 w2 Hshaped Hfs _.
    destruct (feature_selection_shaped _ _ _ _ _ _ _ Hshaped Hfs) as (S & -> & Hsub).
    split.
    - exists S, "target". auto.
    - right. split.
      + exact (iteration_name_not_initial it).
      + exists S. auto. }
  assert (Hinit : Forall recorded_shape [(initial_model_name, metrics0, data0)]).
  { constructor; [|constructor]. left. split; reflexivity. }
  exact (proj1 (selection_loop_inv shaped recorded_shape _ _ _ Hstep
                  _ _ _ _ _ _ _ _ shaped_data0 Hinit H)).
Qed.

End WorkingData.

Lemma rows_are_sublist (n : nat) (S df : DataFrame) :
  sublist S df -> rows_are n df -> rows_are n S.
Proof.
  unfold rows_are. rewrite !Forall_forall. intros Hsub H c Hc.
  apply H. eapply elem_of_sublist; eauto.
Qed.

Lemma rows_are_features (n : nat) (df : DataFrame) :
  rows_are n df -> rows_are n (iloc_features df).
Proof. apply rows_are_sublist. unfold iloc_features. apply sublist_take. Qed.

(** C6, as amended: in every completed run on a file none of whose feature
    columns is named [target], the feature-subset CSV is written under the
    name derived from the winning label, with the header of the winning data
    and no index column; the winning data consists of feature columns of the
    loaded frame in their original order followed by the original target
    values, in a column named [target] when the winner is an iteration of
    the loop and carrying the original name of the target column when the
    winner is the baseline; and reading the written table back gives the
    winning data. *)
Theorem features_csv_round_trip
    fuel file_path step remove_count min_features save_dir w s w' t :
  optimize_model sk fuel file_path step remove_count min_features save_dir w
    = (Val (Some s), w') ->
  fs w !! file_path = Some (CsvFile t) ->
  "target" ∉ take (length (header t) - 1) (header t) ->
  let best_data := rec_data (best_model s) in
  exists data0 tname0 y0 features,
    read_csv t = Some data0 /\
    last data0 = Some (tname0, y0) /\
    best_features_file s
      = path_join save_dir (features_file_name (rec_name (best_model s))) /\
    fs w' !! best_features_file s = Some (CsvFile (to_csv best_data false)) /\
    header (to_csv best_data false) = columns best_data /\
    best_data
      = features ++ [(if decide (rec_name (best_model s) = initial_model_name)
                      then tname0 else "target", y0)] /\
    sublist features (iloc_features data0) /\
    read_csv (to_csv best_data false) = Some best_data.
Proof.
  intros Hrun Hfile Hnt best_data. apply optimize_model_val in Hrun.
  pose proof (completed_effects _ _ _ _ _ _ _ _ _ Hrun) as (_ & Hfs & _ & _ & Hff).
  cbn zeta in Hfs.
  destruct Hrun as [t' data0 metrics0 w1 w2 w3 _ Hfile' Hread _ Hloop Hbest _ _].
  rewrite Hfile in Hfile'. injection Hfile' as <-.
  destruct (read_csv_rows _ _ Hread) as [Hrows Hne].
  destruct (last data0) as [[tname0 y0]|] eqn:Hlast;
    [|apply last_None in Hlast; congruence].
  assert (Htarget : iloc_target data0 = Some y0)
    by (unfold iloc_target; rewrite Hlast; reflexivity).
  pose proof (read_csv_distinct _ _ Hread) as Hdistinct.
  pose proof (read_csv_no_target _ _ Hread Hnt) as Hno.
  pose proof (selection_loop_shapes data0 y0 Htarget Hdistinct Hno _ _ _ _ _ _ _ _ Hloop)
    as Hshapes.
  rewrite Forall_forall in Hshapes.
  pose proof (Hshapes _ (max_by_elem _ _ _ Hbest)) as Hshape.
  assert (Hdata : exists features,
            best_data = features ++ [(if decide (rec_name (best_model s) = initial_model_name)
                                      then tname0 else "target", y0)] /\
            sublist features (iloc_features data0) /\ NoDup (columns best_data)).
  { destruct Hshape as [[Hname Hd] | [Hname (S & Hd & Hsub)]].
    - exists (iloc_features data0). rewrite decide_True by exact Hname.
      split; [|split; [reflexivity | unfold best_data; rewrite Hd; exact Hdistinct]].
      unfold best_data. rewrite Hd.
      destruct (frame_snoc _ _ Htarget) as [tname E].
      rewrite E in Hlast at 1. rewrite last_snoc in Hlast. injection Hlast as ->.
      exact E.
    - exists S. rewrite decide_False by exact Hname. split; [exact Hd|]. split; [exact Hsub|].
      unfold best_data. rewrite Hd. unfold columns. rewrite fmap_app. cbn.
      assert (Hsubc : sublist (fst <$> S) (columns (iloc_features data0)))
        by (unfold columns; apply fmap_sublist; exact Hsub).
      apply NoDup_app. split; [|split; [|apply NoDup_singleton]].
      + eapply sublist_NoDup; [|exact Hsubc]. eapply sublist_NoDup; [exact Hdistinct|].
        unfold columns, iloc_features. rewrite fmap_take. apply sublist_take.
      + intros x Hx Hx'. apply list_elem_of_singleton in Hx'. subst x.
        apply Hno. eapply elem_of_sublist; eassumption. }
  destruct Hdata as (features & Hdata & Hsub & Hnd).
  exists data0, tname0, y0, features.
  split; [exact Hread|]. split; [exact Hlast|]. split; [exact Hff|].
  split; [rewrite Hfs; apply lookup_insert_eq|]. split; [reflexivity|].
  split; [exact Hdata|]. split; [exact Hsub|].
  apply read_csv_to_csv; [| |exact Hnd].
  - apply (rows_are_rectangular (length (records t))). rewrite Hdata.
    apply Forall_app. split.
    + eapply rows_are_sublist; [exact Hsub|]. apply rows_are_features. exact Hrows.
    + repeat constructor. cbn.
      unfold rows_are in Hrows. rewrite Forall_forall in Hrows.
      apply (Hrows (tname0, y0)). apply last_Some_elem_of. exact Hlast.
  - rewrite Hdata. destruct features; discriminate.
Qed.

(* --------------------------------------------------------------------- *)
(** ** The saved model and the recorded metrics *)
(* --------------------------------------------------------------------- *)

Lemma selection_loop_evaluated fuel step remove_count min_features data metrics0 w mm w' :
  evaluated_on_split data metrics0 ->
  selection_loop sk fuel step remove_count min_features data
    [(initial_model_name, metrics0, data)] 1%nat (shape1 data - 1) w = (Val mm, w') ->
  Forall (fun r => evaluated_on_split (rec_data r) (rec_metrics r)) mm.
Proof.
  intros H0 H.
  refine (proj1 (selection_loop_inv (fun _ => True)
                   (fun r => evaluated_on_split (rec_data r) (rec_metrics r))
                   _ _ _ _ _ _ _ _ _ _ _ _ I _ H)).
  - intros d d' sel wa wb it metrics model w1 w2 _ _ Htm. split; [exact I|].
    eapply train_model_val. exact Htm.
  - constructor; [exact H0 | constructor].
Qed.

(** The files of a completed run. *)
Lemma completed_files fuel file_path step remove_count min_features save_dir w s w' :
  completed fuel file_path step remove_count min_features save_dir w s w' ->
  fs w' !! best_features_file s
    = Some (CsvFile (to_csv (rec_data (best_model s)) false)) /\
  (confirmed (save_model s) = true ->
     fs w' !! best_model_file s = Some (JoblibFile (final_model s))) /\
  (confirmed (save_model s) = false ->
     fs w' !! best_model_file s = fs w !! best_model_file s).
Proof.
  intros Hrun.
  apply completed_effects in Hrun as (_ & Hfs & _ & Hmf & Hff). cbn zeta in Hfs.
  assert (Hdiff : best_model_file s <> best_features_file s)
    by (rewrite Hmf, Hff; apply files_differ).
  assert (Hdir : best_model_file s <> save_dir)
    by (rewrite Hmf; apply model_file_not_dir).
  split; [|split].
  - rewrite Hfs. apply lookup_insert_eq.
  - intros Hc. rewrite Hfs, Hc. rewrite lookup_insert_ne by congruence.
    apply lookup_insert_eq.
  - intros Hc. rewrite Hfs, Hc. rewrite lookup_insert_ne by congruence.
    rewrite Hmf. apply with_directory_model_file.
Qed.

Section HoldOut.

(** [train_test_split] holds out at least one row: the training part is
    shorter than the data. *)
Hypothesis split_holds_out :
  forall X y test_size seed g X_train X_test y_train y_test g',
    train_test_split sk X y test_size seed g = (Some (X_train, X_test, y_train, y_test), g') ->
    (length y_train < length y)%nat.

(** C10: in every completed run the model that is kept (and dumped when the
    answer confirms it) is a fresh fit on all rows of the winning data,
    whereas the winner's recorded metrics are those of a model fitted on the
    training part of the seeded split of that data and evaluated on its
    held-out part; the training part has fewer rows than the data, so the
    two fits do not see the same training data. *)
Theorem saved_model_is_refit_on_all_rows
    fuel file_path step remove_count min_features save_dir w s w' :
  optimize_model sk fuel file_path step remove_count min_features save_dir w
    = (Val (Some s), w') ->
  let best_data := rec_data (best_model s) in
  exists y X_train X_test y_train y_test g g' model y_pred,
    iloc_target best_data = Some y /\
    lr_fit sk (iloc_features best_data) y = Some (final_model s) /\
    (confirmed (save_model s) = true ->
       fs w' !! best_model_file s = Some (JoblibFile (final_model s))) /\
    train_test_split sk (iloc_features best_data) y lit_0_2 (Some random_state) g
      = (Some (X_train, X_test, y_train, y_test), g') /\
    lr_fit sk X_train y_train = Some model /\
    lr_predict sk model X_test = Some y_pred /\
    rec_metrics (best_model s)
      = {| R2 := r2_score sk y_test y_pred;
           RMSE := sqrt (mean_squared_error sk y_test y_pred);
           MAE := mean_absolute_error sk y_test y_pred;
           ExplainedVariance := explained_variance_score sk y_test y_pred |} /\
    (length y_train < length y)%nat /\
    (X_train, y_train) <> (iloc_features best_data, y).
Proof.
  intros Hrun best_data. apply optimize_model_val in Hrun.
  destruct (completed_files _ _ _ _ _ _ _ _ _ Hrun) as (_ & Hmodel & _).
  destruct Hrun as [t data0 metrics0 w1 w2 w3 _ _ _ Hinit Hloop Hbest _ P].
  destruct Hinit as (model0 & wa & wb & Hinit). apply train_model_val in Hinit.
  pose proof (selection_loop_evaluated _ _ _ _ _ _ _ _ _ Hinit Hloop) as Hall.
  rewrite Forall_forall in Hall.
  destruct (Hall _ (max_by_elem _ _ _ Hbest))
    as (y & X_train & X_test & y_train & y_test & g & g' & model & y_pred
        & Hy & Hsplit & Hfit & Hpred & Hmetrics).
  destruct (p_final_model _ _ _ _ _ _ P) as (y' & Hy' & Hfinal).
  fold best_data in Hy, Hy', Hsplit, Hfinal. rewrite Hy in Hy'. injection Hy' as <-.
  pose proof (split_holds_out _ _ _ _ _ _ _ _ _ _ Hsplit) as Hlen.
  exists y, X_train, X_test, y_train, y_test, g, g', model, y_pred.
  repeat (split; [assumption|]).
  intros [= _ E]. rewrite E in Hlen. lia.
Qed.

End HoldOut.

(* --------------------------------------------------------------------- *)
(** ** Determinism *)
(* --------------------------------------------------------------------- *)

Lemma pure_value_bind {A B} (m : M Model Rng A) (k : A -> M Model Rng B) :
  pure_value m -> (forall a, pure_value (k a)) -> pure_value (bind m k).
Proof.
  intros Hm Hk w1 w2. unfold bind. specialize (Hm w1 w2).
  destruct (m w1) as [[a1| |] w1'], (m w2) as [[a2| |] w2']; cbn in *; try congruence.
  injection Hm as ->. apply Hk.
Qed.

Lemma pure_value_ret {A} (a : A) : pure_value (ret a).
Proof. intros w1 w2. reflexivity. Qed.

Lemma pure_value_or_raise {A} e (o : option A) : pure_value (or_raise e o).
Proof. intros w1 w2. destruct o; reflexivity. Qed.

Lemma pure_value_emit e : pure_value (emit e).
Proof. intros w1 w2. reflexivity. Qed.

Lemma pure_value_feature_selection data step remove_count :
  pure_value (feature_selection sk data step remove_count).
Proof.
  unfold feature_selection.
  apply pure_value_bind; [apply pure_value_or_raise | intros y].
  apply pure_value_bind; [apply pure_value_emit | intros _].
  apply pure_value_bind; [apply pure_value_or_raise | intros support_].
  apply pure_value_bind; [apply pure_value_or_raise | intros selected].
  apply pure_value_ret.
Qed.

Lemma selection_loop_more_fuel fuel step remove_count min_features data mm it cf w v w' :
  selection_loop sk fuel step remove_count min_features data mm it cf w = (Val v, w') ->
  selection_loop sk (S fuel) step remove_count min_features data mm it cf w = (Val v, w').
Proof.
  revert data mm it cf w. induction fuel as [|fuel IH]; intros data mm it cf w H;
    [discriminate|].
  cbn [selection_loop] in H.
  remember (S fuel) as fuel' eqn:E. cbn [selection_loop]. subst fuel'.
  apply bind_val in H as ([] & w1 & H1 & H). rewrite (bind_eq_val _ _ _ _ _ H1).
  destruct (cf <=? min_features)%Z; [exact H|].
  apply bind_val in H as ([data' sel] & w2 & H2 & H). rewrite (bind_eq_val _ _ _ _ _ H2).
  apply bind_val in H as ([] & w3 & H3 & H). rewrite (bind_eq_val _ _ _ _ _ H3).
  apply bind_val in H as ([] & w4 & H4 & H). rewrite (bind_eq_val _ _ _ _ _ H4).
  apply bind_val in H as ([model metrics] & w5 & H5 & H). rewrite (bind_eq_val _ _ _ _ _ H5).
  apply IH. exact H.
Qed.

Lemma selection_loop_fuel_le fuel fuel' step remove_count min_features data mm it cf w v w' :
  (fuel <= fuel')%nat ->
  selection_loop sk fuel step remove_count min_features data mm it cf w = (Val v, w') ->
  selection_loop sk fuel' step remove_count min_features data mm it cf w = (Val v, w').
Proof.
  induction 1 as [|fuel' _ IH]; [auto|]. intros H. apply selection_loop_more_fuel. auto.
Qed.

Section Seeded.

(** With an integer [random_state], [train_test_split] does not consult the
    ambient generator. *)
Hypothesis seeded_split :
  forall X y test_size seed g g',
    (train_test_split sk X y test_size (Some seed) g).1
    = (train_test_split sk X y test_size (Some seed) g').1.

Lemma pure_value_split X y : pure_value (split sk X y).
Proof.
  intros w1 w2. unfold split.
  pose proof (seeded_split X y lit_0_2 random_state (rng w1) (rng w2)) as H.
  destruct (train_test_split sk X y lit_0_2 (Some random_state) (rng w1)) as [r1 g1],
           (train_test_split sk X y lit_0_2 (Some random_state) (rng w2)) as [r2 g2].
  cbn in *. subst r2. reflexivity.
Qed.

Lemma pure_value_train_model data : pure_value (train_model sk data).
Proof.
  unfold train_model.
  apply pure_value_bind; [apply pure_value_or_raise | intros y].
  apply pure_value_bind; [apply pure_value_split | intros [[[X_train X_test] y_train] y_test]].
  apply pure_value_bind; [apply pure_value_or_raise | intros model].
  apply pure_value_bind; [apply pure_value_or_raise | intros y_pred].
  apply pure_value_ret.
Qed.

Lemma pure_value_selection_loop fuel step remove_count min_features data mm it cf :
  pure_value (selection_loop sk fuel step remove_count min_features data mm it cf).
Proof.
  revert data mm it cf. induction fuel as [|fuel IH]; intros data mm it cf;
    cbn [selection_loop]; [intros w1 w2; reflexivity|].
  apply pure_value_bind; [apply pure_value_emit | intros _].
  destruct (cf <=? min_features)%Z.
  - apply pure_value_bind; [apply pure_value_emit | intros _]. apply pure_value_ret.
  - apply pure_value_bind; [apply pure_value_feature_selection | intros [data' sel]].
    apply pure_value_bind; [apply pure_value_emit | intros _].
    apply pure_value_bind; [apply pure_value_emit | intros _].
    apply pure_value_bind; [apply pure_value_train_model | intros [model metrics]].
    apply IH.
Qed.

(** C4: two completed runs on the same dataset file with the same
    parameters record the same iterations (names, metrics and selected
    data) and choose the same winner, whatever the other files, the save
    directory, the pending answers, the log, the state of the ambient random
    generator and the fuel of either run. *)
Theorem runs_are_deterministic
    fuel1 fuel2 file_path step remove_count min_features save_dir1 save_dir2
    (w1 w2 : World Model Rng) s1 s2 w1' w2' :
  fs w1 !! file_path = fs w2 !! file_path ->
  optimize_model sk fuel1 file_path step remove_count min_features save_dir1 w1
    = (Val (Some s1), w1') ->
  optimize_model sk fuel2 file_path step remove_count min_features save_dir2 w2
    = (Val (Some s2), w2') ->
  models_metrics s1 = models_metrics s2 /\ best_model s1 = best_model s2.
Proof.
  intros Hfile H1 H2. apply optimize_model_val in H1, H2.
  destruct H1 as [t1 d1 m1 wa1 wb1 wc1 _ Hf1 Hr1 Hi1 Hl1 Hb1 _ _].
  destruct H2 as [t2 d2 m2 wa2 wb2 wc2 _ Hf2 Hr2 Hi2 Hl2 Hb2 _ _].
  rewrite Hfile, Hf2 in Hf1. injection Hf1 as <-.
  rewrite Hr2 in Hr1. injection Hr1 as <-.
  destruct Hi1 as (mo1 & u1 & u1' & Hi1), Hi2 as (mo2 & u2 & u2' & Hi2).
  pose proof (pure_value_train_model d2 u1 u2) as Hm.
  rewrite Hi1, Hi2 in Hm. cbn in Hm. injection Hm as _ ->.
  apply (selection_loop_fuel_le _ (Nat.max fuel1 fuel2)) in Hl1; [|lia].
  apply (selection_loop_fuel_le _ (Nat.max fuel1 fuel2)) in Hl2; [|lia].
  pose proof (pure_value_selection_loop (Nat.max fuel1 fuel2) step remove_count min_features
                d2 [(initial_model_name, m2, d2)] 1%nat (shape1 d2 - 1) wa1 wa2) as Hmm.
  rewrite Hl1, Hl2 in Hmm. cbn in Hmm. injection Hmm as Hmm.
  split; [exact Hmm|]. rewrite Hmm in Hb1. congruence.
Qed.

End Seeded.

(* --------------------------------------------------------------------- *)
(** ** Termination *)
(* --------------------------------------------------------------------- *)

Lemma ends_within_le (j k : nat) {A} (m : M Model Rng A) w :
  (j <= k)%nat -> ends_within j m w -> ends_within k m w.
Proof.
  intros Hjk (Hend & evs & Hlog & Hcalls). split; [exact Hend|].
  exists evs. split; [exact Hlog | lia].
Qed.

Lemma rfe_calls_app (l1 l2 : list Event) :
  rfe_calls (l1 ++ l2) = (rfe_calls l1 + rfe_calls l2)%nat.
Proof. unfold rfe_calls. rewrite filter_app, length_app. reflexivity. Qed.

Lemma ends_within_bind (j k : nat) {A B} (m : M Model Rng A) (f : A -> M Model Rng B) w :
  ends_within j m w ->
  (forall a w1, m w = (Val a, w1) -> ends_within k (f a) w1) ->
  ends_within (j + k) (bind m f) w.
Proof.
  intros (Hend & evs & Hlog & Hcalls) Hf. unfold ends_within, bind in *.
  destruct (m w) as [[a|e|] w1]; cbn in *.
  - destruct (Hf a w1 eq_refl) as (Hend' & evs' & Hlog' & Hcalls').
    split; [exact Hend'|]. exists (evs ++ evs'). rewrite Hlog', Hlog, app_assoc.
    split; [reflexivity|]. rewrite rfe_calls_app. lia.
  - split; [discriminate|]. exists evs. split; [exact Hlog | lia].
  - congruence.
Qed.

Lemma ends_within_ret {A} (a : A) w : ends_within 0 (ret a) w.
Proof. split; [discriminate|]. exists []. cbn. rewrite app_nil_r. auto. Qed.

Lemma ends_within_or_raise {A} e (o : option A) w : ends_within 0 (or_raise e o) w.
Proof.
  destruct o; (split; [discriminate|]); exists []; cbn; rewrite app_nil_r; auto.
Qed.

Lemma ends_within_one_event (e : Event) {A} (m : M Model Rng A) w :
  (m w).1 <> OutOfFuel -> log (m w).2 = log w ++ [e] ->
  ends_within (if is_rfe e then 1 else 0) m w.
Proof.
  intros Hend Hlog. split; [exact Hend|]. exists [e]. split; [exact Hlog|].
  unfold rfe_calls. destruct e; compute; lia.
Qed.

Lemma ends_within_emit (e : Event) w : ends_within (if is_rfe e then 1 else 0) (emit e) w.
Proof. apply ends_within_one_event; [discriminate | reflexivity]. Qed.

Lemma ends_within_print (m : Msg) w : ends_within 0 (print m) w.
Proof. apply (ends_within_emit (EPrint m)). Qed.

Lemma ends_within_split X y w : ends_within 0 (split sk X y) w.
Proof.
  unfold ends_within, split.
  destruct (train_test_split sk X y lit_0_2 (Some random_state) (rng w)) as [[r|] g]; cbn;
    (split; [discriminate|]); exists []; rewrite app_nil_r; auto.
Qed.

Lemma ends_within_train_model data w : ends_within 0 (train_model sk data) w.
Proof.
  unfold train_model.
  apply (ends_within_bind 0 0); [apply ends_within_or_raise | intros y w1 _].
  apply (ends_within_bind 0 0);
    [apply ends_within_split | intros [[[X_train X_test] y_train] y_test] w2 _].
  apply (ends_within_bind 0 0); [apply ends_within_or_raise | intros model w3 _].
  apply (ends_within_bind 0 0); [apply ends_within_or_raise | intros y_pred w4 _].
  apply ends_within_ret.
Qed.

Lemma ends_within_feature_selection data step remove_count w :
  ends_within 1 (feature_selection sk data step remove_count) w.
Proof.
  unfold feature_selection.
  apply (ends_within_bind 0 1); [apply ends_within_or_raise | intros y w1 _].
  apply (ends_within_bind 1 0); [apply (ends_within_emit (ERfe _ _ _ _)) | intros _ w2 _].
  apply (ends_within_bind 0 0); [apply ends_within_or_raise | intros support_ w3 _].
  apply (ends_within_bind 0 0); [apply ends_within_or_raise | intros selected w4 _].
  apply ends_within_ret.
Qed.

Lemma ends_within_read_csv_file path w : ends_within 0 (read_csv_file path) w.
Proof.
  unfold ends_within, read_csv_file.
  destruct (fs w !! path) as [[|t| |]|];
    try (split; [discriminate|]; exists []; cbn; rewrite app_nil_r; auto).
  apply (ends_within_or_raise ParserError (read_csv t) w).
Qed.

Lemma ends_within_persist save_dir mm best w :
  ends_within 0 (persist sk save_dir mm best) w.
Proof.
  unfold persist. destruct best as [[name metrics] data].
  apply (ends_within_bind 0 0); [apply (ends_within_ret _ w) | intros present w1 _].
  apply (ends_within_bind 0 0).
  { destruct (negb present); [|apply ends_within_ret].
    apply (ends_within_one_event (EMakedirs save_dir)); unfold makedirs;
      destruct (makedirs_in _ _ _); cbn; congruence. }
  intros _ w2 _.
  apply (ends_within_bind 0 0); [apply ends_within_or_raise | intros y w3 _].
  apply (ends_within_bind 0 0); [apply ends_within_or_raise | intros fm w4 _].
  apply (ends_within_bind 0 0).
  { apply (ends_within_one_event (EInput input_prompt)); unfold input;
      destruct (stdin w4); cbn; congruence. }
  intros answer w5 _.
  assert (Hwrite : forall ev path content w0, is_rfe ev = false ->
            ends_within 0 (write_file ev path content) w0).
  { intros ev path content w0 Hev.
    pose proof (ends_within_one_event ev (write_file ev path content) w0) as H.
    rewrite Hev in H. apply H; unfold write_file;
      destruct (fs w0 !! path) as [[]|]; cbn; congruence. }
  apply (ends_within_bind 0 0).
  { destruct (confirmed answer); [|apply ends_within_ret].
    apply (ends_within_bind 0 0); [apply Hwrite; reflexivity | intros _ w6 _].
    apply ends_within_print. }
  intros _ w6 _.
  apply (ends_within_bind 0 0); [apply Hwrite; reflexivity | intros _ w7 _].
  apply (ends_within_bind 0 0); [apply ends_within_print | intros _ w8 _].
  apply ends_within_ret.
Qed.

Lemma ceil_div_pos (a b : Z) : 1 <= a -> 1 <= b -> 1 <= ceil_div a b.
Proof. intros Ha Hb. unfold ceil_div. apply Z.div_le_lower_bound; lia. Qed.

Lemma ceil_div_nonpos (a b : Z) : a <= 0 -> 1 <= b -> ceil_div a b <= 0.
Proof.
  intros Ha Hb. unfold ceil_div.
  assert ((a + b - 1) / b < 1); [|lia]. apply Z.div_lt_upper_bound; lia.
Qed.

Lemma ceil_div_mono (a a' b : Z) : a <= a' -> 1 <= b -> ceil_div a b <= ceil_div a' b.
Proof. intros Ha Hb. unfold ceil_div. apply Z.div_le_mono; lia. Qed.

Lemma ceil_div_step (a b : Z) : 1 <= b -> ceil_div (a - b) b = ceil_div a b - 1.
Proof.
  intros Hb. unfold ceil_div.
  replace (a - b + b - 1) with (a + b - 1 + (-1) * b) by lia.
  rewrite Z.div_add by lia. lia.
Qed.

Lemma setitem_columns (df : DataFrame) (name : string) (values : Series) :
  columns (setitem df name values)
  = if decide (name ∈ columns df) then columns df else columns df ++ [name].
Proof.
  unfold setitem. destruct (decide (name ∈ columns df)) as [Hin|Hin].
  - unfold columns. rewrite <- list_fmap_compose. apply list_fmap_ext.
    intros i [c v] _. cbn. destruct (decide (c = name)); cbn; congruence.
  - unfold columns. rewrite fmap_app. reflexivity.
Qed.

Section Termination.

(** The ranking keeps as many features as it is asked for, and all of them
    when it is asked for more than there are. *)
Hypothesis rfe_keeps :
  forall X y step n mask,
    rfe_support sk X y step n = Some mask ->
    Z.of_nat (count_true mask) = Z.min n (shape1 X).

Lemma feature_selection_counts data step remove_count w data' sel w' :
  NoDup (columns data) ->
  feature_selection sk data step remove_count w = (Val (data', sel), w') ->
  NoDup (columns data') /\
  Z.of_nat (length sel)
  = Z.min (Z.max 1 (shape1 (iloc_features data) - remove_count))
          (shape1 (iloc_features data)) /\
  shape1 (iloc_features data') <= Z.of_nat (length sel).
Proof.
  intros Hnd H. apply feature_selection_val in H as (y & mask & _ & Hrfe & Hlen & -> & ->).
  set (X := iloc_features data) in *.
  assert (HndX : NoDup (columns X)).
  { eapply sublist_NoDup; [exact Hnd|]. subst X. unfold columns, iloc_features.
    rewrite fmap_take. apply sublist_take. }
  rewrite loc_columns_mask by exact HndX.
  assert (Hsel : length (mask_filter mask (columns X)) = count_true mask).
  { apply mask_filter_length. unfold columns. rewrite length_fmap. exact Hlen. }
  assert (Hcols : columns (mask_filter mask X) = mask_filter mask (columns X)).
  { unfold columns. apply mask_filter_fmap. }
  assert (HndS : NoDup (mask_filter mask (columns X))).
  { eapply sublist_NoDup; [exact HndX | apply mask_filter_sublist]. }
  split; [|split].
  - rewrite setitem_columns, Hcols. destruct (decide _) as [Hin|Hin]; [exact HndS|].
    apply NoDup_app. split; [exact HndS|]. split; [|apply NoDup_singleton].
    intros x Hx Hx'. apply list_elem_of_singleton in Hx'. subst x. contradiction.
  - rewrite Hsel, (rfe_keeps _ _ _ _ _ Hrfe), n_features_to_select_max. reflexivity.
  - unfold shape1, iloc_features. rewrite length_take.
    assert (HlenS : length (mask_filter mask (columns X)) = length (mask_filter mask X)).
    { rewrite <- Hcols. unfold columns. apply length_fmap. }
    assert (Hl : (length (setitem (mask_filter mask X) "target" y)
                  <= S (length (mask_filter mask X)))%nat).
    { unfold setitem. destruct (decide _); [rewrite length_fmap | rewrite length_app; cbn]; lia. }
    lia.
Qed.

Lemma selection_loop_ends fuel step remove_count min_features :
  1 <= remove_count -> 1 <= min_features ->
  forall data mm it cf w,
    NoDup (columns data) ->
    shape1 (iloc_features data) <= cf ->
    (Z.to_nat (cf - min_features) < fuel)%nat ->
    ends_within (Z.to_nat (ceil_div (cf - min_features) remove_count))
      (selection_loop sk fuel step remove_count min_features data mm it cf) w.
Proof.
  intros Hr Hm. induction fuel as [|fuel IH]; intros data mm it cf w Hnd Hcf Hfuel; [lia|].
  cbn [selection_loop].
  remember (Z.to_nat (ceil_div (cf - min_features) remove_count)) as K eqn:HK.
  apply (ends_within_bind 0 K); [apply ends_within_print | intros _ w1 _].
  destruct (Z.leb_spec cf min_features) as [Hle|Hgt].
  { apply (ends_within_le (0 + 0)); [lia|].
    apply (ends_within_bind 0 0); [apply ends_within_print | intros _ w2 _].
    apply ends_within_ret. }
  pose proof (ceil_div_pos (cf - min_features) remove_count ltac:(lia) Hr) as Hpos.
  destruct (feature_selection sk data step remove_count w1) as [[[data' sel]|e|] w2] eqn:Hfs.
  - destruct (feature_selection_counts _ _ _ _ _ _ _ Hnd Hfs) as (Hnd' & Hsel & Hshape').
    set (cf' := Z.of_nat (length sel)) in *.
    assert (Hcf' : cf' <= cf - 1) by lia.
    assert (Hbound : (1 + Z.to_nat (ceil_div (cf' - min_features) remove_count) <= K)%nat).
    { destruct (Z.le_gt_cases cf' min_features) as [Hstop|Hmore].
      - pose proof (ceil_div_nonpos (cf' - min_features) remove_count ltac:(lia) Hr). lia.
      - assert (cf' <= cf - remove_count) by lia.
        pose proof (ceil_div_mono (cf' - min_features) (cf - min_features - remove_count)
                      remove_count ltac:(lia) Hr) as Hmono.
        rewrite ceil_div_step in Hmono by exact Hr.
        pose proof (ceil_div_pos (cf' - min_features) remove_count ltac:(lia) Hr). lia. }
    eapply ends_within_le; [exact Hbound|]. clear HK Hbound.
    remember (Z.to_nat (ceil_div (cf' - min_features) remove_count)) as K' eqn:HK'.
    apply (ends_within_bind 1 K'); [apply ends_within_feature_selection|].
    intros [data'' sel'] w3 Hfs'. rewrite Hfs in Hfs'. injection Hfs' as <- <- <-.
    apply (ends_within_bind 0 K'); [apply ends_within_print | intros _ w4 _].
    apply (ends_within_bind 0 K'); [apply ends_within_print | intros _ w5 _].
    apply (ends_within_bind 0 K');
      [apply ends_within_train_model | intros [model metrics] w6 _].
    subst K'. apply IH; [exact Hnd' | exact Hshape' | lia].
  - apply (ends_within_le (1 + 0)); [lia|]. apply (ends_within_bind 1 0).
    + apply ends_within_feature_selection.
    + intros a w3 Hfs'. rewrite Hfs in Hfs'. discriminate.
  - pose proof (ends_within_feature_selection data step remove_count w1) as [H _].
    rewrite Hfs in H. contradiction.
Qed.

(** X1: the loop of [optimize_model] comes to an end: with a positive
    [remove_count] and a [min_features] of at least 1, a run given more fuel
    than [initial_features - min_features] is not cut short, and it makes at
    most [ceil((initial_features - min_features) / remove_count)] ranking
    passes (none when that number is negative). *)
Theorem optimize_model_terminates
    fuel file_path step remove_count min_features save_dir w t :
  1 <= remove_count -> 1 <= min_features ->
  fs w !! file_path = Some (CsvFile t) ->
  let initial_features := Z.of_nat (length (header t)) - 1 in
  (Z.to_nat (initial_features - min_features) < fuel)%nat ->
  let out := optimize_model sk fuel file_path step remove_count min_features save_dir w in
  out.1 <> OutOfFuel /\
  exists evs,
    log out.2 = log w ++ evs /\
    Z.of_nat (rfe_calls evs)
      <= Z.max 0 (ceil_div (initial_features - min_features) remove_count).
Proof.
  intros Hr Hm Hfile initial_features Hfuel out.
  assert (H : ends_within (Z.to_nat (ceil_div (initial_features - min_features) remove_count))
                (optimize_model sk fuel file_path step remove_count min_features save_dir) w).
  { unfold optimize_model.
    remember (Z.to_nat (ceil_div (initial_features - min_features) remove_count)) as K eqn:HK.
    apply (ends_within_bind 0 K); [apply (ends_within_ret _ w) | intros present w1 Hp].
    unfold path_exists in Hp. injection Hp as _ <-.
    destruct (negb present).
    { apply (ends_within_le (0 + 0)); [lia|].
      apply (ends_within_bind 0 0); [apply ends_within_print | intros _ w2 _].
      apply ends_within_ret. }
    apply (ends_within_bind 0 K); [apply ends_within_read_csv_file | intros data w2 Hread].
    unfold read_csv_file in Hread. rewrite Hfile in Hread.
    apply or_raise_val in Hread as [Hread _].
    pose proof (read_csv_width _ _ Hread) as Hwidth.
    assert (Hshape : shape1 data - 1 = initial_features).
    { unfold shape1, initial_features. rewrite Hwidth. reflexivity. }
    apply (ends_within_bind 0 K); [apply ends_within_print | intros _ w3 _].
    apply (ends_within_bind 0 K); [apply ends_within_print | intros _ w4 _].
    apply (ends_within_bind 0 K);
      [apply ends_within_train_model | intros [model0 metrics0] w5 _].
    rewrite <- (Nat.add_0_r K).
    apply (ends_within_bind K 0).
    { rewrite Hshape. subst K. apply selection_loop_ends; try assumption.
      - exact (read_csv_distinct _ _ Hread).
      - destruct (read_csv_rows _ _ Hread) as [_ Hne].
        unfold shape1, iloc_features, initial_features. rewrite length_take, <- Hwidth.
        destruct data; [congruence | cbn; lia]. }
    intros mm w6 _.
    apply (ends_within_bind 0 0); [apply ends_within_or_raise | intros best w7 _].
    apply (ends_within_bind 0 0); [apply ends_within_print | intros _ w8 _].
    apply (ends_within_bind 0 0); [apply ends_within_print | intros _ w9 _].
    apply (ends_within_bind 0 0); [apply ends_within_print | intros _ w10 _].
    apply (ends_within_bind 0 0); [apply ends_within_persist | intros summary w11 _].
    apply ends_within_ret. }
  destruct H as (Hend & evs & Hlog & Hcalls).
  split; [exact Hend|]. exists evs. split; [exact Hlog|]. lia.
Qed.

End Termination.

(* --------------------------------------------------------------------- *)
(** ** Every outcome of a run, stage by stage *)
(* --------------------------------------------------------------------- *)

Lemma bind_outcome_keeps (R : relation (World Model Rng)) `{!PreOrder R} {A B}
    (m : M Model Rng A) (k : A -> M Model Rng B) w0 w r w' :
  keeps R m -> R w0 w -> bind m k w = (r, w') ->
  (R w0 w' /\ forall b, r <> Val b) \/
  exists a w1, R w0 w1 /\ m w = (Val a, w1) /\ k a w1 = (r, w').
Proof.
  intros Hm H0 H. unfold bind in H. specialize (Hm w).
  destruct (m w) as [[a| |] w1] eqn:E; cbn in Hm.
  - right. exists a, w1. split; [etransitivity; eassumption | auto].
  - left. injection H as <- <-. split; [etransitivity; eassumption | discriminate].
  - left. injection H as <- <-. split; [etransitivity; eassumption | discriminate].
Qed.

(** A run ends before the persistence stage, having touched nothing, or its
    outcome is that of the persistence stage. *)
Lemma optimize_model_stages fuel file_path step remove_count min_features save_dir w r w' :
  optimize_model sk fuel file_path step remove_count min_features save_dir w = (r, w') ->
  (quiet (loop_event remove_count) w w' /\ forall s, r <> Val (Some s)) \/
  exists mm best w3 r',
    quiet (loop_event remove_count) w w3 /\
    persist sk save_dir mm best w3 = (r', w') /\ r = some_res r'.
Proof.
  unfold optimize_model. intros H.
  assert (Q0 : quiet (loop_event remove_count) w w) by reflexivity.
  pose (Q := quiet (loop_event remove_count)).
  apply (bind_outcome_keeps Q _ _ w) in H
    as [[? Hr] | (present & w1 & Q1 & _ & H)];
    [left; split; [assumption | intros s; apply Hr] | |apply keeps_path_exists|exact Q0].
  destruct (negb present).
  { left. apply (bind_outcome_keeps Q _ _ w) in H
      as [[? Hr] | ([] & w2 & Q2 & _ & H)];
      [split; [assumption | intros s; apply Hr] | |apply keeps_emit; exact I|exact Q1].
    injection H as <- <-. split; [exact Q2 | discriminate]. }
  apply (bind_outcome_keeps Q _ _ w) in H
    as [[? Hr] | (data & w2 & Q2 & _ & H)];
    [left; split; [assumption | intros s; apply Hr] | |apply keeps_read_csv_file|exact Q1].
  apply (bind_outcome_keeps Q _ _ w) in H
    as [[? Hr] | ([] & w3 & Q3 & _ & H)];
    [left; split; [assumption | intros s; apply Hr] | |apply keeps_emit; exact I|exact Q2].
  apply (bind_outcome_keeps Q _ _ w) in H
    as [[? Hr] | ([] & w4 & Q4 & _ & H)];
    [left; split; [assumption | intros s; apply Hr] | |apply keeps_emit; exact I|exact Q3].
  apply (bind_outcome_keeps Q _ _ w) in H
    as [[? Hr] | ([model0 metrics0] & w5 & Q5 & _ & H)];
    [left; split; [assumption | intros s; apply Hr] | |apply keeps_train_model|exact Q4].
  apply (bind_outcome_keeps Q _ _ w) in H
    as [[? Hr] | (mm & w6 & Q6 & _ & H)];
    [left; split; [assumption | intros s; apply Hr] | |apply keeps_selection_loop|exact Q5].
  apply (bind_outcome_keeps Q _ _ w) in H
    as [[? Hr] | (best & w7 & Q7 & _ & H)];
    [left; split; [assumption | intros s; apply Hr] |
     |apply keeps_or_raise; typeclasses eauto|exact Q6].
  apply (bind_outcome_keeps Q _ _ w) in H
    as [[? Hr] | ([] & w8 & Q8 & _ & H)];
    [left; split; [assumption | intros s; apply Hr] | |apply keeps_emit; exact I|exact Q7].
  apply (bind_outcome_keeps Q _ _ w) in H
    as [[? Hr] | ([] & w9 & Q9 & _ & H)];
    [left; split; [assumption | intros s; apply Hr] | |apply keeps_emit; exact I|exact Q8].
  apply (bind_outcome_keeps Q _ _ w) in H
    as [[? Hr] | ([] & w10 & Q10 & _ & H)];
    [left; split; [assumption | intros s; apply Hr] | |apply keeps_emit; exact I|exact Q9].
  right. exists mm, best, w10. unfold bind in H.
  destruct (persist sk save_dir mm best w10) as [[s| |] w11] eqn:E.
  - exists (Val s). injection H as <- <-. auto.
  - exists (Raise e). injection H as <- <-. auto.
  - exists OutOfFuel. injection H as <- <-. auto.
Qed.

(* --------------------------------------------------------------------- *)
(** ** Runs that stop in the persistence stage *)
(* --------------------------------------------------------------------- *)

#[global] Instance only_paths_preorder (P : string -> Prop) : PreOrder (only_paths P).
Proof.
  split.
  - intros w p _. reflexivity.
  - intros w1 w2 w3 H12 H23 p Hp. rewrite (H23 p Hp). apply H12, Hp.
Qed.





Lemma path_exists_val path w present w' :
  path_exists path w = (Val present, w') ->
  present = bool_decide (path <> "") && bool_decide (is_Some (fs w !! path)) /\ w' = w.
Proof. unfold path_exists. intros [= <- <-]. auto. Qed.

(** Lines 113-114, whatever follows. *)
Lemma ensure_directory save_dir w r w' :
  (if negb (bool_decide (save_dir <> "") && bool_decide (is_Some (fs w !! save_dir)))
   then makedirs save_dir else ret tt) w = (r, w') ->
  (r = Raise IOError /\ fs w' = fs w /\ stdin w' = stdin w /\
   log w' = log w ++ [EMakedirs save_dir]) \/
  (save_dir <> "" /\ r = Val tt /\ fs w' = with_directory save_dir (fs w) /\
   stdin w' = stdin w /\ rng w' = rng w /\
   log w' = log w ++ makedirs_events save_dir (fs w) /\
   fs w' !! save_dir <> None).
Proof.
  unfold with_directory, makedirs_events.
  destruct (decide (save_dir = "")) as [->|Hne].
  - rewrite (bool_decide_eq_false_2 ("" <> "")) by (intros H; apply H; reflexivity).
    cbn [andb negb]. unfold makedirs. rewrite makedirs_in_empty.
    intros [= <- <-]. left. auto.
  - rewrite (bool_decide_eq_true_2 (save_dir <> "")) by exact Hne.
    destruct (decide (is_Some (fs w !! save_dir))) as [Hex|Hex].
    + rewrite !(bool_decide_eq_true_2 _ Hex). cbn [andb negb]. unfold ret.
      intros [= <- <-]. right.
      rewrite app_nil_r. repeat split; try assumption.
      destruct Hex as [x ->]. discriminate.
    + rewrite !(bool_decide_eq_false_2 _ Hex). cbn [andb negb].
      destruct (makedirs_outcome save_dir w) as [(files & Hin & E)|(_ & E)];
        rewrite E; intros [= <- <-]; [right|left; auto].
      rewrite Hin. cbn. repeat split; try assumption.
      apply makedirs_in_made in Hin as [-> _]. discriminate.
Qed.

(** How the persistence stage can fail. *)
Lemma persist_raise save_dir mm best w e w' :
  persist sk save_dir mm best w = (Raise e, w') ->
  let files := with_directory save_dir (fs w) in
  let made := makedirs_events save_dir (fs w) in
  let model_file := path_join save_dir (model_file_name (rec_name best)) in
  let features_file := path_join save_dir (features_file_name (rec_name best)) in
  (e = IOError /\ fs w' = fs w /\ stdin w' = stdin w /\
   log w' = log w ++ [EMakedirs save_dir]) \/
  (save_dir <> "" /\ files !! save_dir <> None /\
   (((e = IndexError \/ e = FitError) /\ fs w' = files /\ stdin w' = stdin w /\
     log w' = log w ++ made) \/
    (e = EOFError /\ stdin w = [] /\ fs w' = files /\ stdin w' = [] /\
     log w' = log w ++ made ++ [EInput input_prompt]) \/
    (e = IOError /\ exists answer model y,
       stdin w = answer :: stdin w' /\
       iloc_target (rec_data best) = Some y /\
       lr_fit sk (iloc_features (rec_data best)) y = Some model /\
       ((confirmed answer = true /\ files !! model_file = Some Dir /\ fs w' = files /\
         log w' = log w ++ made ++ [EInput input_prompt; EDump model_file]) \/
        (files !! features_file = Some Dir /\
         fs w' = (if confirmed answer then <[model_file := JoblibFile model]> files
                  else files) /\
         log w' = log w ++ made ++ [EInput input_prompt]
                  ++ (if confirmed answer
                      then [EDump model_file; EPrint (MsgModelSaved model_file)] else [])
                  ++ [EToCsv features_file]))))).
Proof.
  unfold persist. destruct best as [[name metrics] data]. cbn [rec_name rec_data fst snd].
  intros H.
  apply bind_raise in H as [[=] | (present & w1 & Hp & H)].
  apply path_exists_val in Hp as [-> ->].
  apply bind_raise in H as [H | ([] & w2 & Hmk & H)].
  { apply ensure_directory in H as [([= ->] & ?) | (_ & [=] & _)].
    left. auto. }
  apply ensure_directory in Hmk as [([=] & _) | (Hne & _ & Hf2 & Hs2 & Hr2 & Hl2 & Hd2)].
  right. split; [exact Hne|]. split; [rewrite <- Hf2; exact Hd2|]. clear Hd2.
  apply bind_raise in H as [H | (y & w3 & Hy & H)].
  { apply or_raise_raise in H as (-> & _ & ->). left. auto. }
  apply or_raise_val in Hy as [Hy ->].
  apply bind_raise in H as [H | (fm & w4 & Hfm & H)].
  { apply or_raise_raise in H as (-> & _ & ->). left. auto. }
  apply or_raise_val in Hfm as [Hfm ->].
  apply bind_raise in H as [H | (answer & w5 & Hin & H)].
  { unfold input in H. destruct (stdin w2) as [|line rest] eqn:Hstdin; [|discriminate].
    injection H as <- <-. right. left. cbn. rewrite <- Hs2, Hl2, <- app_assoc. auto. }
  unfold input in Hin. destruct (stdin w2) as [|line rest] eqn:Hstdin; [discriminate|].
  injection Hin as -> <-.
  right. right.
  apply bind_raise in H as [H | ([] & w6 & Hdump & H)].
  { destruct (confirmed answer) eqn:Hc; [|discriminate].
    apply bind_raise in H as [H | ([] & w7 & _ & [=])].
    unfold dump, write_file in H. cbn [fs] in H.
    destruct (fs w2 !! _) as [[]|] eqn:Hfile; try discriminate.
    injection H as <- <-. cbn. split; [reflexivity|]. exists answer, fm, y.
    split; [congruence|]. split; [exact Hy|]. split; [exact Hfm|].
    left. rewrite <- Hf2, Hl2, <- !app_assoc. cbn. auto. }
  apply bind_raise in H as [H | ([] & w7 & Hcsv & H)].
  2:{ apply bind_raise in H as [[=] | ([] & w8 & _ & [=])]. }
  assert (Hw6 : exists model, model = fm /\
    w6 = (if confirmed answer
      then {| fs := <[path_join save_dir (model_file_name name) := JoblibFile model]> (fs w2);
              stdin := rest; rng := rng w2;
              log := (log w2 ++ [EInput input_prompt])
                     ++ [EDump (path_join save_dir (model_file_name name));
                         EPrint (MsgModelSaved (path_join save_dir (model_file_name name)))] |}
      else {| fs := fs w2; stdin := rest; rng := rng w2;
              log := log w2 ++ [EInput input_prompt] |})).
  { exists fm. split; [reflexivity|]. destruct (confirmed answer).
    - apply bind_val in Hdump as ([] & w9 & Hd & Hpr').
      apply write_file_val in Hd. apply emit_val in Hpr'. subst. cbn.
      rewrite <- app_assoc. reflexivity.
    - apply ret_val in Hdump as [_ ->]. reflexivity. }
  destruct Hw6 as (model & -> & ->).
  unfold to_csv_file, write_file in H.
  destruct (confirmed answer) eqn:Hc; cbn [fs stdin rng log] in H.
  - rewrite lookup_insert_ne in H by apply files_differ.
    destruct (fs w2 !! _) as [[]|] eqn:Hfile; try discriminate.
    injection H as <- <-. cbn. split; [reflexivity|]. exists answer, fm, y.
    split; [congruence|]. split; [exact Hy|]. split; [exact Hfm|]. right.
    rewrite <- Hf2. split; [exact Hfile|]. rewrite ?Hc.
    rewrite Hl2, <- !app_assoc. cbn. auto.
  - destruct (fs w2 !! _) as [[]|] eqn:Hfile; try discriminate.
    injection H as <- <-. cbn. split; [reflexivity|]. exists answer, fm, y.
    split; [congruence|]. split; [exact Hy|]. split; [exact Hfm|]. right.
    rewrite <- Hf2. split; [exact Hfile|]. rewrite ?Hc.
    rewrite Hl2, <- !app_assoc. cbn. auto.
Qed.

(** The exceptions of the stages before the persistence stage. *)
Lemma raises_only_read_csv_file path : raises_only loop_error (read_csv_file path).
Proof.
  intros w e w'. unfold read_csv_file.
  destruct (fs w !! path) as [[| t | |]|]; try (intros [= <- _]; exact I).
  intros H. apply or_raise_raise in H as (-> & _). exact I.
Qed.

Lemma raises_only_split X y : raises_only loop_error (split sk X y).
Proof.
  intros w e w'. unfold split.
  destruct (train_test_split sk X y lit_0_2 (Some random_state) (rng w)) as [[r|] g];
    intros [= <- _]. exact I.
Qed.

Lemma raises_only_train_model data : raises_only loop_error (train_model sk data).
Proof.
  unfold train_model.
  apply raises_only_bind; [apply raises_only_or_raise; exact I | intros y].
  apply raises_only_bind; [apply raises_only_split | intros [[[X_train X_test] y_train] y_test]].
  apply raises_only_bind; [apply raises_only_or_raise; exact I | intros model].
  apply raises_only_bind; [apply raises_only_or_raise; exact I | intros y_pred].
  apply raises_only_ret.
Qed.

Lemma raises_only_feature_selection data step remove_count :
  raises_only loop_error (feature_selection sk data step remove_count).
Proof.
  unfold feature_selection.
  apply raises_only_bind; [apply raises_only_or_raise; exact I | intros y].
  apply raises_only_bind; [apply raises_only_emit | intros _].
  apply raises_only_bind; [apply raises_only_or_raise; exact I | intros support_].
  apply raises_only_bind; [apply raises_only_or_raise; exact I | intros selected_features].
  apply raises_only_ret.
Qed.

Lemma raises_only_selection_loop fuel step remove_count min_features data mm it cf :
  raises_only loop_error
    (selection_loop sk fuel step remove_count min_features data mm it cf).
Proof.
  revert data mm it cf. induction fuel as [|fuel IH]; intros data mm it cf;
    cbn [selection_loop]; [intros w e w' [=]|].
  apply raises_only_bind; [apply raises_only_emit | intros _].
  destruct (cf <=? min_features)%Z.
  - apply raises_only_bind; [apply raises_only_emit | intros _]. apply raises_only_ret.
  - apply raises_only_bind; [apply raises_only_feature_selection | intros [data' sel]].
    apply raises_only_bind; [apply raises_only_emit | intros _].
    apply raises_only_bind; [apply raises_only_emit | intros _].
    apply raises_only_bind; [apply raises_only_train_model | intros [model metrics]].
    apply IH.
Qed.

(** The list handed to [max] holds the baseline. *)
Lemma selection_loop_nonempty fuel step remove_count min_features data r mm it cf w mm' w' :
  selection_loop sk fuel step remove_count min_features data (r :: mm) it cf w
    = (Val mm', w') ->
  mm' <> [].
Proof.
  intros H.
  apply (selection_loop_inv (fun _ => True) (fun _ => True)) in H as [_ (rest & ->)];
    [discriminate | auto | exact I | apply Forall_forall; auto].
Qed.

(** A run that raises does so before the persistence stage, having touched
    nothing, or in it. *)
Lemma optimize_model_raise fuel file_path step remove_count min_features save_dir w e w' :
  optimize_model sk fuel file_path step remove_count min_features save_dir w
    = (Raise e, w') ->
  (quiet (loop_event remove_count) w w' /\ loop_error e) \/
  exists mm best w3,
    quiet (loop_event remove_count) w w3 /\
    persist sk save_dir mm best w3 = (Raise e, w').
Proof.
  unfold optimize_model. intros H.
  assert (Q0 : quiet (loop_event remove_count) w w) by reflexivity.
  pose (Q := quiet (loop_event remove_count)).
  apply bind_raise in H as [[=] | (present & w1 & Hp & H)].
  apply path_exists_val in Hp as [-> ->].
  destruct (negb _).
  { apply bind_raise in H as [[=] | (? & ? & _ & [=])]. }
  apply (bind_raise_keeps Q _ _ w) in H as [[Hr ?] | (data & w2 & Q2 & _ & H)];
    [left; split; [assumption | exact (raises_only_read_csv_file _ _ _ _ Hr)]
    | |apply keeps_read_csv_file|exact Q0].
  apply (bind_raise_keeps Q _ _ w) in H as [[[=] ?] | ([] & w3 & Q3 & _ & H)];
    [|apply keeps_emit; exact I|exact Q2].
  apply (bind_raise_keeps Q _ _ w) in H as [[[=] ?] | ([] & w4 & Q4 & _ & H)];
    [|apply keeps_emit; exact I|exact Q3].
  apply (bind_raise_keeps Q _ _ w) in H
    as [[Hr ?] | ([model0 metrics0] & w5 & Q5 & _ & H)];
    [left; split; [assumption | exact (raises_only_train_model _ _ _ _ Hr)]
    | |apply keeps_train_model|exact Q4].
  apply (bind_raise_keeps Q _ _ w) in H as [[Hr ?] | (mm & w6 & Q6 & Hloop & H)];
    [left; split; [assumption | exact (raises_only_selection_loop _ _ _ _ _ _ _ _ _ _ _ Hr)]
    | |apply keeps_selection_loop|exact Q5].
  apply selection_loop_nonempty in Hloop.
  apply (bind_raise_keeps Q _ _ w) in H as [[Hr ?] | (best & w7 & Q7 & _ & H)];
    [apply or_raise_raise in Hr as (_ & Hr & _); destruct mm; [congruence | discriminate]
    | |apply keeps_or_raise; typeclasses eauto|exact Q6].
  apply (bind_raise_keeps Q _ _ w) in H as [[[=] ?] | ([] & w8 & Q8 & _ & H)];
    [|apply keeps_emit; exact I|exact Q7].
  apply (bind_raise_keeps Q _ _ w) in H as [[[=] ?] | ([] & w9 & Q9 & _ & H)];
    [|apply keeps_emit; exact I|exact Q8].
  apply (bind_raise_keeps Q _ _ w) in H as [[[=] ?] | ([] & w10 & Q10 & _ & H)];
    [|apply keeps_emit; exact I|exact Q9].
  apply bind_raise in H as [H | (? & ? & _ & [=])].
  right. exists mm, best, w10. auto.
Qed.

(* --------------------------------------------------------------------- *)
(** ** What a run leaves behind *)
(* --------------------------------------------------------------------- *)


(** X5: a run whose input is exhausted cannot complete; it raises
    [EOFError] only at the prompt of line 121, after the whole selection
    loop: by then [save_dir] is there, created with the directories that
    lead to it if it was missing, nothing else has changed and no file has
    been written. *)
Theorem missing_answer_stops_at_prompt
    fuel file_path step remove_count min_features save_dir w r w' :
  optimize_model sk fuel file_path step remove_count min_features save_dir w = (r, w') ->
  (stdin w = [] -> forall s, r <> Val (Some s)) /\
  (r = Raise EOFError ->
     stdin w = [] /\ save_dir <> "" /\
     fs w' !! save_dir <> None /\
     directories_made save_dir (fs w) (fs w') /\
     exists evs,
       log w' = log w ++ evs /\ last evs = Some (EInput input_prompt) /\ writes evs = []).
Proof.
  intros Hrun. split.
  - intros Hin s ->. apply optimize_model_val, completed_effects in Hrun.
    destruct Hrun as (_ & _ & Hstdin & _). congruence.
  - intros ->. apply optimize_model_raise in Hrun
      as [[_ []] | (mm & best & w3 & (Hfs & Hin & evs & Hlog & Hevs) & Hpersist)].
    apply persist_raise in Hpersist
      as [([=] & _)
         | (Hne & Hdir & [([[=] | [=]] & _) | [(_ & Hnil & Hfs' & _ & Hlog') | ([=] & _)]])].
    rewrite Hfs in Hfs', Hdir. rewrite Hin in Hnil.
    split; [exact Hnil|]. split; [exact Hne|].
    split; [rewrite Hfs'; exact Hdir|].
    split; [rewrite Hfs'; apply with_directory_made|].
    exists (evs ++ makedirs_events save_dir (fs w3) ++ [EInput input_prompt]).
    split; [rewrite Hlog', Hlog, <- !app_assoc; reflexivity|].
    split; [rewrite !app_assoc; apply last_snoc|].
    rewrite !writes_app, (loop_events_no_writes _ _ Hevs).
    unfold makedirs_events. destruct (bool_decide _); reflexivity.
Qed.

(** X6: with an empty [save_dir] no run completes, and none changes a file
    or consumes an answer: after the selection loop [os.makedirs('')] fails
    before the prompt. *)
Theorem empty_save_dir_saves_nothing
    fuel file_path step remove_count min_features w r w' :
  optimize_model sk fuel file_path step remove_count min_features "" w = (r, w') ->
  (forall s, r <> Val (Some s)) /\ fs w' = fs w /\ stdin w' = stdin w.
Proof.
  intros Hrun.
  apply optimize_model_stages in Hrun
    as [[(Hfs & Hin & _) Hr] | (mm & best & w3 & r' & (Hfs & Hin & _) & Hpersist & ->)];
    [auto|].
  assert (H : r' = Raise IOError /\ fs w' = fs w3 /\ stdin w' = stdin w3).
  { unfold persist in Hpersist. destruct best as [[name metrics] data].
    unfold bind, path_exists, makedirs in Hpersist. cbn in Hpersist.
    injection Hpersist as <- <-. auto. }
  destruct H as (-> & Hfs' & Hin'). split; [discriminate|]. split; congruence.
Qed.

(** X7: a run that raises has written no file (at most it has created
    directories on the way to [save_dir]), with one exception: when the
    answer confirms and the run fails at the write of the feature-subset
    CSV, the refit model has been dumped and stays in place. *)
Theorem failed_run_writes_at_most_the_model
    fuel file_path step remove_count min_features save_dir w e w' :
  optimize_model sk fuel file_path step remove_count min_features save_dir w
    = (Raise e, w') ->
  directories_made save_dir (fs w) (fs w') \/
  exists best model y answer files evs,
    e = IOError /\ head (stdin w) = Some answer /\ confirmed answer = true /\
    iloc_target (rec_data best) = Some y /\
    lr_fit sk (iloc_features (rec_data best)) y = Some model /\
    directories_made save_dir (fs w) files /\
    fs w' = <[path_join save_dir (model_file_name (rec_name best)) := JoblibFile model]> files /\
    log w' = log w ++ evs /\
    last evs = Some (EToCsv (path_join save_dir (features_file_name (rec_name best)))).
Proof.
  intros Hrun.
  apply optimize_model_raise in Hrun
    as [[(Hfs & _) _] | (mm & best & w3 & (Hfs & Hin & evs0 & Hlog & _) & Hpersist)];
    [left; rewrite Hfs; apply directories_made_refl|].
  apply persist_raise in Hpersist. cbn zeta in Hpersist. rewrite Hfs, Hin in Hpersist.
  assert (Hsame : fs w' = fs w -> directories_made save_dir (fs w) (fs w'))
    by (intros ->; apply directories_made_refl).
  assert (Hmade : fs w' = with_directory save_dir (fs w) ->
                  directories_made save_dir (fs w) (fs w'))
    by (intros ->; apply with_directory_made).
  destruct Hpersist
    as [(_ & ? & _) | (_ & _ & [(_ & ? & _) | [(_ & _ & ? & _) | (-> & H)]])]; auto.
  destruct H as (answer & model & y & Hstdin & Hy & Hfit
                 & [(_ & _ & ? & _) | (Hdir & Hfs' & Hlog')]);
    [auto|].
  destruct (confirmed answer) eqn:Hc; [|auto].
  right. exists best, model, y, answer, (with_directory save_dir (fs w)).
  eexists. rewrite Hstdin. repeat split; try eassumption; try reflexivity.
  - apply with_directory_made.
  - rewrite Hlog', Hlog, <- !app_assoc. reflexivity.
  - rewrite !app_assoc. apply last_snoc.
Qed.

(* --------------------------------------------------------------------- *)
(** ** The two writes of an answered run *)
(* --------------------------------------------------------------------- *)

(** No event of a short explicit list is the one in [H]. *)
Ltac not_listed H :=
  cbn in H;
  repeat (apply elem_of_cons in H as [H|H]; [discriminate|]);
  apply elem_of_nil in H; exact H.

Lemma loop_events_no_input remove_count (evs : list Event) :
  Forall (loop_event remove_count) evs -> EInput input_prompt ∉ evs.
Proof.
  intros H Hin. rewrite Forall_forall in H. apply H in Hin. exact Hin.
Qed.

(** C7, as amended: in every run that is answered at the prompt of line 121
    the model artifact is dumped exactly when the answer, stripped and
    lower-cased, is [yes] or [y], and the feature-subset CSV is written
    after it unless the dump fails: a failed dump ends the run before the
    CSV is attempted.  When the answer is not a yes nothing is dumped, the
    model path is as it was and the CSV is the only write.  A run that
    completes has the CSV of the winning data in place whatever the answer,
    and the refit model in place exactly when the answer confirmed. *)
Theorem features_always_model_if_confirmed
    fuel file_path step remove_count min_features save_dir w r w' answer evs :
  optimize_model sk fuel file_path step remove_count min_features save_dir w = (r, w') ->
  head (stdin w) = Some answer ->
  log w' = log w ++ evs ->
  EInput input_prompt ∈ evs ->
  exists best model y,
    iloc_target (rec_data best) = Some y /\
    lr_fit sk (iloc_features (rec_data best)) y = Some model /\
    let model_file := path_join save_dir (model_file_name (rec_name best)) in
    let features_file := path_join save_dir (features_file_name (rec_name best)) in
    let dumped := if confirmed answer then [EDump model_file] else [] in
    let model_node :=
      if confirmed answer then Some (JoblibFile model) else fs w !! model_file in
    (confirmed answer = false -> forall path, EDump path ∉ evs) /\
    (((exists s, r = Val (Some s) /\ best_model s = best /\ final_model s = model /\
                 save_model s = answer) /\
      writes evs = dumped ++ [EToCsv features_file] /\
      fs w' !! model_file = model_node /\
      fs w' !! features_file = Some (CsvFile (to_csv (rec_data best) false))) \/
     (r = Raise IOError /\
      writes evs = dumped ++ [EToCsv features_file] /\
      fs w' !! model_file = model_node /\
      fs w' !! features_file = fs w !! features_file) \/
     (confirmed answer = true /\ r = Raise IOError /\
      writes evs = [EDump model_file] /\
      fs w' !! model_file = fs w !! model_file /\
      fs w' !! features_file = fs w !! features_file)).
Proof.
  intros Hrun Hanswer Hlog Hasked.
  apply optimize_model_stages in Hrun
    as [[(_ & _ & evs0 & Hlog0 & Hevs0) _]
       | (mm & best & w3 & r' & (Hfs & Hin & evs0 & Hlog0 & Hevs0) & Hpersist & ->)].
  { rewrite Hlog0 in Hlog. apply app_inv_head in Hlog. subst evs0.
    exfalso. exact (loop_events_no_input _ _ Hevs0 Hasked). }
  assert (Hno : writes evs0 = []) by exact (loop_events_no_writes _ _ Hevs0).
  assert (Hdump_in : forall (tail : list Event),
            evs = evs0 ++ tail -> (forall path, EDump path ∉ tail) ->
            forall path, EDump path ∉ evs).
  { intros tail -> Htail path Hd. apply elem_of_app in Hd as [Hd|Hd]; [|exact (Htail _ Hd)].
    rewrite Forall_forall in Hevs0. apply Hevs0 in Hd. exact Hd. }
  destruct r' as [s|e|].
  - (* the run has completed *)
    apply persist_val in Hpersist as [_ Hbest Hmf Hff (y & Hy & Hfit) Hstdin _ _ Hplog Hpfs _].
    rewrite Hin in Hstdin. rewrite Hstdin in Hanswer. injection Hanswer as <-.
    rewrite Hfs in Hplog, Hpfs. cbn zeta in Hpfs.
    rewrite Hplog, Hlog0, <- app_assoc in Hlog. apply app_inv_head in Hlog.
    exists best, (final_model s), y. split; [exact Hy|]. split; [exact Hfit|].
    cbn zeta. rewrite <- Hmf, <- Hff.
    assert (Hdiff : best_model_file s <> best_features_file s)
      by (rewrite Hmf, Hff; apply files_differ).
    split.
    { intros Hc. apply (Hdump_in _ (eq_sym Hlog)). intros path Hd.
      unfold persist_events in Hd. rewrite Hc in Hd.
      destruct (bool_decide _); not_listed Hd. }
    left. split; [exists s; auto|]. split; [|split].
    + rewrite <- Hlog, writes_app, Hno, writes_persist_events. reflexivity.
    + rewrite Hpfs, lookup_insert_ne by (apply not_eq_sym; exact Hdiff).
      destruct (confirmed (save_model s)); [apply lookup_insert_eq|].
      rewrite Hmf. apply with_directory_model_file.
    + rewrite Hpfs. apply lookup_insert_eq.
  - (* the run has failed in the persistence stage *)
    apply persist_raise in Hpersist. cbn zeta in Hpersist.
    rewrite Hfs, Hin in Hpersist.
    destruct Hpersist
      as [(_ & _ & _ & Hl)
         | (_ & _ & [(_ & _ & _ & Hl) | [(_ & Hnil & _) | (-> & H)]])].
    + exfalso. rewrite Hl, Hlog0, <- app_assoc in Hlog. apply app_inv_head in Hlog.
      subst evs. apply elem_of_app in Hasked as [Hi|Hi];
        [exact (loop_events_no_input _ _ Hevs0 Hi) | not_listed Hi].
    + exfalso. rewrite Hl, Hlog0, <- app_assoc in Hlog. apply app_inv_head in Hlog.
      subst evs. apply elem_of_app in Hasked as [Hi|Hi];
        [exact (loop_events_no_input _ _ Hevs0 Hi)|].
      unfold makedirs_events in Hi. destruct (bool_decide _); not_listed Hi.
    + rewrite Hnil in Hanswer. discriminate.
    + destruct H as (answer' & model & y & Hstdin & Hy & Hfit & H).
      rewrite Hstdin in Hanswer. injection Hanswer as ->.
      exists best, model, y. split; [exact Hy|]. split; [exact Hfit|]. cbn zeta.
      set (model_file := path_join save_dir (model_file_name (rec_name best))) in *.
      set (features_file := path_join save_dir (features_file_name (rec_name best))) in *.
      assert (Hdiff : model_file <> features_file) by apply files_differ.
      assert (Hmade : writes (makedirs_events save_dir (fs w)) = []).
      { unfold makedirs_events. destruct (bool_decide _); reflexivity. }
      destruct H as [(Hc & _ & Hfs' & Hl) | (_ & Hfs' & Hl)];
        rewrite Hl, Hlog0, <- app_assoc in Hlog; apply app_inv_head in Hlog.
      * split; [rewrite Hc; discriminate|]. right. right.
        split; [exact Hc|]. split; [reflexivity|]. split; [|split].
        -- rewrite <- Hlog, !writes_app, Hno, Hmade. reflexivity.
        -- rewrite Hfs'. apply with_directory_model_file.
        -- rewrite Hfs'. apply with_directory_features_file.
      * split.
        { intros Hc. apply (Hdump_in _ (eq_sym Hlog)). intros path Hd. rewrite Hc in Hd.
          unfold makedirs_events in Hd. destruct (bool_decide _); not_listed Hd. }
        right. left. split; [reflexivity|]. split; [|split].
        -- rewrite <- Hlog, !writes_app, Hno, Hmade.
           destruct (confirmed answer); reflexivity.
        -- rewrite Hfs'. destruct (confirmed answer); [apply lookup_insert_eq|].
           apply with_directory_model_file.
        -- rewrite Hfs'. destruct (confirmed answer).
           ++ rewrite lookup_insert_ne by exact Hdiff. apply with_directory_features_file.
           ++ apply with_directory_features_file.
  - (* the persistence stage is not cut short *)
    exfalso. pose proof (ends_within_persist save_dir mm best w3) as [Hend _].
    rewrite Hpersist in Hend. contradiction.
Qed.

(* --------------------------------------------------------------------- *)
(** ** The trace of a completed run *)
(* --------------------------------------------------------------------- *)

Lemma quiet_silent w w' : quiet (fun _ => False) w w' -> log w' = log w.
Proof.
  intros (_ & _ & evs & -> & Hall). destruct evs as [|e evs]; [apply app_nil_r|].
  inversion Hall; contradiction.
Qed.

Lemma train_model_log data w r w' : train_model sk data w = (r, w') -> log w' = log w.
Proof.
  intros H. apply quiet_silent.
  pose proof (keeps_train_model (fun _ => False) data w) as Hq. rewrite H in Hq. exact Hq.
Qed.

Lemma print_val m w u w' :
  print m w = (Val u, w') ->
  w' = {| fs := fs w; stdin := stdin w; rng := rng w; log := log w ++ [EPrint m] |}.
Proof. apply emit_val. Qed.

Lemma feature_selection_log data step remove_count w data' sel w' :
  feature_selection sk data step remove_count w = (Val (data', sel), w') ->
  exists X y n, log w' = log w ++ [ERfe X y step n].
Proof.
  unfold feature_selection. intros H.
  apply bind_val in H as (y & w1 & Hy & H). apply or_raise_val in Hy as [Hy ->].
  apply bind_val in H as ([] & w2 & He & H). apply emit_val in He.
  apply bind_val in H as (mask & w3 & Hm & H). apply or_raise_val in Hm as [Hm ->].
  apply bind_val in H as (sel' & w4 & Hs & H). apply or_raise_val in Hs as [Hs ->].
  apply ret_val in H as [_ ->]. subst w2. cbn. eauto.
Qed.

(** One pass of the loop, taken apart. *)
Lemma selection_loop_pass fuel step remove_count min_features data mm it cf w mm' w' :
  selection_loop sk (S fuel) step remove_count min_features data mm it cf w = (Val mm', w') ->
  (cf <= min_features /\ mm' = mm /\
   log w' = log w ++ [EPrint (MsgSelectionIteration it);
                      EPrint (MsgReachedMinimum min_features)]) \/
  (min_features < cf /\
   exists data' sel model metrics X y n wa wb w1 w2,
     feature_selection sk data step remove_count wa = (Val (data', sel), wb) /\
     train_model sk data' w1 = (Val (model, metrics), w2) /\
     selection_loop sk fuel step remove_count min_features data'
       (mm ++ [(iteration_name it, metrics, data')]) (S it) (Z.of_nat (length sel)) w2
       = (Val mm', w') /\
     log w2 = log w ++ [EPrint (MsgSelectionIteration it); ERfe X y step n;
                        EPrint (MsgSelected (Z.of_nat (length sel)) sel);
                        EPrint (MsgTrainingIteration it)]).
Proof.
  cbn [selection_loop]. intros H.
  apply bind_val in H as ([] & w1 & Hp & H). apply print_val in Hp.
  destruct (Z.leb_spec cf min_features) as [Hle|Hgt].
  - left. apply bind_val in H as ([] & w2 & Hp2 & H). apply print_val in Hp2.
    apply ret_val in H as [<- ->]. subst. cbn. rewrite <- app_assoc. auto.
  - right. split; [exact Hgt|].
    apply bind_val in H as ([data' sel] & w2 & Hfs & H).
    apply bind_val in H as ([] & w3 & Hp3 & H). apply print_val in Hp3.
    apply bind_val in H as ([] & w4 & Hp4 & H). apply print_val in Hp4.
    apply bind_val in H as ([model metrics] & w5 & Htm & H).
    destruct (feature_selection_log _ _ _ _ _ _ _ Hfs) as (X & y & n & Hlog).
    exists data', sel, model, metrics, X, y, n, w1, w2, w4, w5.
    split; [exact Hfs|]. split; [exact Htm|]. split; [exact H|].
    rewrite (train_model_log _ _ _ _ Htm). subst w4 w3. cbn. rewrite Hlog. subst w1. cbn.
    rewrite <- !app_assoc. reflexivity.
Qed.

Lemma rfe_calls_cons e evs :
  rfe_calls (e :: evs) = ((if is_rfe e then 1 else 0) + rfe_calls evs)%nat.
Proof. unfold rfe_calls. cbn. destruct (is_rfe e); reflexivity. Qed.

Lemma rfe_calls_around (pre post l : list Event) :
  rfe_calls pre = 0%nat -> rfe_calls post = 0%nat ->
  rfe_calls (pre ++ l ++ post) = rfe_calls l.
Proof. intros H1 H2. rewrite !rfe_calls_app, H1, H2. lia. Qed.

(** Every pass makes one request to the ranking and appends one entry,
    labelled with its number. *)
Lemma selection_loop_trace fuel step remove_count min_features :
  forall data mm it cf w mm' w',
    selection_loop sk fuel step remove_count min_features data mm it cf w = (Val mm', w') ->
    exists evs rest,
      mm' = mm ++ rest /\ log w' = log w ++ evs /\
      rfe_calls evs = length rest /\
      rec_name <$> rest = iteration_name <$> seq it (length rest).
Proof.
  induction fuel as [|fuel IH]; intros data mm it cf w mm' w' H; [discriminate|].
  apply selection_loop_pass in H
    as [(_ & -> & Hlog) |
        (_ & data' & sel & model & metrics & X & y & n & wa & wb & w1 & w2 & _ & _ & H & Hlog)].
  - eexists _, []. rewrite app_nil_r. split; [reflexivity|]. split; [exact Hlog|]. auto.
  - apply IH in H as (evs & rest & -> & Hlog' & Hcalls & Hnames).
    eexists _, ((iteration_name it, metrics, data') :: rest).
    split; [rewrite <- app_assoc; reflexivity|].
    split; [rewrite Hlog', Hlog, <- app_assoc; reflexivity|].
    split.
    + rewrite rfe_calls_app. cbn. rewrite Hcalls. reflexivity.
    + cbn. rewrite Hnames. reflexivity.
Qed.

(** A completed run around its selection loop. *)
Lemma completed_trace fuel file_path step remove_count min_features save_dir w s w' :
  optimize_model sk fuel file_path step remove_count min_features save_dir w
    = (Val (Some s), w') ->
  exists t data metrics0 w1 w2 existed,
    fs w !! file_path = Some (CsvFile t) /\ read_csv t = Some data /\
    selection_loop sk fuel step remove_count min_features data
      [(initial_model_name, metrics0, data)] 1%nat (shape1 data - 1) w1
      = (Val (models_metrics s), w2) /\
    log w1 = log w ++ [EPrint (MsgInitialCount (shape1 data - 1)); EPrint MsgTrainingInitial] /\
    log w' = log w2
             ++ [EPrint MsgBestFound; EPrint (MsgBestName (rec_name (best_model s)));
                 EPrint (MsgBestMetrics (rec_metrics (best_model s)))]
             ++ persist_events existed save_dir s.
Proof.
  unfold optimize_model. intros H.
  apply bind_val in H as (present & w1 & Hp & H).
  apply path_exists_val in Hp as [-> ->].
  destruct (negb _); [apply bind_val in H as (? & ? & _ & H); apply ret_val in H as [[=] _]|].
  apply bind_val in H as (data & w2 & Hread & H).
  apply bind_val in H as ([] & w3 & Hp3 & H). apply print_val in Hp3.
  apply bind_val in H as ([] & w4 & Hp4 & H). apply print_val in Hp4.
  apply bind_val in H as ([model0 metrics0] & w5 & Htm & H).
  apply bind_val in H as (mm & w6 & Hloop & H).
  apply bind_val in H as (best & w7 & Hmax & H). apply or_raise_val in Hmax as [Hmax ->].
  apply bind_val in H as ([] & w8 & Hp8 & H). apply print_val in Hp8.
  apply bind_val in H as ([] & w9 & Hp9 & H). apply print_val in Hp9.
  apply bind_val in H as ([] & w10 & Hp10 & H). apply print_val in Hp10.
  apply bind_val in H as (s' & w11 & Hpersist & H).
  apply ret_val in H as [[= ->] ->].
  apply persist_val in Hpersist.
  destruct Hpersist as [Emm Ebest _ _ _ _ _ _ Hlog _]. subst mm best.
  unfold read_csv_file in Hread.
  destruct (fs w !! file_path) as [[| t | |]|] eqn:Hfile; try discriminate.
  apply or_raise_val in Hread as [Hread ->].
  exists t, data, metrics0, w5, w6, (bool_decide (is_Some (fs w10 !! save_dir))).
  split; [reflexivity|]. split; [exact Hread|]. split; [exact Hloop|].
  split.
  - rewrite (train_model_log _ _ _ _ Htm). subst w4 w3. cbn. rewrite <- app_assoc. reflexivity.
  - rewrite Hlog. subst w10 w9 w8. cbn. rewrite <- !app_assoc. reflexivity.
Qed.

Lemma completed_labels fuel file_path step remove_count min_features save_dir w s w' :
  optimize_model sk fuel file_path step remove_count min_features save_dir w
    = (Val (Some s), w') ->
  exists evs,
    log w' = log w ++ evs /\
    rec_name <$> models_metrics s
      = initial_model_name :: (iteration_name <$> seq 1 (rfe_calls evs)) /\
    length (models_metrics s) = S (rfe_calls evs).
Proof.
  intros Hrun. apply completed_trace in Hrun
    as (t & data & metrics0 & w1 & w2 & existed & _ & _ & Hloop & Hpre & Hpost).
  apply selection_loop_trace in Hloop as (evs & rest & Hmm & Hlog & Hcalls & Hnames).
  eexists. split; [rewrite Hpost, Hlog, Hpre, <- !app_assoc; reflexivity|].
  rewrite (rfe_calls_around [_; _] (_ ++ _) evs); [|reflexivity|].
  2:{ rewrite rfe_calls_app. unfold persist_events.
      destruct existed, (confirmed (save_model s)); reflexivity. }
  rewrite Hcalls, Hmm. cbn. rewrite Hnames.
  split; reflexivity.
Qed.

(** X8: a completed run has made one ranking request per recorded
    iteration, and its candidates are, in order, [initial_model] and
    [model_iteration_1], [model_iteration_2], ... without a gap, so that no
    two candidates share a label. *)
Theorem candidates_are_labelled_in_order
    fuel file_path step remove_count min_features save_dir w s w' :
  optimize_model sk fuel file_path step remove_count min_features save_dir w
    = (Val (Some s), w') ->
  exists evs,
    log w' = log w ++ evs /\
    rec_name <$> models_metrics s
      = initial_model_name :: (iteration_name <$> seq 1 (rfe_calls evs)) /\
    length (models_metrics s) = S (rfe_calls evs) /\
    NoDup (rec_name <$> models_metrics s).
Proof.
  intros Hrun. apply completed_labels in Hrun as (evs & Hlog & Hnames & Hlen).
  exists evs. split; [exact Hlog|]. split; [exact Hnames|]. split; [exact Hlen|].
  rewrite Hnames. apply NoDup_cons. split.
  - intros Hin. apply list_elem_of_fmap in Hin as (i & Hi & _).
    symmetry in Hi. revert Hi. apply iteration_name_not_initial.
  - apply NoDup_fmap_2; [|apply NoDup_seq].
    intros i j Hij. unfold iteration_name in Hij.
    apply append_inj_r in Hij. apply (inj pretty) in Hij. exact Hij.
Qed.

(* --------------------------------------------------------------------- *)
(** ** A selected feature named [target] *)
(* --------------------------------------------------------------------- *)

(** X9: when one of the selected features is itself named [target], line
    68 overwrites it instead of adding a column: the frame returned has
    exactly the selected columns, the column [target] holds the target
    values, the other columns are features of the input, and unless
    [target] was the last selected name the last column, which the next
    pass and [train_model] take as the target, is a feature. *)
Theorem selected_feature_named_target_is_overwritten
    data step remove_count w data' sel w' :
  feature_selection sk data step remove_count w = (Val (data', sel), w') ->
  NoDup (columns data) ->
  "target" ∈ sel ->
  exists y,
    iloc_target data = Some y /\
    columns data' = sel /\
    ("target", y) ∈ data' /\
    (forall c, c ∈ data' -> fst c <> "target" -> c ∈ iloc_features data) /\
    (last sel <> Some "target" ->
       exists c, c ∈ iloc_features data /\ iloc_target data' = Some (snd c)).
Proof.
  intros H Hnd Hin.
  apply feature_selection_val in H as (y & mask & Hy & _ & Hlen & -> & ->).
  set (X := iloc_features data) in *.
  assert (HndX : NoDup (columns X)).
  { eapply sublist_NoDup; [exact Hnd|]. subst X. unfold columns, iloc_features.
    rewrite fmap_take. apply sublist_take. }
  rewrite loc_columns_mask by exact HndX.
  set (S := mask_filter mask X) in *.
  assert (Hcols : columns S = mask_filter mask (columns X))
    by (unfold columns; apply mask_filter_fmap).
  assert (Hsub : sublist S X) by apply mask_filter_sublist.
  rewrite <- Hcols in *.
  exists y. split; [exact Hy|].
  split; [rewrite setitem_columns, decide_True by exact Hin; reflexivity|].
  unfold setitem. rewrite decide_True by exact Hin.
  set (g := fun c : Column => if decide (fst c = "target") then ("target", y) else c).
  assert (Hg : forall c, fst c <> "target" -> g c = c).
  { intros c Hc. unfold g. rewrite decide_False by exact Hc. reflexivity. }
  split; [|split].
  - apply list_elem_of_fmap in Hin as (c & Hc & HcS).
    apply list_elem_of_fmap. exists c. split; [|exact HcS].
    unfold g. rewrite decide_True by (symmetry; exact Hc). reflexivity.
  - intros c Hc Hname. apply list_elem_of_fmap in Hc as (c0 & -> & Hc0).
    destruct (decide (fst c0 = "target")) as [E|E].
    + exfalso. apply Hname. unfold g. rewrite decide_True by exact E. reflexivity.
    + rewrite Hg by exact E. eapply elem_of_sublist; eauto.
  - intros Hlast. unfold columns in Hlast. rewrite fmap_last in Hlast.
    unfold iloc_target. rewrite fmap_last.
    destruct (last S) as [c0|] eqn:HlastS.
    + exists c0. split; [eapply elem_of_sublist; [|exact Hsub]; eapply last_Some_elem_of; eauto|].
      cbn. rewrite Hg; [reflexivity|]. intros E. apply Hlast. cbn. rewrite E. reflexivity.
    + apply last_None in HlastS. rewrite HlastS in Hin. inversion Hin.
Qed.

(* --------------------------------------------------------------------- *)
(** ** The passes of the loop on a well-named dataset *)
(* --------------------------------------------------------------------- *)

(** The frame of a file with distinct column names, none of whose features
    is named [target]. *)
Lemma read_csv_working_data (t : Table) (data0 : DataFrame) :
  read_csv t = Some data0 ->
  NoDup (header t) ->
  "target" ∉ take (length (header t) - 1) (header t) ->
  NoDup (columns data0) /\ ("target" ∉ columns (iloc_features data0)) /\
  shape1 data0 = Z.of_nat (length (header t)) /\
  exists y0, iloc_target data0 = Some y0.
Proof.
  intros Hread Hnd Hnt.
  destruct (read_csv_rows _ _ Hread) as [_ Hne].
  split; [exact (read_csv_distinct _ _ Hread)|]. split; [|split].
  - exact (read_csv_no_target _ _ Hread Hnt).
  - unfold shape1. rewrite (read_csv_width _ _ Hread). reflexivity.
  - unfold iloc_target. destruct (last data0) as [c|] eqn:Hlast; [eauto|].
    apply last_None in Hlast. contradiction.
Qed.

Lemma shrinking_lookup (r0 : Recorded) (rest : list Recorded) :
  shrinking (rec_data r0) rest ->
  forall i r1 r2,
    (r0 :: rest) !! i = Some r1 -> (r0 :: rest) !! (S i) = Some r2 ->
    shrinks_to (rec_data r1) (rec_data r2).
Proof.
  revert r0. induction rest as [|r rest IH]; intros r0 Hs i r1 r2 H1 H2.
  - destruct i; discriminate.
  - destruct Hs as [Hstep Hs]. destruct i as [|i].
    + cbn in H1, H2. injection H1 as <-. injection H2 as <-. exact Hstep.
    + cbn in H1, H2. exact (IH r Hs i r1 r2 H1 H2).
Qed.

Section Shrinking.
Variable data0 : DataFrame.
Variable y0 : Series.
Hypothesis target0 : iloc_target data0 = Some y0.
Hypothesis distinct0 : NoDup (columns data0).
Hypothesis no_target0 : "target" ∉ columns (iloc_features data0).

Local Abbreviation shaped := (shaped_frame data0 y0).

(** A pass on a frame of selected features and the target. *)
Lemma feature_selection_pass data step remove_count w data' sel w' :
  shaped data ->
  feature_selection sk data step remove_count w = (Val (data', sel), w') ->
  exists mask,
    rfe_support sk (iloc_features data) y0 step
      (Z.max 1 (shape1 (iloc_features data) - remove_count)) = Some mask /\
    length mask = length (iloc_features data) /\
    data' = mask_filter mask (iloc_features data) ++ [("target", y0)] /\
    length sel = count_true mask /\
    length (iloc_features data') = length sel /\
    shaped data' /\ shrinks_to data data'.
Proof.
  intros (S & tname & -> & Hsub) H.
  apply feature_selection_val in H as (y & mask & Hy & Hrfe & Hlen & -> & ->).
  rewrite iloc_features_snoc in *. rewrite iloc_target_snoc in *. injection Hy as <-.
  rewrite n_features_to_select_max in Hrfe.
  destruct (distinct_features data0 distinct0 no_target0 S Hsub) as [Hnd Hnt].
  rewrite loc_columns_mask by exact Hnd.
  assert (Hsub' : sublist (mask_filter mask S) (iloc_features data0)).
  { etransitivity; [apply mask_filter_sublist | exact Hsub]. }
  rewrite setitem_fresh by (apply (distinct_features data0 distinct0 no_target0 _ Hsub')).
  assert (Hsel : length (mask_filter mask (columns S)) = count_true mask).
  { apply mask_filter_length. unfold columns. rewrite length_fmap. exact Hlen. }
  exists mask. unfold shrinks_to. rewrite ?iloc_features_snoc, ?iloc_target_snoc.
  split; [exact Hrfe|]. split; [exact Hlen|]. split; [reflexivity|].
  split; [exact Hsel|]. split; [rewrite Hsel; apply mask_filter_length; exact Hlen|].
  split; [exists (mask_filter mask S), "target"; auto|].
  split; [apply mask_filter_sublist | reflexivity].
Qed.

Lemma selection_loop_shrinking fuel step remove_count min_features :
  forall data mm it cf w mm' w',
    shaped data ->
    selection_loop sk fuel step remove_count min_features data mm it cf w = (Val mm', w') ->
    exists rest, mm' = mm ++ rest /\ shrinking data rest.
Proof.
  induction fuel as [|fuel IH]; intros data mm it cf w mm' w' Hs H; [discriminate|].
  apply selection_loop_pass in H
    as [(_ & -> & _) |
        (_ & data' & sel & model & metrics & X & y & n & wa & wb & w1 & w2 & Hfs & _ & H & _)].
  - exists []. rewrite app_nil_r. split; [reflexivity | exact I].
  - apply (feature_selection_pass _ _ _ _ _ _ _ Hs) in Hfs
      as (mask & _ & _ & _ & _ & _ & Hs' & Hstep).
    apply (IH _ _ _ _ _ _ _ Hs') in H as (rest & -> & Hrest).
    exists ((iteration_name it, metrics, data') :: rest).
    split; [rewrite <- app_assoc; reflexivity|]. split; assumption.
Qed.

Section RankingCount.

(** The ranking keeps as many features as it is asked for, and all of them
    when it is asked for more than there are. *)
Hypothesis rfe_keeps :
  forall X y step n mask,
    rfe_support sk X y step n = Some mask ->
    Z.of_nat (count_true mask) = Z.min n (shape1 X).

Lemma feature_selection_keeps data step remove_count w data' sel w' :
  shaped data ->
  feature_selection sk data step remove_count w = (Val (data', sel), w') ->
  shaped data' /\
  shape1 (iloc_features data') = Z.of_nat (length sel) /\
  Z.of_nat (length sel)
  = Z.min (Z.max 1 (shape1 (iloc_features data) - remove_count))
          (shape1 (iloc_features data)).
Proof.
  intros Hs Hfs.
  apply (feature_selection_pass _ _ _ _ _ _ _ Hs) in Hfs
    as (mask & Hrfe & _ & _ & Hsel & Hlen & Hs' & _).
  split; [exact Hs'|]. split; [unfold shape1; rewrite Hlen; reflexivity|].
  rewrite Hsel. apply (rfe_keeps _ _ _ _ _ Hrfe).
Qed.

Lemma count_after_step (cf remove_count : Z) (i : nat) :
  0 <= remove_count ->
  count_after (Z.max 1 (cf - remove_count)) remove_count i
  = count_after cf remove_count (S i).
Proof. unfold count_after. nia. Qed.

(** With a positive [remove_count] and a positive [min_features], a loop
    that returns has made exactly [ceil((cf - min_features) / remove_count)]
    passes, leaving [max(1, cf - i * remove_count)] features after pass
    [i]. *)
Lemma selection_loop_counts fuel step remove_count min_features :
  1 <= remove_count -> 1 <= min_features ->
  forall data mm it cf w mm' w',
    shaped data -> cf = shape1 (iloc_features data) ->
    selection_loop sk fuel step remove_count min_features data mm it cf w = (Val mm', w') ->
    exists evs,
      log w' = log w ++ evs /\
      rfe_calls evs = Z.to_nat (ceil_div (cf - min_features) remove_count) /\
      selected_counts evs = count_after cf remove_count <$> seq 1 (rfe_calls evs).
Proof.
  intros Hr Hm.
  induction fuel as [|fuel IH]; intros data mm it cf w mm' w' Hs Hcf H; [discriminate|].
  apply selection_loop_pass in H
    as [(Hle & _ & Hlog) |
        (Hgt & data' & sel & model & metrics & X & y & n & wa & wb & w1 & w2
           & Hfs & _ & H & Hlog)].
  - eexists. split; [exact Hlog|].
    pose proof (ceil_div_nonpos (cf - min_features) remove_count ltac:(lia) Hr).
    replace (Z.to_nat _) with 0%nat by lia. split; reflexivity.
  - apply (feature_selection_keeps _ _ _ _ _ _ _ Hs) in Hfs as (Hs' & Hshape & Hlen).
    rewrite <- Hcf in Hlen.
    assert (Hsel : Z.of_nat (length sel) = Z.max 1 (cf - remove_count)) by lia.
    apply (IH _ _ _ _ _ _ _ Hs' (eq_sym Hshape)) in H as (evs & Hlog' & Hcalls & Hcounts).
    eexists. split; [rewrite Hlog', Hlog, <- app_assoc; reflexivity|].
    assert (Hk : Z.to_nat (ceil_div (cf - min_features) remove_count)
                 = S (Z.to_nat (ceil_div (Z.of_nat (length sel) - min_features) remove_count))).
    { rewrite Hsel. destruct (Z.le_gt_cases 1 (cf - remove_count)) as [Hbig|Hsmall].
      - rewrite Z.max_r by exact Hbig.
        replace (cf - remove_count - min_features) with (cf - min_features - remove_count)
          by lia.
        rewrite ceil_div_step by exact Hr.
        pose proof (ceil_div_pos (cf - min_features) remove_count ltac:(lia) Hr). lia.
      - rewrite Z.max_l by lia.
        pose proof (ceil_div_nonpos (1 - min_features) remove_count ltac:(lia) Hr).
        replace (Z.to_nat (ceil_div (1 - min_features) remove_count)) with 0%nat by lia.
        unfold ceil_div.
        replace (cf - min_features + remove_count - 1)
          with (1 * remove_count + (cf - min_features - 1)) by lia.
        rewrite Z.div_add_l by lia. rewrite Z.div_small by lia. reflexivity. }
    assert (Hsplit : rfe_calls
                       ([EPrint (MsgSelectionIteration it); ERfe X y step n;
                         EPrint (MsgSelected (Z.of_nat (length sel)) sel);
                         EPrint (MsgTrainingIteration it)] ++ evs)
                     = S (rfe_calls evs)) by (rewrite rfe_calls_app; reflexivity).
    split; [rewrite Hsplit, Hcalls, Hk; reflexivity|].
    rewrite Hsplit. cbn [seq fmap list_fmap].
    unfold selected_counts in *. cbn [app omap list_omap]. rewrite Hcounts.
    f_equal.
    + rewrite Hsel. unfold count_after. lia.
    + rewrite <- (fmap_S_seq 1), <- list_fmap_compose. apply list_fmap_ext.
      intros j i _. cbn. rewrite Hsel. apply count_after_step. lia.
Qed.

(** With [min_features <= 0], or with [remove_count <= 0], a loop started
    above [min_features] never returns. *)
Lemma selection_loop_never_returns fuel step remove_count min_features :
  min_features <= 0 \/ remove_count <= 0 ->
  forall data mm it cf w mm' w',
    shaped data -> cf = shape1 (iloc_features data) -> 1 <= cf -> min_features < cf ->
    selection_loop sk fuel step remove_count min_features data mm it cf w <> (Val mm', w').
Proof.
  intros Hcase.
  induction fuel as [|fuel IH]; intros data mm it cf w mm' w' Hs Hcf Hone Hgt H;
    [discriminate|].
  apply selection_loop_pass in H
    as [(Hle & _) |
        (_ & data' & sel & model & metrics & X & y & n & wa & wb & w1 & w2 & Hfs & _ & H & _)];
    [lia|].
  apply (feature_selection_keeps _ _ _ _ _ _ _ Hs) in Hfs as (Hs' & Hshape & Hlen).
  rewrite <- Hcf in Hlen.
  revert H. apply IH; [exact Hs' | symmetry; exact Hshape | lia | lia].
Qed.

End RankingCount.
End Shrinking.

Lemma persist_events_no_pass existed save_dir (s : Summary (Model := Model)) :
  rfe_calls (persist_events existed save_dir s) = 0%nat /\
  selected_counts (persist_events existed save_dir s) = [].
Proof.
  unfold persist_events. destruct existed, (confirmed (save_model s)); split; reflexivity.
Qed.

Lemma selected_counts_app (l1 l2 : list Event) :
  selected_counts (l1 ++ l2) = selected_counts l1 ++ selected_counts l2.
Proof. unfold selected_counts. apply omap_app. Qed.

Lemma shape1_features (data : DataFrame) :
  data <> [] -> shape1 data - 1 = shape1 (iloc_features data).
Proof.
  intros Hne. unfold shape1, iloc_features. rewrite length_take.
  destruct data; [congruence|]. cbn [length]. lia.
Qed.

(** X10: in a completed run on a file with distinct column names and no
    feature named [target], every recorded candidate shrinks the one before
    it: its features are a selection of the previous candidate's features,
    in the same order and with the same values, and its target values are
    the same.  A feature dropped in one pass never comes back. *)
Theorem recorded_features_shrink
    fuel file_path step remove_count min_features save_dir w s w' t :
  optimize_model sk fuel file_path step remove_count min_features save_dir w
    = (Val (Some s), w') ->
  fs w !! file_path = Some (CsvFile t) ->
  NoDup (header t) ->
  "target" ∉ take (length (header t) - 1) (header t) ->
  forall i r1 r2,
    models_metrics s !! i = Some r1 ->
    models_metrics s !! (S i) = Some r2 ->
    sublist (iloc_features (rec_data r2)) (iloc_features (rec_data r1)) /\
    iloc_target (rec_data r2) = iloc_target (rec_data r1).
Proof.
  intros Hrun Hfile Hnd Hnt.
  apply completed_trace in Hrun
    as (t' & data0 & metrics0 & w1 & w2 & existed & Hfile' & Hread & Hloop & _).
  rewrite Hfile in Hfile'. injection Hfile' as <-.
  destruct (read_csv_working_data _ _ Hread Hnd Hnt) as (Hdistinct & Hno & _ & y0 & Htarget).
  apply (selection_loop_shrinking data0 y0 Hdistinct Hno) in Hloop as (rest & -> & Hrest);
    [|apply shaped_data0; exact Htarget].
  intros i r1 r2 H1 H2.
  exact (shrinking_lookup (initial_model_name, metrics0, data0) rest Hrest i r1 r2 H1 H2).
Qed.

Section RankingContract.

(** The ranking keeps as many features as it is asked for, and all of them
    when it is asked for more than there are. *)
Hypothesis rfe_keeps :
  forall X y step n mask,
    rfe_support sk X y step n = Some mask ->
    Z.of_nat (count_true mask) = Z.min n (shape1 X).

(** X3: in a completed run with a positive [remove_count] and a positive
    [min_features], on a file with distinct column names and no feature
    named [target], the loop has made exactly
    [ceil((initial_features - min_features) / remove_count)] ranking passes
    (none when that is negative), pass [i] has reported
    [max(1, initial_features - i * remove_count)] selected features, and
    there is one candidate more than there were passes. *)
Theorem passes_are_counted
    fuel file_path step remove_count min_features save_dir w s w' t :
  1 <= remove_count -> 1 <= min_features ->
  optimize_model sk fuel file_path step remove_count min_features save_dir w
    = (Val (Some s), w') ->
  fs w !! file_path = Some (CsvFile t) ->
  NoDup (header t) ->
  "target" ∉ take (length (header t) - 1) (header t) ->
  let initial_features := Z.of_nat (length (header t)) - 1 in
  exists evs,
    log w' = log w ++ evs /\
    rfe_calls evs = Z.to_nat (ceil_div (initial_features - min_features) remove_count) /\
    selected_counts evs
    = (fun i => Z.max 1 (initial_features - Z.of_nat i * remove_count))
        <$> seq 1 (rfe_calls evs) /\
    length (models_metrics s) = S (rfe_calls evs).
Proof.
  intros Hr Hm Hrun Hfile Hnd Hnt initial_features.
  pose proof (completed_labels _ _ _ _ _ _ _ _ _ Hrun) as (evs0 & Hlog0 & _ & Hlen0).
  apply completed_trace in Hrun
    as (t' & data0 & metrics0 & w1 & w2 & existed & Hfile' & Hread & Hloop & Hpre & Hpost).
  rewrite Hfile in Hfile'. injection Hfile' as <-.
  destruct (read_csv_working_data _ _ Hread Hnd Hnt)
    as (Hdistinct & Hno & Hshape & y0 & Htarget).
  assert (Hcf : shape1 data0 - 1 = shape1 (iloc_features data0))
    by (apply shape1_features, (read_csv_rows _ _ Hread)).
  apply (selection_loop_counts data0 y0 Hdistinct Hno rfe_keeps _ _ _ _ Hr Hm) in Hloop
    as (evs & Hlog & Hcalls & Hcounts); [|apply shaped_data0; exact Htarget|exact Hcf].
  rewrite Hpost, Hlog, Hpre, <- !app_assoc in Hlog0.
  apply app_inv_head in Hlog0. subst evs0.
  destruct (persist_events_no_pass existed save_dir s) as [Hp1 Hp2].
  eexists. split; [rewrite Hpost, Hlog, Hpre, <- !app_assoc; reflexivity|].
  assert (Hc : rfe_calls
                 ([EPrint (MsgInitialCount (shape1 data0 - 1)); EPrint MsgTrainingInitial]
                  ++ evs
                  ++ [EPrint MsgBestFound; EPrint (MsgBestName (rec_name (best_model s)));
                      EPrint (MsgBestMetrics (rec_metrics (best_model s)))]
                  ++ persist_events existed save_dir s) = rfe_calls evs).
  { apply rfe_calls_around; [reflexivity|]. rewrite rfe_calls_app, Hp1. reflexivity. }
  rewrite Hc in *. rewrite Hshape in *. fold initial_features in Hcalls, Hcounts.
  split; [exact Hcalls|]. split; [|exact Hlen0].
  rewrite !selected_counts_app, Hp2, Hcounts, app_nil_r. reflexivity.
Qed.

(** X11: on a file with distinct column names, at least one feature and
    no feature named [target], a run whose [min_features] is below the
    number of features never completes when [min_features <= 0] or
    [remove_count <= 0], whatever the fuel: the number of selected features
    never falls to [min_features], so the loop has no exit. *)
Theorem loop_without_exit
    fuel file_path step remove_count min_features save_dir w t :
  min_features <= 0 \/ remove_count <= 0 ->
  fs w !! file_path = Some (CsvFile t) ->
  NoDup (header t) ->
  "target" ∉ take (length (header t) - 1) (header t) ->
  let initial_features := Z.of_nat (length (header t)) - 1 in
  1 <= initial_features -> min_features < initial_features ->
  forall s w',
    optimize_model sk fuel file_path step remove_count min_features save_dir w
      <> (Val (Some s), w').
Proof.
  intros Hcase Hfile Hnd Hnt initial_features Hone Hgt s w' Hrun.
  apply completed_trace in Hrun
    as (t' & data0 & metrics0 & w1 & w2 & existed & Hfile' & Hread & Hloop & _).
  rewrite Hfile in Hfile'. injection Hfile' as <-.
  destruct (read_csv_working_data _ _ Hread Hnd Hnt)
    as (Hdistinct & Hno & Hshape & y0 & Htarget).
  assert (Hcf : shape1 data0 - 1 = shape1 (iloc_features data0))
    by (apply shape1_features, (read_csv_rows _ _ Hread)).
  revert Hloop.
  apply (selection_loop_never_returns data0 y0 Hdistinct Hno rfe_keeps _ _ _ _ Hcase);
    [apply shaped_data0; exact Htarget | exact Hcf | | ];
    rewrite Hshape; assumption.
Qed.

End RankingContract.

(* --------------------------------------------------------------------- *)
(** ** Running again *)
(* --------------------------------------------------------------------- *)


Section Again.

(** With an integer [random_state], [train_test_split] does not consult the
    ambient generator. *)
Hypothesis seeded_split :
  forall X y test_size seed g g',
    (train_test_split sk X y test_size (Some seed) g).1
    = (train_test_split sk X y test_size (Some seed) g').1.



End Again.

(* --------------------------------------------------------------------- *)
(** ** The program *)
(* --------------------------------------------------------------------- *)

Lemma input_val prompt line rest w :
  stdin w = line :: rest ->
  input prompt w
  = (Val line, {| fs := fs w; stdin := rest; rng := rng w;
                  log := log w ++ [EInput prompt] |}).
Proof. unfold input. intros ->. reflexivity. Qed.

(** The program up to the call of [optimize_model]. *)
Lemma main_answers fuel w l1 l2 l3 l4 l5 rest :
  stdin w = l1 :: l2 :: l3 :: l4 :: l5 :: rest ->
  let asked (n : nat) :=
    {| fs := fs w; stdin := drop n (stdin w); rng := rng w;
       log := log w ++ take n main_prompts |} in
  main sk fuel w =
  match int (strip l2), int (strip l3), int (strip l4) with
  | Some step, Some remove_count, Some min_features =>
    optimize_model sk fuel (strip l1) step remove_count min_features (strip l5) (asked 5%nat)
  | Some _, Some _, None => (Raise ValueError, asked 4%nat)
  | Some _, None, _ => (Raise ValueError, asked 3%nat)
  | None, _, _ => (Raise ValueError, asked 2%nat)
  end.
Proof.
  intros Hstdin asked. unfold main.
  erewrite bind_eq_val by (apply input_val; exact Hstdin).
  erewrite bind_eq_val by (apply input_val; reflexivity).
  subst asked. cbn beta. rewrite Hstdin. cbn [drop take main_prompts].
  destruct (int (strip l2)) as [step|]; cbn [or_raise];
    [|unfold bind, raise; cbn [fs stdin rng log]; rewrite <- !app_assoc; reflexivity].
  unfold ret at 1. unfold bind at 1.
  erewrite bind_eq_val by (apply input_val; reflexivity).
  destruct (int (strip l3)) as [remove_count|]; cbn [or_raise];
    [|unfold bind, raise; cbn [fs stdin rng log]; rewrite <- !app_assoc; reflexivity].
  unfold ret at 1. unfold bind at 1.
  erewrite bind_eq_val by (apply input_val; reflexivity).
  destruct (int (strip l4)) as [min_features|]; cbn [or_raise];
    [|unfold bind, raise; cbn [fs stdin rng log]; rewrite <- !app_assoc; reflexivity].
  unfold ret at 1. unfold bind at 1.
  erewrite bind_eq_val by (apply input_val; reflexivity).
  cbn [fs stdin rng log]. rewrite <- !app_assoc. reflexivity.
Qed.

(** X13: a number that [int] refuses stops the program at its prompt: when
    line [k + 2] of five ASCII lines is the first of the three numbers that
    is not an integer literal, the program raises the [ValueError] of [int]
    right after asking for it.  The later prompts are not asked, the path of
    the first line has not been looked at, whether it names a file or not,
    and no file is touched. *)
Theorem bad_number_stops_at_its_prompt
    fuel w l1 l2 l3 l4 l5 rest (k : nat) bad :
  stdin w = l1 :: l2 :: l3 :: l4 :: l5 :: rest ->
  Forall (fun l => ascii_text l = true) [l1; l2; l3; l4; l5] ->
  [l2; l3; l4] !! k = Some bad ->
  int (strip bad) = None ->
  (forall j l, (j < k)%nat -> [l2; l3; l4] !! j = Some l -> int (strip l) <> None) ->
  main sk fuel w
  = (Raise ValueError,
     {| fs := fs w; stdin := drop (k + 2) (stdin w); rng := rng w;
        log := log w ++ take (k + 2) main_prompts |}).
Proof.
  intros Hstdin _ Hk Hbad Hgood. rewrite (main_answers _ _ _ _ _ _ _ _ Hstdin). cbn zeta.
  destruct k as [|[|[|k]]]; cbn in Hk; [| | |discriminate]; injection Hk as ->.
  - rewrite Hbad. reflexivity.
  - pose proof (Hgood 0%nat l2 ltac:(lia) eq_refl) as H2.
    destruct (int (strip l2)); [|contradiction]. rewrite Hbad. reflexivity.
  - pose proof (Hgood 0%nat l2 ltac:(lia) eq_refl) as H2.
    pose proof (Hgood 1%nat l3 ltac:(lia) eq_refl) as H3.
    destruct (int (strip l2)); [|contradiction].
    destruct (int (strip l3)); [|contradiction]. rewrite Hbad. reflexivity.
Qed.

(** X14: the program checks that the dataset exists only after all five
    prompts have been answered and the three numbers parsed: on ASCII input
    whose first line names no file it asks every prompt, prints the diagnostic and
    returns, leaving the files alone. *)
Theorem main_reports_missing_file_after_all_prompts
    fuel w l1 l2 l3 l4 l5 rest step remove_count min_features :
  stdin w = l1 :: l2 :: l3 :: l4 :: l5 :: rest ->
  Forall (fun l => ascii_text l = true) [l1; l2; l3; l4; l5] ->
  int (strip l2) = Some step ->
  int (strip l3) = Some remove_count ->
  int (strip l4) = Some min_features ->
  strip l1 = "" \/ fs w !! strip l1 = None ->
  main sk fuel w
  = (Val None, {| fs := fs w; stdin := rest; rng := rng w;
                  log := log w ++ main_prompts ++ [EPrint (MsgNotFound (strip l1))] |}).
Proof.
  intros Hstdin _ H2 H3 H4 Hmissing.
  rewrite (main_answers _ _ _ _ _ _ _ _ Hstdin). cbn zeta. rewrite H2, H3, H4, Hstdin.
  cbn [drop take main_prompts].
  unfold optimize_model, bind, path_exists. cbn [fs].
  assert (Hp : bool_decide (strip l1 <> "")
               && bool_decide (is_Some (fs w !! strip l1)) = false).
  { destruct Hmissing as [-> | Hnone].
    - rewrite bool_decide_eq_false_2 by (intros H; apply H; reflexivity). reflexivity.
    - rewrite Hnone, (bool_decide_eq_false_2 (is_Some None)) by (intros [? [=]]).
      apply andb_false_r. }
  rewrite Hp. cbn. rewrite <- !app_assoc. reflexivity.
Qed.

End Verification.

(* ===================================================================== *)
(** * The single-model scripts *)
(* ===================================================================== *)

Section ScriptProperties.
Import Scripts.
Local Open Scope script_scope.
Context {Model Rng : Type}.
Variable sk : Sklearn Model Rng.
Variable score_type : ScoreType.
Variable rfe_linear_support : DataFrame -> Series -> Z -> Z -> option (list bool).
Implicit Types w : World Model Rng.

(* --------------------------------------------------------------------- *)
(** ** Reasoning about scripts *)
(* --------------------------------------------------------------------- *)

Lemma script_bind_eq {A B} (m : M Model Rng A) (k : A -> M Model Rng B) w a w1 :
  m w = (Val a, w1) -> bind m k w = k a w1.
Proof. unfold bind. intros ->. reflexivity. Qed.

Lemma script_bind_stop {A B} (m : M Model Rng A) (k : A -> M Model Rng B) w e w1 :
  m w = (Raise e, w1) -> bind m k w = (Raise e, w1).
Proof. unfold bind. intros ->. reflexivity. Qed.

(** A bind ends with its first part, or goes on with its second. *)
Lemma script_bind_outcome {A B} (m : M Model Rng A) (k : A -> M Model Rng B) w r w' :
  bind m k w = (r, w') ->
  (exists a w1, m w = (Val a, w1) /\ k a w1 = (r, w')) \/
  (exists e, m w = (Raise e, w') /\ r = Raise e) \/
  (m w = (OutOfFuel, w') /\ r = OutOfFuel).
Proof.
  unfold bind. destruct (m w) as [[a|e|] w1]; intros H.
  - left. eauto.
  - right. left. injection H as <- <-. eauto.
  - right. right. injection H as <- <-. auto.
Qed.

Lemma script_input_line prompt line rest w :
  stdin w = line :: rest ->
  input prompt w
  = (Val line, {| fs := fs w; stdin := rest; rng := rng w; log := log w ++ [EInput prompt] |}).
Proof. unfold input. intros ->. reflexivity. Qed.

Lemma script_input_eof prompt w :
  stdin w = [] -> input prompt w = (Raise EOFError, logged w [EInput prompt]).
Proof. unfold input. intros ->. reflexivity. Qed.

Lemma ends_bind {A B} (m : M Model Rng A) (k : A -> M Model Rng B) w :
  ends m w -> (forall a w1, m w = (Val a, w1) -> ends (k a) w1) -> ends (bind m k) w.
Proof.
  unfold ends, bind. intros Hm Hk. destruct (m w) as [[a|e|] w1]; cbn in *;
    [apply Hk; reflexivity | discriminate | contradiction].
Qed.

(* --------------------------------------------------------------------- *)
(** ** linear_regression_model.py: the save dialogue *)
(* --------------------------------------------------------------------- *)

Lemma dialogue_eof fuel lr_model w :
  stdin w = [] ->
  save_dialogue (S fuel) lr_model w = (Raise EOFError, logged w [EInput save_prompt]).
Proof. intros H. cbn [save_dialogue]. apply script_bind_stop, script_input_eof, H. Qed.

Lemma dialogue_step fuel lr_model line rest w :
  stdin w = line :: rest ->
  let asked := {| fs := fs w; stdin := rest; rng := rng w;
                  log := log w ++ [EInput save_prompt] |} in
  save_dialogue (S fuel) lr_model w =
  if is_yes (lower (strip line)) then save_model_file lr_model asked
  else if is_no (lower (strip line)) then (Val tt, logged asked [EPrint MsgEndOfAnalysis])
  else save_dialogue fuel lr_model (logged asked [EPrint MsgInvalidAnswer]).
Proof.
  intros H asked. cbn [save_dialogue].
  rewrite (script_bind_eq _ _ _ _ _ (script_input_line save_prompt _ _ _ H)).
  fold asked. destruct (is_yes _); [reflexivity|]. destruct (is_no _); reflexivity.
Qed.

(** X15: an answer that is neither a yes nor a no is answered by a
    message and the same question: after any number of such answers the
    dialogue is where it started, with the answers consumed and one
    question and one message logged for each. *)
Theorem invalid_answers_are_asked_again (bad : list string) :
  Forall invalid_answer bad ->
  forall fuel lr_model w rest,
    stdin w = bad ++ rest ->
    save_dialogue (length bad + fuel) lr_model w
    = save_dialogue fuel lr_model
        {| fs := fs w; stdin := rest; rng := rng w; log := log w ++ asked_again bad |}.
Proof.
  induction 1 as [|line bad [Hyes Hno] _ IH]; intros fuel lr_model w rest Hstdin.
  - cbn in *. unfold asked_again. cbn. rewrite app_nil_r, <- Hstdin. destruct w; reflexivity.
  - cbn [length Nat.add]. rewrite (dialogue_step _ _ _ _ _ Hstdin). cbn zeta.
    rewrite Hyes, Hno. erewrite IH by reflexivity.
    unfold logged, asked_again. cbn. rewrite <- !app_assoc. reflexivity.
Qed.

Lemma script_makedirs_outcome path w :
  (exists files,
     makedirs_in (String.length path) path (fs w) = inr files /\
     makedirs path w
     = (Val tt, {| fs := files; stdin := stdin w; rng := rng w;
                   log := log w ++ [EMakedirs path] |})) \/
  (exists e, makedirs path w = (Raise e, logged w [EMakedirs path])).
Proof.
  unfold makedirs. destruct (makedirs_in _ path (fs w)) as [e|files]; [right|left]; eauto.
Qed.

Lemma script_write_file_outcome ev path content w :
  (path <> "" /\ names_directory path = false /\
   write_file ev path content w
   = (Val tt, {| fs := <[path := content]> (fs w); stdin := stdin w; rng := rng w;
                 log := log w ++ [ev] |})) \/
  (exists e, write_file ev path content w = (Raise e, logged w [ev])).
Proof.
  unfold write_file. destruct (decide (path = "")) as [->|Hne]; [right; eauto|].
  rewrite (bool_decide_eq_false_2 _ Hne).
  destruct (names_directory path); [right; eauto|].
  destruct (fs w !! path) as [[]|]; eauto.
Qed.

(** The outcomes of lines 78-87. *)
Lemma save_model_file_outcome lr_model w r w' :
  save_model_file lr_model w = (r, w') ->
  (r = Raise EOFError /\ (length (stdin w) < 2)%nat /\ fs w' = fs w /\
   Forall (fun e => touches_files e = false) (drop (length (log w)) (log w'))) \/
  exists name_line directory_line,
    stdin w = name_line :: directory_line :: stdin w' /\
    let save_directory := strip directory_line in
    let full_path := path_join save_directory (strip name_line) in
    let asked := [EInput name_prompt; EInput directory_prompt] in
    let creating := [EPrint (MsgCreatingDirectory save_directory);
                     EMakedirs save_directory] in
    let made := if bool_decide (is_Some (fs w !! save_directory)) then [] else creating in
    let files := with_directory save_directory (fs w) in
    ((exists e, r = Raise e) /\ fs w' = fs w /\ log w' = log w ++ asked ++ creating) \/
    (save_directory <> "" /\ files !! save_directory <> None /\
     (((exists e, r = Raise e) /\ fs w' = files /\
       log w' = log w ++ asked ++ made ++ [EDump lr_model full_path]) \/
      (names_directory full_path = false /\ r = Val tt /\
       fs w' = <[full_path := JoblibFile lr_model]> files /\
       log w' = log w ++ asked ++ made
                ++ [EDump lr_model full_path;
                    EPrint (MsgModelSaved (strip name_line) save_directory)]))).
Proof.
  unfold save_model_file. intros H.
  destruct (stdin w) as [|name_line [|directory_line rest]] eqn:Hstdin.
  - left. rewrite (script_bind_stop _ _ _ _ _ (script_input_eof _ _ Hstdin)) in H.
    injection H as <- <-. cbn. rewrite drop_app_length. repeat split; auto.
  - left. rewrite (script_bind_eq _ _ _ _ _ (script_input_line _ _ _ _ Hstdin)) in H.
    rewrite (script_bind_stop _ _ _ _ (logged _ [EInput directory_prompt])) in H
      by (apply script_input_eof; reflexivity).
    injection H as <- <-. cbn. rewrite <- app_assoc, drop_app_length.
    repeat split; auto. repeat constructor.
  - right. exists name_line, directory_line.
    rewrite (script_bind_eq _ _ _ _ _ (script_input_line _ _ _ _ Hstdin)) in H.
    erewrite script_bind_eq in H by (apply script_input_line; reflexivity).
    unfold bind at 1, path_exists at 1 in H. cbn [fs stdin rng log] in H.
    set (save_directory := strip directory_line) in *.
    set (full_path := path_join save_directory (strip name_line)) in *.
    cbn zeta.
    assert (Hsave : forall (w0 : World Model Rng) evs,
              stdin w0 = rest -> log w0 = log w ++ evs ->
              bind (dump lr_model full_path)
                   (fun _ => print (MsgModelSaved (strip name_line) save_directory)) w0
              = (r, w') ->
              stdin w' = rest /\
              (((exists e, r = Raise e) /\ fs w' = fs w0 /\
                log w' = log w ++ evs ++ [EDump lr_model full_path]) \/
               (names_directory full_path = false /\ r = Val tt /\
                fs w' = <[full_path := JoblibFile lr_model]> (fs w0) /\
                log w' = log w ++ evs
                         ++ [EDump lr_model full_path;
                             EPrint (MsgModelSaved (strip name_line) save_directory)]))).
    { intros w0 evs Hs0 Hl0 H0. unfold dump in H0.
      destruct (script_write_file_outcome (EDump lr_model full_path) full_path
                  (JoblibFile lr_model) w0) as [(_ & Hnd & E)|(e & E)].
      - rewrite (script_bind_eq _ _ _ _ _ E) in H0. unfold print, emit, logged in H0.
        injection H0 as <- <-. cbn [fs stdin rng log]. split; [exact Hs0|]. right.
        rewrite Hl0, <- !app_assoc. auto.
      - rewrite (script_bind_stop _ _ _ _ _ E) in H0. injection H0 as <- <-.
        unfold logged. cbn [fs stdin rng log]. split; [exact Hs0|]. left.
        rewrite Hl0, <- !app_assoc. eauto. }
    destruct (decide (save_directory <> "" /\ is_Some (fs w !! save_directory)))
      as [[Hne Hex]|Hmissing].
    + (* the directory is there *)
      rewrite (bool_decide_eq_true_2 _ Hne), (bool_decide_eq_true_2 _ Hex) in H.
      cbn [andb negb] in H. unfold ret at 1, bind at 1 in H.
      apply (Hsave _ [EInput name_prompt; EInput directory_prompt]) in H
        as [Hrest H]; [|reflexivity | cbn; rewrite <- app_assoc; reflexivity].
      split; [congruence|]. right. split; [exact Hne|].
      unfold with_directory. rewrite (bool_decide_eq_true_2 _ Hex).
      split; [destruct Hex as [x ->]; discriminate|].
      cbn [fs] in H. exact H.
    + (* the directory is to be made *)
      assert (Hp : bool_decide (save_directory <> "")
                   && bool_decide (is_Some (fs w !! save_directory)) = false).
      { destruct (bool_decide (save_directory <> "")) eqn:E1; [|reflexivity].
        destruct (bool_decide (is_Some (fs w !! save_directory))) eqn:E2; [|reflexivity].
        apply bool_decide_eq_true in E1, E2. tauto. }
      rewrite Hp in H. cbn [negb] in H.
      unfold print at 1, emit at 1, bind at 1 2 in H. cbn [fs stdin rng log logged] in H.
      match type of H with
      | context [makedirs save_directory ?x] =>
        destruct (script_makedirs_outcome save_directory x) as [(files & Hin & E)|(e & E)];
          rewrite E in H; clear E; cbn [fs stdin rng log logged] in *
      end.
      * assert (Hne : save_directory <> "").
        { intros E. rewrite E, makedirs_in_empty in Hin. discriminate. }
        assert (Hnew : ~ is_Some (fs w !! save_directory)) by tauto.
        apply (Hsave _ [EInput name_prompt; EInput directory_prompt;
                        EPrint (MsgCreatingDirectory save_directory);
                        EMakedirs save_directory]) in H
          as [Hrest H]; [|reflexivity | cbn; rewrite <- !app_assoc; reflexivity].
        split; [congruence|]. right. split; [exact Hne|].
        unfold with_directory. rewrite (bool_decide_eq_false_2 _ Hnew), Hin.
        split; [apply makedirs_in_made in Hin as [-> _]; discriminate|].
        cbn [fs] in H. exact H.
      * injection H as <- <-. split; [reflexivity|]. left.
        unfold logged. cbn [fs stdin rng log]. rewrite <- !app_assoc.
        split; [eauto|]. split; reflexivity.
Qed.

(** The outcomes of the dialogue. *)
Lemma save_dialogue_outcome fuel lr_model :
  forall w r w',
    save_dialogue fuel lr_model w = (r, w') ->
    exists bad tail,
      stdin w = bad ++ tail /\ Forall invalid_answer bad /\ (length bad <= fuel)%nat /\
      let again := {| fs := fs w; stdin := tail; rng := rng w;
                      log := log w ++ asked_again bad |} in
      (r = OutOfFuel /\ length bad = fuel /\ w' = again) \/
      (tail = [] /\ r = Raise EOFError /\ w' = logged again [EInput save_prompt]) \/
      exists line rest,
        tail = line :: rest /\
        let asked := {| fs := fs w; stdin := rest; rng := rng w;
                        log := log w ++ asked_again bad ++ [EInput save_prompt] |} in
        (is_yes (lower (strip line)) = false /\ is_no (lower (strip line)) = true /\
         r = Val tt /\ w' = logged asked [EPrint MsgEndOfAnalysis]) \/
        (is_yes (lower (strip line)) = true /\ save_model_file lr_model asked = (r, w')).
Proof.
  induction fuel as [|fuel IH]; intros w r w' H.
  - exists [], (stdin w). cbn in H. injection H as <- <-.
    split; [reflexivity|]. split; [constructor|]. split; [reflexivity|].
    left. split; [reflexivity|]. split; [reflexivity|].
    destruct w. unfold asked_again. cbn. f_equal. symmetry. apply app_nil_r.
  - destruct (stdin w) as [|line rest] eqn:Hstdin.
    + rewrite (dialogue_eof _ _ _ Hstdin) in H. injection H as <- <-.
      exists [], []. split; [reflexivity|]. split; [constructor|]. split; [cbn; lia|].
      right. left. unfold asked_again, logged. cbn. rewrite ?app_nil_r, Hstdin. auto.
    + rewrite (dialogue_step _ _ _ _ _ Hstdin) in H. cbn zeta in H.
      destruct (is_yes (lower (strip line))) eqn:Hyes.
      { exists [], (line :: rest). split; [reflexivity|]. split; [constructor|].
        split; [cbn; lia|]. right. right. exists line, rest. split; [reflexivity|].
        right. unfold asked_again. cbn. rewrite ?app_nil_r. auto. }
      destruct (is_no (lower (strip line))) eqn:Hno.
      { injection H as <- <-.
        exists [], (line :: rest). split; [reflexivity|]. split; [constructor|].
        split; [cbn; lia|]. right. right. exists line, rest. split; [reflexivity|].
        left. unfold asked_again, logged. cbn. rewrite ?app_nil_r. auto. }
      apply IH in H as (bad & tail & Htail & Hbad & Hlen & Hcases).
      cbn [fs stdin rng log logged] in *.
      exists (line :: bad), tail. split; [rewrite Htail; reflexivity|].
      split; [constructor; [split; assumption | exact Hbad]|]. split; [cbn; lia|].
      assert (Hlog : forall l, ((log w ++ [EInput save_prompt]) ++ [EPrint MsgInvalidAnswer])
                               ++ asked_again bad ++ l
                               = log w ++ asked_again (line :: bad) ++ l).
      { intros l. unfold asked_again. cbn. rewrite <- !app_assoc. reflexivity. }
      pose proof (Hlog []) as Hlog0. rewrite !app_nil_r in Hlog0.
      cbn zeta. destruct Hcases as [(-> & <- & ->) | [(-> & -> & ->) | Hcases]].
      * left. rewrite Hlog0. auto.
      * right. left. unfold logged. cbn. rewrite Hlog0. auto.
      * right. right. destruct Hcases as (line' & rest' & -> & Hcases).
        exists line', rest'. split; [reflexivity|]. cbn zeta in Hcases.
        rewrite Hlog in Hcases. exact Hcases.
Qed.

(** On a finite input the dialogue comes to an end. *)
Lemma save_dialogue_ends fuel lr_model w :
  (length (stdin w) < fuel)%nat -> ends (save_dialogue fuel lr_model) w.
Proof.
  intros Hfuel. unfold ends.
  destruct (save_dialogue fuel lr_model w) as [r w'] eqn:H. cbn.
  apply save_dialogue_outcome in H as (bad & tail & Hstdin & _ & _ & Hcases).
  cbn zeta in Hcases.
  destruct Hcases as [(_ & Hlen & _) | [(_ & -> & _) | (line & rest & _ & Hcases)]];
    [rewrite Hstdin, length_app in Hfuel; lia | discriminate |].
  cbn zeta in Hcases. destruct Hcases as [(_ & _ & -> & _) | (_ & Hsave)]; [discriminate|].
  apply save_model_file_outcome in Hsave as [(-> & _) | (n & d & _ & Hsave)]; [discriminate|].
  cbn zeta in Hsave.
  destruct Hsave as [([e ->] & _) | (_ & _ & [([e ->] & _) | (_ & -> & _)])]; discriminate.
Qed.

(* --------------------------------------------------------------------- *)
(** ** linear_regression_model.py: the script *)
(* --------------------------------------------------------------------- *)

Lemma script_print_val m w u w1 : print m w = (Val u, w1) -> w1 = logged w [EPrint m].
Proof. unfold print, emit. intros [= _ <-]. reflexivity. Qed.

Lemma script_or_raise_outcome {A} e (o : option A) w r w1 :
  or_raise e o w = (r, w1) ->
  w1 = w /\ ((exists a, o = Some a /\ r = Val a) \/ (o = None /\ r = Raise e)).
Proof. destruct o; cbn; intros [= <- <-]; eauto. Qed.

(** The outcomes of the script, up to the dialogue. *)
Lemma linear_regression_model_outcome fuel w r w' :
  linear_regression_model sk score_type fuel w = (r, w') ->
  (stdin w = [] /\ r = Raise EOFError /\ w' = logged w [EInput file_prompt]) \/
  exists line rest,
    stdin w = line :: rest /\
    let asked := {| fs := fs w; stdin := rest; rng := rng w;
                    log := log w ++ [EInput file_prompt] |} in
    ((strip line = "" \/ fs w !! strip line = None) /\ r = Raise SystemExit /\
     w' = logged asked [EPrint (MsgFileNotFound (strip line))]) \/
    ((exists e, r = Raise e) /\ fs w' = fs w /\ stdin w' = rest /\ log w' = log asked) \/
    exists X_test y_test g lr_model y_pred,
      evaluated sk w line rest X_test y_test g lr_model y_pred /\
      let r2 := r2_score sk y_test y_pred in
      let scored := {| fs := fs w; stdin := rest; rng := g;
                       log := log w ++ [EInput file_prompt; EPrint (MsgR2 r2)] |} in
      match adjusted_r2_score score_type r2 (Z.of_nat (length y_test)) (shape1 X_test) with
      | Val adjusted_r2 =>
        save_dialogue fuel lr_model
          {| fs := fs w; stdin := rest; rng := g;
             log := log w ++ EInput file_prompt :: printed_scores sk y_test y_pred adjusted_r2 |}
        = (r, w')
      | Raise e => r = Raise e /\ w' = scored
      | OutOfFuel => r = OutOfFuel /\ w' = scored
      end.
Proof.
  unfold linear_regression_model. intros H.
  destruct (stdin w) as [|line rest] eqn:Hstdin.
  { left. rewrite (script_bind_stop _ _ _ _ _ (script_input_eof _ _ Hstdin)) in H.
    injection H as <- <-. auto. }
  right. exists line, rest. split; [reflexivity|]. cbn zeta.
  rewrite (script_bind_eq _ _ _ _ _ (script_input_line _ _ _ _ Hstdin)) in H.
  unfold bind at 1, path_exists at 1 in H. cbn [fs stdin rng log] in H.
  destruct (decide (strip line = "")) as [Hempty|Hne].
  { left. rewrite Hempty in *. cbn in H. injection H as <- <-. auto. }
  rewrite (bool_decide_eq_true_2 _ Hne) in H. cbn [andb] in H.
  destruct (fs w !! strip line) as [node|] eqn:Hfile.
  2:{ left. rewrite bool_decide_eq_false_2 in H by (intros [? [=]]). cbn in H.
      injection H as <- <-. auto. }
  rewrite bool_decide_eq_true_2 in H by eauto. cbn [negb] in H.
  right.
  (* reading the file *)
  apply script_bind_outcome in H as [(data & w1 & Hread & H) | [(e & Hread & ->) | [Hread _]]].
  2:{ left. split; [eauto|]. unfold read_csv_file in Hread. cbn [fs] in Hread.
      rewrite (bool_decide_eq_false_2 _ Hne), Hfile in Hread.
      destruct node as [| t | |]; try (injection Hread as _ <-; auto).
      apply script_or_raise_outcome in Hread as [-> _]. auto. }
  2:{ exfalso. unfold read_csv_file in Hread. cbn [fs] in Hread.
      rewrite (bool_decide_eq_false_2 _ Hne), Hfile in Hread.
      destruct node as [| t | |]; try discriminate.
      apply script_or_raise_outcome in Hread as [_ [(? & _ & [=]) | (_ & [=])]]. }
  unfold read_csv_file in Hread. cbn [fs] in Hread.
  rewrite (bool_decide_eq_false_2 _ Hne), Hfile in Hread.
  destruct node as [| t | |]; try discriminate.
  apply script_or_raise_outcome in Hread as [-> [(data' & Hread & [= <-]) | (_ & [=])]].
  (* the target *)
  apply script_bind_outcome in H as [(y & w1 & Hy & H) | [(e & Hy & ->) | [Hy _]]].
  2:{ left. apply script_or_raise_outcome in Hy as [-> _]. eauto. }
  2:{ exfalso. apply script_or_raise_outcome in Hy as [_ [(? & _ & [=]) | (_ & [=])]]. }
  apply script_or_raise_outcome in Hy as [-> [(y' & Hy & [= <-]) | (_ & [=])]].
  (* the split *)
  unfold bind at 1, split at 1 in H. cbn [fs stdin rng log] in H.
  destruct (train_test_split sk (iloc_features data) y lit_0_2 (Some 42) (rng w))
    as [[[[[X_train X_test] y_train] y_test]|] g] eqn:Hsplit.
  2:{ left. injection H as <- <-. eauto. }
  (* the fit and the prediction *)
  apply script_bind_outcome in H as [(lr_model & w1 & Hfit & H) | [(e & Hfit & ->) | [Hfit _]]].
  2:{ left. apply script_or_raise_outcome in Hfit as [-> _]. eauto. }
  2:{ exfalso. apply script_or_raise_outcome in Hfit as [_ [(? & _ & [=]) | (_ & [=])]]. }
  apply script_or_raise_outcome in Hfit as [-> [(m' & Hfit & [= <-]) | (_ & [=])]].
  apply script_bind_outcome in H as [(y_pred & w1 & Hpred & H) | [(e & Hpred & ->) | [Hpred _]]].
  2:{ left. apply script_or_raise_outcome in Hpred as [-> _]. eauto. }
  2:{ exfalso. apply script_or_raise_outcome in Hpred as [_ [(? & _ & [=]) | (_ & [=])]]. }
  apply script_or_raise_outcome in Hpred as [-> [(p' & Hpred & [= <-]) | (_ & [=])]].
  right. exists X_test, y_test, g, lr_model, y_pred. split.
  { split; [exact Hstdin | exact Hne | | exact Hpred].
    exists t, data, y, X_train, y_train. auto. }
  cbn zeta. unfold print at 1, emit at 1, bind at 1 2, lift at 1 in H.
  cbn [fs stdin rng log logged] in H.
  destruct (adjusted_r2_score score_type _ _ _) as [adjusted_r2|e|].
  - unfold print, emit, bind in H. cbn [fs stdin rng log logged] in H.
    rewrite <- H. f_equal. unfold logged, printed_scores. cbn [fs stdin rng log].
    rewrite <- !app_assoc. reflexivity.
  - injection H as <- <-. unfold logged. cbn [fs stdin rng log]. rewrite <- app_assoc. auto.
  - injection H as <- <-. unfold logged. cbn [fs stdin rng log]. rewrite <- app_assoc. auto.
Qed.

(** X16: the script checks the path before anything else: when the first
    line, stripped, names no file it prints the diagnostic and exits,
    without loading, asking or writing anything. *)
Theorem missing_dataset_exits fuel w line rest :
  stdin w = line :: rest ->
  strip line = "" \/ fs w !! strip line = None ->
  linear_regression_model sk score_type fuel w
  = (Raise SystemExit,
     {| fs := fs w; stdin := rest; rng := rng w;
        log := log w ++ [EInput file_prompt; EPrint (MsgFileNotFound (strip line))] |}).
Proof.
  intros Hstdin Hmissing. unfold linear_regression_model.
  rewrite (script_bind_eq _ _ _ _ _ (script_input_line _ _ _ _ Hstdin)).
  unfold bind at 1, path_exists at 1. cbn [fs stdin rng log].
  assert (Hp : bool_decide (strip line <> "")
               && bool_decide (is_Some (fs w !! strip line)) = false).
  { destruct Hmissing as [-> | Hnone].
    - rewrite bool_decide_eq_false_2 by (intros H; apply H; reflexivity). reflexivity.
    - rewrite Hnone, (bool_decide_eq_false_2 (is_Some None)) by (intros [? [=]]).
      apply andb_false_r. }
  rewrite Hp. unfold print, emit, bind, raise, logged. cbn.
  rewrite <- ?app_assoc. reflexivity.
Qed.

Lemma asked_again_quiet (bad : list string) :
  Forall (fun e : Event Model => touches_files e = false) (asked_again bad).
Proof.
  unfold asked_again. induction bad as [|line bad IH]; [constructor|].
  cbn. repeat constructor. exact IH.
Qed.

Lemma printed_scores_quiet y_test y_pred adjusted_r2 :
  Forall (fun e : Event Model => touches_files e = false)
         (printed_scores sk y_test y_pred adjusted_r2).
Proof. repeat constructor. Qed.

(** X17: the script comes to an end on every finite input: given at least
    as much fuel as there are pending lines it is never cut short, whatever
    the answers are. *)
Theorem linear_regression_model_ends fuel w :
  (length (stdin w) <= fuel)%nat -> ends (linear_regression_model sk score_type fuel) w.
Proof.
  intros Hfuel. unfold ends.
  destruct (linear_regression_model sk score_type fuel w) as [r w'] eqn:H. cbn.
  apply linear_regression_model_outcome in H
    as [(_ & -> & _) | (line & rest & Hstdin & H)]; [discriminate|].
  cbn zeta in H.
  destruct H as [(_ & -> & _) | [((e & ->) & _) | (X_test & y_test & g & lr_model & y_pred & _ & H)]];
    [discriminate | discriminate |].
  cbn zeta in H.
  destruct (adjusted_r2_score score_type _ _ _) as [adjusted_r2|e|] eqn:Hadj.
  - intros ->.
    assert (Hends := save_dialogue_ends fuel lr_model
              {| fs := fs w; stdin := rest; rng := g;
                 log := log w ++ EInput file_prompt
                          :: printed_scores sk y_test y_pred adjusted_r2 |}).
    unfold ends in Hends. rewrite H in Hends. apply Hends; [|reflexivity].
    cbn [stdin]. rewrite Hstdin in Hfuel. cbn in Hfuel. lia.
  - destruct H as [-> _]. discriminate.
  - exfalso. unfold adjusted_r2_score, true_divide in Hadj.
    destruct (of_int _); [|discriminate]. destruct (of_int _); [|discriminate].
    destruct (is_zero _), score_type; discriminate.
Qed.

(** X18: without a yes the script writes nothing: if none of the lines
    after the first is a yes or a y (whatever its case and the blanks around
    it), then whatever the outcome no file or directory has been created or
    changed. *)
Theorem nothing_is_saved_without_a_yes fuel w r w' :
  linear_regression_model sk score_type fuel w = (r, w') ->
  Forall (fun line => is_yes (lower (strip line)) = false) (tail (stdin w)) ->
  fs w' = fs w /\
  exists evs, log w' = log w ++ evs /\ Forall (fun e => touches_files e = false) evs.
Proof.
  intros H Hno.
  apply linear_regression_model_outcome in H
    as [(_ & _ & ->) | (line & rest & Hstdin & H)].
  { split; [reflexivity|]. eexists. split; [reflexivity|]. repeat constructor. }
  rewrite Hstdin in Hno. cbn [tail] in Hno. cbn zeta in H.
  destruct H as [(_ & _ & ->) | [(_ & Hfs & _ & Hlog) | (X_test & y_test & g & lr_model & y_pred & _ & H)]].
  { split; [reflexivity|]. eexists. cbn. rewrite <- app_assoc.
    split; [reflexivity|]. repeat constructor. }
  { split; [exact Hfs|]. eexists. split; [exact Hlog|]. repeat constructor. }
  cbn zeta in H.
  destruct (adjusted_r2_score score_type _ _ _) as [adjusted_r2|e|];
    [|destruct H as [_ ->]; split; [reflexivity|]; eexists; split; [reflexivity|];
      repeat constructor ..].
  apply save_dialogue_outcome in H as (bad & tl & Hrest & Hbad & _ & Hcases).
  cbn [fs stdin rng log] in *. cbn zeta in Hcases.
  assert (Hquiet : forall l : list (Event Model),
            Forall (fun e => touches_files e = false) l ->
            Forall (fun e => touches_files e = false)
                   (EInput file_prompt :: printed_scores sk y_test y_pred adjusted_r2
                    ++ asked_again bad ++ l)).
  { intros l Hl. constructor; [reflexivity|]. apply Forall_app. split.
    - apply printed_scores_quiet.
    - apply Forall_app. split; [apply asked_again_quiet | exact Hl]. }
  destruct Hcases as [(_ & _ & ->) | [(_ & _ & ->) | (answer & rest' & -> & Hcases)]].
  - split; [reflexivity|]. eexists. cbn [log].
    split; [|apply (Hquiet []); constructor]. rewrite app_nil_r, <- app_assoc. reflexivity.
  - split; [reflexivity|]. eexists. cbn [log logged].
    split; [|apply (Hquiet [EInput save_prompt]); repeat constructor].
    rewrite <- !app_assoc. reflexivity.
  - cbn zeta in Hcases. destruct Hcases as [(_ & _ & _ & ->) | (Hyes & _)].
    + split; [reflexivity|]. eexists. cbn [log logged].
      split; [|apply (Hquiet [EInput save_prompt; EPrint MsgEndOfAnalysis]);
               repeat constructor].
      rewrite <- !app_assoc. reflexivity.
    + exfalso. rewrite Hrest in Hno. apply Forall_app in Hno as [_ Hno].
      inversion Hno; subst. congruence.
Qed.

(** X19: a completed run has printed the six scores of a model fitted on
    the training part of the seeded split and evaluated on the held-out
    part, has asked again after every invalid answer, and has ended either
    on a no, leaving the files untouched, or on a yes: then that same model
    (not one refitted on all rows) is in the file
    [os.path.join(directory, name)] made of the two stripped lines that
    followed the yes; the directory is there, created with the directories
    that lead to it if it did not exist, nothing else has changed, and the
    path of the file does not end in a separator, [.] or [..]. *)
Theorem saved_model_is_the_evaluated_one fuel w w' :
  linear_regression_model sk score_type fuel w = (Val tt, w') ->
  exists line rest X_test y_test g lr_model y_pred adjusted_r2 bad answer,
    evaluated sk w line rest X_test y_test g lr_model y_pred /\
    adjusted_r2_score score_type (r2_score sk y_test y_pred)
      (Z.of_nat (length y_test)) (shape1 X_test) = Val adjusted_r2 /\
    Forall invalid_answer bad /\
    let told := EInput file_prompt :: printed_scores sk y_test y_pred adjusted_r2
                ++ asked_again bad ++ [EInput save_prompt] in
    (is_no (lower (strip answer)) = true /\
     rest = bad ++ answer :: stdin w' /\ fs w' = fs w /\
     log w' = log w ++ told ++ [EPrint MsgEndOfAnalysis]) \/
    (is_yes (lower (strip answer)) = true /\
     exists name_line directory_line files,
       rest = bad ++ answer :: name_line :: directory_line :: stdin w' /\
       let save_directory := strip directory_line in
       let full_path := path_join save_directory (strip name_line) in
       save_directory <> "" /\ names_directory full_path = false /\
       directories_made save_directory (fs w) files /\
       files !! save_directory <> None /\
       fs w' = <[full_path := JoblibFile lr_model]> files /\
       log w' = log w ++ told
                ++ [EInput name_prompt; EInput directory_prompt]
                ++ (if bool_decide (is_Some (fs w !! save_directory)) then []
                    else [EPrint (MsgCreatingDirectory save_directory);
                          EMakedirs save_directory])
                ++ [EDump lr_model full_path;
                    EPrint (MsgModelSaved (strip name_line) save_directory)]).
Proof.
  intros H.
  apply linear_regression_model_outcome in H
    as [(_ & [=] & _) | (line & rest & Hstdin & H)].
  cbn zeta in H.
  destruct H as [(_ & [=] & _) | [((e & [=]) & _) | (X_test & y_test & g & lr_model & y_pred & E & H)]].
  cbn zeta in H.
  destruct (adjusted_r2_score score_type _ _ _) as [adjusted_r2|e|] eqn:Hadj;
    [|destruct H as [[=] _] ..].
  apply save_dialogue_outcome in H as (bad & tl & Hrest & Hbad & _ & Hcases).
  cbn [fs stdin rng log] in *. cbn zeta in Hcases.
  destruct Hcases as [([=] & _) | [(_ & [=] & _) | (answer & rest' & -> & Hcases)]].
  exists line, rest, X_test, y_test, g, lr_model, y_pred, adjusted_r2, bad, answer.
  split; [exact E|]. split; [exact Hadj|]. split; [exact Hbad|].
  cbn zeta in *. destruct Hcases as [(_ & Hno & _ & ->) | (Hyes & Hsave)].
  - left. split; [exact Hno|]. cbn [fs stdin rng log logged].
    split; [exact Hrest|]. split; [reflexivity|]. cbn. rewrite <- !app_assoc. reflexivity.
  - right. split; [exact Hyes|].
    apply save_model_file_outcome in Hsave as [([=] & _) | (name_line & directory_line & Hin & Hsave)].
    cbn [fs stdin rng log] in *.
    exists name_line, directory_line, (with_directory (strip directory_line) (fs w)).
    subst rest'. split; [exact Hrest|]. cbn zeta in *.
    destruct Hsave
      as [([e [=]] & _) | (Hne & Hthere & [([e [=]] & _) | (Hname & _ & Hfs & Hlog)])].
    split; [exact Hne|]. split; [exact Hname|]. split; [apply with_directory_made|].
    split; [exact Hthere|]. split; [exact Hfs|]. rewrite Hlog. cbn. rewrite <- !app_assoc.
    reflexivity.
Qed.

(** The script, once the model is fitted and the held-out part predicted. *)
Lemma linear_regression_model_evaluated
    fuel w line rest X_test y_test g lr_model y_pred :
  evaluated sk w line rest X_test y_test g lr_model y_pred ->
  let r2 := r2_score sk y_test y_pred in
  let scored := {| fs := fs w; stdin := rest; rng := g;
                   log := log w ++ [EInput file_prompt; EPrint (MsgR2 r2)] |} in
  linear_regression_model sk score_type fuel w =
  match adjusted_r2_score score_type r2 (Z.of_nat (length y_test)) (shape1 X_test) with
  | Val adjusted_r2 =>
    save_dialogue fuel lr_model
      {| fs := fs w; stdin := rest; rng := g;
         log := log w ++ EInput file_prompt :: printed_scores sk y_test y_pred adjusted_r2 |}
  | Raise e => (Raise e, scored)
  | OutOfFuel => (OutOfFuel, scored)
  end.
Proof.
  intros [Hstdin Hne (t & data & y & X_train & y_train & Hfile & Hread & Hy & Hsplit & Hfit)
            Hpred] r2 scored.
  unfold linear_regression_model.
  rewrite (script_bind_eq _ _ _ _ _ (script_input_line _ _ _ _ Hstdin)).
  unfold bind at 1, path_exists at 1. cbn [fs stdin rng log].
  rewrite (bool_decide_eq_true_2 _ Hne), Hfile, bool_decide_eq_true_2 by eauto.
  cbn [andb negb].
  erewrite script_bind_eq
    by (unfold read_csv_file; cbn [fs];
        rewrite (bool_decide_eq_false_2 _ Hne), Hfile, Hread; reflexivity).
  rewrite Hy. cbn [or_raise]. unfold ret at 1, bind at 1.
  unfold bind at 1, split at 1. cbn [fs stdin rng log]. rewrite Hsplit.
  rewrite Hfit. cbn [or_raise]. unfold ret at 1, bind at 1.
  rewrite Hpred. cbn [or_raise]. unfold ret at 1, bind at 1.
  unfold print at 1, emit at 1, bind at 1 2, lift at 1. cbn [fs stdin rng log logged].
  fold r2. destruct (adjusted_r2_score score_type r2 _ _) as [adjusted_r2|e|].
  - unfold print, emit, bind. cbn [fs stdin rng log logged].
    f_equal. unfold logged, printed_scores. cbn [fs stdin rng log]. fold r2.
    rewrite <- !app_assoc. reflexivity.
  - subst scored. unfold logged. cbn [fs stdin rng log]. rewrite <- app_assoc. reflexivity.
  - subst scored. unfold logged. cbn [fs stdin rng log]. rewrite <- app_assoc. reflexivity.
Qed.

(** X20: when the held-out part has exactly one row more than there are
    features, the denominator [n - k - 1] of the adjusted R² is zero: with
    scores that are Python floats the script stops with a
    [ZeroDivisionError] right after printing R², before any question and
    with nothing saved; with [numpy.float64] scores it goes on, and the
    adjusted R² it prints is infinite or NaN. *)
Theorem hold_out_of_one_row_more_than_features
    fuel w line rest X_test y_test g lr_model y_pred k :
  evaluated sk w line rest X_test y_test g lr_model y_pred ->
  Z.of_nat (length y_test) = shape1 X_test + 1 ->
  of_int (shape1 X_test) = Some k ->
  let r2 := r2_score sk y_test y_pred in
  match score_type with
  | PythonFloat =>
    linear_regression_model sk score_type fuel w
    = (Raise ZeroDivisionError,
       {| fs := fs w; stdin := rest; rng := g;
          log := log w ++ [EInput file_prompt; EPrint (MsgR2 r2)] |})
  | NumpyFloat64 =>
    exists adjusted_r2,
      is_finite adjusted_r2 = false /\
      linear_regression_model sk score_type fuel w
      = save_dialogue fuel lr_model
          {| fs := fs w; stdin := rest; rng := g;
             log := log w ++ EInput file_prompt
                      :: printed_scores sk y_test y_pred adjusted_r2 |}
  end.
Proof.
  intros E Hn Hk r2.
  pose proof (linear_regression_model_evaluated fuel _ _ _ _ _ _ _ _ E) as H.
  cbn zeta in H. fold r2 in H.
  assert (Hadj : adjusted_r2_score score_type r2 (Z.of_nat (length y_test)) (shape1 X_test)
                 = match score_type with
                   | PythonFloat => Raise ZeroDivisionError
                   | NumpyFloat64 =>
                     Val (sub one (div (mul (sub one r2) k) (S754_zero false)))
                   end).
  { unfold adjusted_r2_score, true_divide.
    replace (Z.of_nat (length y_test) - 1) with (shape1 X_test) by lia.
    replace (Z.of_nat (length y_test) - shape1 X_test - 1) with 0 by lia.
    rewrite Hk. change (of_int 0) with (Some (S754_zero false)). cbn [is_zero].
    destruct score_type; reflexivity. }
  rewrite Hadj in H. destruct score_type; [exact H|].
  eexists. split; [|exact H].
  destruct (mul (sub one r2) k) as [s|s| |s m e]; try destruct s; reflexivity.
Qed.

(* --------------------------------------------------------------------- *)
(** ** rfe_linear_regression_feature_selection.py *)
(* --------------------------------------------------------------------- *)

Local Abbreviation rfe_script :=
  (rfe_linear_regression_feature_selection (Model := Model) (Rng := Rng) rfe_linear_support).

(** The outcomes of the script. *)
Lemma rfe_script_outcome w r w' :
  rfe_script w = (r, w') ->
  ((exists e, r = Raise e) /\ fs w' = fs w /\
   exists evs, log w' = log w ++ evs /\
               Forall (fun e => match e with EToCsv _ _ | EMakedirs _ | EDump _ _ => False
                                | _ => True end) evs) \/
  exists line rest t data y mask,
    stdin w = line :: rest /\
    strip line <> "" /\ fs w !! strip line = Some (CsvFile t) /\
    read_csv t = Some data /\ iloc_target data = Some y /\
    rfe_linear_support (iloc_features data) y rfe_step n_features_to_select = Some mask /\
    length mask = length (iloc_features data) /\
    let selected_features := mask_filter mask (columns (iloc_features data)) in
    let final_data :=
      setitem (loc_columns (iloc_features data) selected_features) "target" y in
    let ranked := [EInput csv_prompt;
                   ERfe (iloc_features data) y rfe_step n_features_to_select;
                   EPrint (MsgSelectedFeatures selected_features);
                   EInput save_path_prompt] in
    (rest = [] /\ r = Raise EOFError /\ fs w' = fs w /\ log w' = log w ++ ranked) \/
    exists save_line,
      rest = save_line :: stdin w' /\
      let save_path := strip save_line in
      let written := ranked ++ [EToCsv final_data save_path] in
      ((exists e, r = Raise e) /\ fs w' = fs w /\ log w' = log w ++ written) \/
      (save_path <> "" /\ names_directory save_path = false /\ r = Val tt /\
       fs w' = <[save_path := CsvFile (to_csv final_data false)]> (fs w) /\
       log w' = log w ++ written ++ [EPrint (MsgFileSaved save_path)]).
Proof.
  unfold rfe_linear_regression_feature_selection. intros H.
  assert (Hquiet1 : forall (e : Exn) (evs : list (Event Model)) w0,
            Forall (fun e => match e with EToCsv _ _ | EMakedirs _ | EDump _ _ => False
                             | _ => True end) evs ->
            fs w0 = fs w -> log w0 = log w ++ evs ->
            (exists e0, Raise (A := unit) e = Raise e0) /\ fs w0 = fs w /\
            exists evs0, log w0 = log w ++ evs0 /\
              Forall (fun e => match e with EToCsv _ _ | EMakedirs _ | EDump _ _ => False
                               | _ => True end) evs0) by eauto 10.
  destruct (stdin w) as [|line rest] eqn:Hstdin.
  { left. rewrite (script_bind_stop _ _ _ _ _ (script_input_eof _ _ Hstdin)) in H.
    injection H as <- <-. apply (Hquiet1 _ [EInput csv_prompt]); auto. }
  rewrite (script_bind_eq _ _ _ _ _ (script_input_line _ _ _ _ Hstdin)) in H.
  set (asked := {| fs := fs w; stdin := rest; rng := rng w;
                   log := log w ++ [EInput csv_prompt] |}) in *.
  assert (Hread : (exists e, read_csv_file (strip line) asked = (Raise e, asked)) \/
                  exists t data, strip line <> "" /\ fs w !! strip line = Some (CsvFile t) /\
                                 read_csv t = Some data /\
                                 read_csv_file (strip line) asked = (Val data, asked)).
  { unfold read_csv_file. cbn [fs asked].
    destruct (decide (strip line = "")) as [Hempty|Hne].
    - rewrite (bool_decide_eq_true_2 _ Hempty). eauto.
    - rewrite (bool_decide_eq_false_2 _ Hne).
      destruct (fs w !! strip line) as [[| t | |]|]; try (left; eexists; reflexivity).
      destruct (read_csv t) as [data|] eqn:Hr; cbn; eauto 10. }
  destruct Hread as [(e & Hread) | (t & data & Hne & Hfile & Hread & Hval)].
  { left. rewrite (script_bind_stop _ _ _ _ _ Hread) in H. injection H as <- <-.
    apply (Hquiet1 _ [EInput csv_prompt]); auto. }
  rewrite (script_bind_eq _ _ _ _ _ Hval) in H. clear Hval. subst asked.
  destruct (iloc_target data) as [y|] eqn:Hy; cbn [or_raise] in H.
  2:{ left. unfold raise, bind in H. injection H as <- <-.
      apply (Hquiet1 _ [EInput csv_prompt]); auto. }
  unfold ret at 1, bind at 1, emit at 1, bind at 1 in H.
  destruct (rfe_linear_support (iloc_features data) y rfe_step n_features_to_select)
    as [mask|] eqn:Hrfe; cbn [or_raise] in H.
  2:{ left. unfold raise, bind in H. injection H as <- <-.
      apply (Hquiet1 _ [EInput csv_prompt; ERfe (iloc_features data) y rfe_step
                                                n_features_to_select]);
        [repeat constructor | reflexivity | cbn; rewrite <- app_assoc; reflexivity]. }
  unfold ret at 1, bind at 1 in H. unfold mask_index in H.
  destruct (decide (length mask = length (columns (iloc_features data)))) as [Hlen|Hlen];
    cbn [or_raise] in H.
  2:{ left. unfold raise, bind in H. injection H as <- <-.
      apply (Hquiet1 _ [EInput csv_prompt; ERfe (iloc_features data) y rfe_step
                                                n_features_to_select]);
        [repeat constructor | reflexivity | cbn; rewrite <- app_assoc; reflexivity]. }
  unfold ret at 1, bind at 1, print at 1, emit at 1, bind at 1 in H.
  cbn [fs stdin rng log logged] in H.
  right. exists line, rest, t, data, y, mask.
  split; [reflexivity|]. split; [exact Hne|]. split; [exact Hfile|]. split; [exact Hread|].
  split; [exact Hy|]. split; [exact Hrfe|].
  split; [unfold columns in Hlen; rewrite length_fmap in Hlen; exact Hlen|].
  cbn zeta.
  set (selected_features := mask_filter mask (columns (iloc_features data))) in *.
  set (final_data := setitem _ "target" y) in *.
  destruct rest as [|save_line rest'].
  { left. erewrite script_bind_stop in H by (apply script_input_eof; reflexivity).
    injection H as <- <-. cbn. rewrite <- !app_assoc. auto. }
  right. exists save_line.
  erewrite script_bind_eq in H by (apply script_input_line; reflexivity).
  unfold to_csv_file in H.
  match type of H with
  | context [write_file ?ev ?p ?c] =>
    match type of H with
    | bind _ _ ?x = _ =>
      destruct (script_write_file_outcome ev p c x) as [(Hpath & Hname & E)|(e & E)]
    end
  end.
  - rewrite (script_bind_eq _ _ _ _ _ E) in H. unfold print, emit, logged in H.
    injection H as <- <-. cbn [fs stdin rng log]. split; [reflexivity|]. right.
    rewrite <- !app_assoc. auto.
  - rewrite (script_bind_stop _ _ _ _ _ E) in H. injection H as <- <-.
    unfold logged. cbn [fs stdin rng log]. split; [reflexivity|]. left.
    rewrite <- !app_assoc. eauto.
Qed.

(** X21: the script does not check its path: when the first line,
    stripped, names no file, [pd.read_csv] raises [FileNotFoundError] and
    the script stops there, the second prompt unasked; and whatever makes a
    run fail, a failed run has changed no file. *)
Theorem failed_rfe_script_writes_nothing w r w' :
  rfe_script w = (r, w') ->
  (forall line rest,
     stdin w = line :: rest -> strip line = "" \/ fs w !! strip line = None ->
     r = Raise FileNotFoundError /\
     w' = {| fs := fs w; stdin := rest; rng := rng w;
             log := log w ++ [EInput csv_prompt] |}) /\
  (r <> Val tt -> (exists e, r = Raise e) /\ fs w' = fs w).
Proof.
  intros H. split.
  - intros line rest Hstdin Hmissing.
    unfold rfe_linear_regression_feature_selection in H.
    rewrite (script_bind_eq _ _ _ _ _ (script_input_line _ _ _ _ Hstdin)) in H.
    erewrite script_bind_stop in H; [injection H as <- <-; split; reflexivity|].
    unfold read_csv_file. cbn [fs].
    destruct Hmissing as [-> | Hnone]; [reflexivity|].
    rewrite Hnone. destruct (bool_decide _); reflexivity.
  - intros Hr. apply rfe_script_outcome in H
      as [(He & Hfs & _) | (line & rest & t & data & y & mask & _ & _ & _ & _ & _ & _ & _ & H)];
      [auto|].
    cbn zeta in H. destruct H as [(_ & -> & Hfs & _) | (save_line & _ & H)]; [eauto|].
    cbn zeta in H.
    destruct H as [(He & Hfs & _) | (_ & _ & -> & _)]; [auto | contradiction].
Qed.




Section LinearRanking.

(** The ranking keeps as many features as it is asked for, and all of them
    when it is asked for more than there are. *)
Hypothesis rfe_linear_keeps :
  forall X y step n mask,
    rfe_linear_support X y step n = Some mask ->
    Z.of_nat (count_true mask) = Z.min n (shape1 X).


End LinearRanking.

End ScriptProperties.

(* ===================================================================== *)
(** * Runs on the test doubles *)
(* ===================================================================== *)

Lemma stub_seeded_split (score : Series -> Series -> float)
    (ranking : DataFrame -> Series -> Z -> Z -> option (list bool)) :
  forall X y test_size seed g g',
    (train_test_split (Stub.sk score ranking) X y test_size (Some seed) g).1
    = (train_test_split (Stub.sk score ranking) X y test_size (Some seed) g').1.
Proof.
  intros X y test_size seed g g'. cbn. unfold Stub.split_first.
  destruct (length y <=? 1)%nat; reflexivity.
Qed.

Lemma stub_split_holds_out (score : Series -> Series -> float)
    (ranking : DataFrame -> Series -> Z -> Z -> option (list bool)) :
  forall X y test_size seed g X_train X_test y_train y_test g',
    train_test_split (Stub.sk score ranking) X y test_size seed g
      = (Some (X_train, X_test, y_train, y_test), g') ->
    (length y_train < length y)%nat.
Proof.
  intros X y test_size seed g X_train X_test y_train y_test g'. cbn. unfold Stub.split_first.
  set (k := match seed with Some _ => 1%nat | None => S (g `mod` 2) end).
  assert (Hk : (1 <= k)%nat) by (subst k; destruct seed; lia).
  destruct (Nat.leb_spec (length y) k); [discriminate|].
  intros [= _ _ <- _ _]. rewrite length_drop. lia.
Qed.

Lemma count_true_replicate (n k : nat) :
  count_true (replicate n true ++ replicate k false) = n.
Proof.
  induction n as [|n IH]; cbn.
  - induction k as [|k IHk]; cbn; [reflexivity | exact IHk].
  - rewrite IH. reflexivity.
Qed.

Lemma stub_rfe_selects (score : Series -> Series -> float) :
  forall X y step n mask,
    rfe_support (Stub.sk score Stub.keep_leading) X y step n = Some mask ->
    Z.of_nat (count_true mask) = n.
Proof.
  intros X y step n mask. cbn. unfold Stub.keep_leading.
  destruct (Z.leb_spec 1 step); [|discriminate].
  destruct (Z.leb_spec 1 n); [|discriminate].
  destruct (Z.leb_spec n (shape1 X)); [|discriminate]. cbn.
  intros [= <-]. rewrite count_true_replicate. lia.
Qed.

Lemma stub_rfe_keeps (score : Series -> Series -> float) :
  forall X y step n mask,
    rfe_support (Stub.sk score Stub.keep_leading) X y step n = Some mask ->
    Z.of_nat (count_true mask) = Z.min n (shape1 X).
Proof.
  intros X y step n mask H. rewrite (stub_rfe_selects score X y step n mask H).
  cbn in H. unfold Stub.keep_leading in H.
  destruct (Z.leb_spec 1 step); [|discriminate].
  destruct (Z.leb_spec 1 n); [|discriminate].
  destruct (Z.leb_spec n (shape1 X)); [|discriminate]. lia.
Qed.

Lemma distinct_header (t : Table) : bool_decide (NoDup (header t)) = true -> NoDup (header t).
Proof. apply bool_decide_eq_true. Qed.

Lemma no_target_feature (t : Table) :
  bool_decide ("target" ∉ take (length (header t) - 1) (header t)) = true ->
  "target" ∉ take (length (header t) - 1) (header t).
Proof. apply bool_decide_eq_true. Qed.

(* --------------------------------------------------------------------- *)
(** ** One feature and a minimum of zero *)
(* --------------------------------------------------------------------- *)

Lemma one_feature_selection (data : DataFrame) (w : World Stub.Model Stub.Rng) :
  data = Stub.frame_a \/ data = Stub.frame_a_target ->
  feature_selection Stub.sk_width data 1 1 w
  = (Val (Stub.frame_a_target, ["a"]),
     Stub.logged w [ERfe [Stub.column_a] Stub.values_y 1 1]).
Proof. intros [-> | ->]; reflexivity. Qed.

Lemma one_feature_train (w : World Stub.Model Stub.Rng) :
  exists model metrics,
    train_model Stub.sk_width Stub.frame_a_target w = (Val (model, metrics), Stub.logged w []).
Proof. eexists _, _. unfold Stub.logged. rewrite app_nil_r. reflexivity. Qed.

Lemma one_feature_loop (fuel : nat) :
  forall data mm it (w : World Stub.Model Stub.Rng),
    data = Stub.frame_a \/ data = Stub.frame_a_target ->
    exists evs,
      selection_loop Stub.sk_width fuel 1 1 0 data mm it 1 w = (OutOfFuel, Stub.logged w evs) /\
      rfe_calls evs = fuel /\
      ((1 <= fuel)%nat -> ERfe [Stub.column_a] Stub.values_y 1 1 ∈ evs).
Proof.
  induction fuel as [|fuel IH]; intros data mm it w Hdata.
  - exists []. cbn. unfold out_of_fuel, Stub.logged. rewrite app_nil_r.
    destruct w; repeat split. lia.
  - cbn [selection_loop]. unfold print at 1.
    rewrite (bind_eq_val _ _ w tt (Stub.logged w [EPrint (MsgSelectionIteration it)]))
      by reflexivity.
    change (1 <=? 0)%Z with false. cbv iota.
    rewrite (bind_eq_val _ _ _ _ _ (one_feature_selection data _ Hdata)).
    cbv beta iota zeta. unfold print at 1 2.
    set (w1 := Stub.logged _ _).
    rewrite (bind_eq_val _ _ w1 tt (Stub.logged w1 [EPrint (MsgSelected 1 ["a"])]))
      by reflexivity.
    set (w2 := Stub.logged w1 _).
    rewrite (bind_eq_val _ _ w2 tt (Stub.logged w2 [EPrint (MsgTrainingIteration it)]))
      by reflexivity.
    set (w3 := Stub.logged w2 _).
    destruct (one_feature_train w3) as (model & metrics & Htrain).
    rewrite (bind_eq_val _ _ _ _ _ Htrain). cbv beta iota zeta.
    destruct (IH Stub.frame_a_target
                (mm ++ [(iteration_name it, metrics, Stub.frame_a_target)]) (S it)
                (Stub.logged w3 []) (or_intror eq_refl)) as (evs & Hloop & Hcalls & _).
    change (Z.of_nat (length ["a"])) with 1. rewrite Hloop.
    exists ([EPrint (MsgSelectionIteration it); ERfe [Stub.column_a] Stub.values_y 1 1;
             EPrint (MsgSelected 1 ["a"]); EPrint (MsgTrainingIteration it)] ++ evs).
    split; [|split].
    + f_equal. subst w3 w2 w1. unfold Stub.logged. cbn. rewrite <- !app_assoc. reflexivity.
    + cbn. rewrite <- Hcalls. reflexivity.
    + intros _. right. left.
Qed.

Lemma one_feature_run (fuel : nat) (answers : list string) (g : Stub.Rng) :
  exists w',
    Stub.run Stub.score_width Stub.keep_leading Stub.table_a answers g fuel 1 1 0 "out"
      = (OutOfFuel, w') /\
    rfe_calls (log w') = fuel /\
    ((1 <= fuel)%nat -> ERfe [Stub.column_a] Stub.values_y 1 1 ∈ log w').
Proof.
  unfold Stub.run, optimize_model.
  rewrite (bind_eq_val _ _ _ true (Stub.world Stub.table_a answers g)) by reflexivity.
  cbv beta iota delta [negb].
  rewrite (bind_eq_val _ _ _ Stub.frame_a (Stub.world Stub.table_a answers g)) by reflexivity.
  cbv beta zeta. unfold print at 1 2.
  set (w0 := Stub.world Stub.table_a answers g).
  rewrite (bind_eq_val _ _ w0 tt (Stub.logged w0 [EPrint (MsgInitialCount 1)])) by reflexivity.
  set (w1 := Stub.logged w0 _).
  rewrite (bind_eq_val _ _ w1 tt (Stub.logged w1 [EPrint MsgTrainingInitial])) by reflexivity.
  set (w2 := Stub.logged w1 _).
  assert (Htrain : exists model metrics,
            train_model Stub.sk_width Stub.frame_a w2 = (Val (model, metrics), Stub.logged w2 []))
    by (eexists _, _; reflexivity).
  destruct Htrain as (model & metrics & Htrain).
  fold Stub.sk_width. rewrite (bind_eq_val _ _ _ _ _ Htrain). cbv beta iota zeta.
  destruct (one_feature_loop fuel Stub.frame_a
              [(initial_model_name, metrics, Stub.frame_a)] 1%nat
              (Stub.logged w2 []) (or_introl eq_refl)) as (evs & Hloop & Hcalls & Hfirst).
  change (shape1 Stub.frame_a - 1) with 1.
  unfold bind at 1. rewrite Hloop. eexists. split; [reflexivity|].
  cbn [log Stub.logged]. split.
  - subst w2 w1 w0. cbn. exact Hcalls.
  - intros H. apply elem_of_app. right. auto.
Qed.

(** C2, on the failing input: with four feature columns,
    [remove_count = 2] and [min_features = 0], under a ranking that, as
    [RFE.fit] does, refuses a frame of a single column, the passes leave two
    features and then one; the loop does not stop there, begins a third
    iteration and calls the ranking a third time, which fails: the run ends
    in a [RankingError] after three ranking calls, one more than the bound
    [ceil((4 - 0) / 2) = 2] of the claim. *)
Theorem zero_minimum_exceeds_the_bound (fuel : nat) :
  exists w',
    Stub.run Stub.score_width Stub.rfe_leading Stub.table_abcd ["no"] 0%nat
             (3 + fuel) 1 2 0 "out"
      = (Raise RankingError, w') /\
    rfe_calls (log w') = 3%nat /\
    selected_counts (log w') = [2; 1] /\
    ceil_div (4 - 0) 2 = 2.
Proof.
  eexists. split; [vm_compute; reflexivity|]. repeat split.
Qed.

(** C3, on the failing input: with one feature column and
    [min_features = 0], a run given any positive fuel has asked the ranking
    collaborator for one feature of the single feature column, and has not
    returned the baseline (it has not returned at all). *)
Theorem one_feature_zero_minimum_ranks (fuel : nat) :
  exists w',
    Stub.run Stub.score_width Stub.keep_leading Stub.table_a ["no"] 0%nat (S fuel) 1 1 0 "out"
      = (OutOfFuel, w') /\
    ERfe [Stub.column_a] Stub.values_y 1 1 ∈ log w'.
Proof.
  destruct (one_feature_run (S fuel) ["no"] 0%nat) as (w' & Hrun & _ & Hfirst).
  exists w'. split; [exact Hrun|]. apply Hfirst. lia.
Qed.

(* --------------------------------------------------------------------- *)
(** ** Concrete runs *)
(* --------------------------------------------------------------------- *)

(** C1, as stated, fails: the baseline of this run has R² = NaN and the
    first iteration R² = 1.0; the scan keeps the baseline, whose R² is not
    greater than or equal to the iteration's. *)
Lemma nan_baseline_is_kept :
  exists s w',
    Stub.run Stub.score_nan_at_2 Stub.keep_leading Stub.table_ab ["no"] 0%nat 5 1 1 1 "out"
      = (Val (Some s), w') /\
    rec_name (best_model s) = initial_model_name /\
    exists x, models_metrics s !! 1%nat = Some x /\
              geb (r2_key (best_model s)) (r2_key x) = false.
Proof.
  eexists _, _. split; [vm_compute; reflexivity|]. split; [reflexivity|].
  eexists. split; reflexivity.
Qed.

(** A run in which all three recorded R² are equal: the baseline wins. *)
Lemma best_model_is_first_maximum_witness :
  exists s w',
    Stub.run Stub.score_half Stub.keep_leading Stub.table_abc ["no"] 0%nat 5 1 1 1 "out"
      = (Val (Some s), w') /\
    Forall (fun x => is_nan (r2_key x) = false) (models_metrics s) /\
    (exists metrics0 data0,
       head (models_metrics s) = Some (initial_model_name, metrics0, data0)) /\
    exists i,
      models_metrics s !! i = Some (best_model s) /\
      forall j x, models_metrics s !! j = Some x ->
        geb (r2_key (best_model s)) (r2_key x) = true /\
        (eqb (r2_key x) (r2_key (best_model s)) = true -> (i <= j)%nat).
Proof.
  eexists _, _. split; [vm_compute; reflexivity|]. split; [repeat constructor|].
  eapply (best_model_is_first_maximum (Stub.sk Stub.score_half Stub.keep_leading)
            5 "data.csv" 1 1 1 "out" (Stub.world Stub.table_abc ["no"] 0%nat));
    [vm_compute; reflexivity | repeat constructor].
Defined.

(** Two runs on the same file that differ in fuel, save directory, answer
    and ambient generator. *)
Lemma runs_are_deterministic_witness :
  exists s1 w1' s2 w2',
    Stub.run Stub.score_width Stub.keep_leading Stub.table_abc ["yes"] 0%nat 5 1 1 1 "out"
      = (Val (Some s1), w1') /\
    Stub.run Stub.score_width Stub.keep_leading Stub.table_abc ["no"] 7%nat 9 1 1 1 "elsewhere"
      = (Val (Some s2), w2') /\
    models_metrics s1 = models_metrics s2 /\ best_model s1 = best_model s2.
Proof.
  eexists _, _, _, _. split; [vm_compute; reflexivity|]. split; [vm_compute; reflexivity|].
  eapply (runs_are_deterministic (Stub.sk Stub.score_width Stub.keep_leading)
            (stub_seeded_split _ _) 5 9 "data.csv" 1 1 1 "out" "elsewhere"
            (Stub.world Stub.table_abc ["yes"] 0%nat)
            (Stub.world Stub.table_abc ["no"] 7%nat));
    [reflexivity | vm_compute; reflexivity | vm_compute; reflexivity].
Defined.

(** C6, as stated, fails: when the baseline wins, the written CSV carries
    the original name of the target column, here [y], and has no column
    named [target]. *)
Lemma baseline_csv_has_no_target_column :
  exists s w' table,
    Stub.run Stub.score_width Stub.keep_leading Stub.table_a ["no"] 0%nat 5 1 1 1 "out"
      = (Val (Some s), w') /\
    fs w' !! best_features_file s = Some (CsvFile table) /\
    header table = ["a"; "y"] /\
    "target" ∉ header table.
Proof.
  eexists _, _, _. split; [vm_compute; reflexivity|]. split; [vm_compute; reflexivity|].
  split; [reflexivity|]. cbn. intros H. repeat (apply elem_of_cons in H as [[=] | H]).
  apply elem_of_nil in H. exact H.
Qed.

(** A run in which the second iteration wins. *)
Lemma features_csv_round_trip_witness :
  exists s w',
    Stub.run Stub.score_narrow Stub.keep_leading Stub.table_abc ["no"] 0%nat 5 1 1 1 "out"
      = (Val (Some s), w') /\
    rec_name (best_model s) = iteration_name 2 /\
    ("target" ∉ take (length (header Stub.table_abc) - 1) (header Stub.table_abc)) /\
    exists data0 tname0 y0 features,
      read_csv Stub.table_abc = Some data0 /\
      last data0 = Some (tname0, y0) /\
      best_features_file s
        = path_join "out" (features_file_name (rec_name (best_model s))) /\
      fs w' !! best_features_file s
        = Some (CsvFile (to_csv (rec_data (best_model s)) false)) /\
      header (to_csv (rec_data (best_model s)) false) = columns (rec_data (best_model s)) /\
      rec_data (best_model s)
        = features ++ [(if decide (rec_name (best_model s) = initial_model_name)
                        then tname0 else "target", y0)] /\
      sublist features (iloc_features data0) /\
      read_csv (to_csv (rec_data (best_model s)) false) = Some (rec_data (best_model s)).
Proof.
  assert (Hnt : "target" ∉ take (length (header Stub.table_abc) - 1) (header Stub.table_abc))
    by (apply no_target_feature; vm_compute; reflexivity).
  eexists _, _. split; [vm_compute; reflexivity|]. split; [reflexivity|].
  split; [exact Hnt|].
  eapply (features_csv_round_trip (Stub.sk Stub.score_narrow Stub.keep_leading)
            5 "data.csv" 1 1 1 "out" (Stub.world Stub.table_abc ["no"] 0%nat));
    [vm_compute; reflexivity | reflexivity | exact Hnt].
Defined.

(** C7, as stated, fails: where the path of the model file is a directory,
    the run that is told yes stops at the dump and leaves no feature-subset
    CSV, while the same run told no writes it: whether the CSV is written
    does depend on the answer, and a confirmed model is not always
    written.  Where the path of the CSV is a directory, the run told no
    fails at the write of the CSV. *)
Lemma failed_dump_leaves_no_features_csv :
  (exists w',
     optimize_model Stub.sk_width 5 "data.csv" 1 1 1 "out"
       (Stub.world_model_blocked Stub.table_a ["yes"]) = (Raise IOError, w') /\
     confirmed "yes" = true /\
     last (log w') = Some (EDump "out/best_model_initial_model.joblib") /\
     fs w' !! "out/best_model_initial_model.joblib" = Some Dir /\
     fs w' !! "out/best_features_initial_model.csv" = None) /\
  (exists s w',
     optimize_model Stub.sk_width 5 "data.csv" 1 1 1 "out"
       (Stub.world_model_blocked Stub.table_a ["no"]) = (Val (Some s), w') /\
     confirmed "no" = false /\
     best_features_file s = "out/best_features_initial_model.csv" /\
     fs w' !! "out/best_features_initial_model.csv"
       = Some (CsvFile (to_csv (rec_data (best_model s)) false))) /\
  (exists w',
     optimize_model Stub.sk_width 5 "data.csv" 1 1 1 "out"
       (Stub.world_blocked Stub.table_a ["no"]) = (Raise IOError, w') /\
     last (log w') = Some (EToCsv "out/best_features_initial_model.csv") /\
     fs w' !! "out/best_features_initial_model.csv" = Some Dir).
Proof.
  split; [|split].
  - eexists. split; [vm_compute; reflexivity|]. repeat split.
  - eexists _, _. split; [vm_compute; reflexivity|]. repeat split.
  - eexists. split; [vm_compute; reflexivity|]. repeat split.
Qed.

(** A confirmed run: the model is dumped, then the CSV is written. *)
Lemma features_always_model_if_confirmed_witness :
  let w := Stub.world Stub.table_abc [" YES "] 0%nat in
  exists s w' evs,
    optimize_model (Stub.sk Stub.score_width Stub.keep_leading) 5 "data.csv" 1 1 1 "out" w
      = (Val (Some s), w') /\
    head (stdin w) = Some " YES " /\ log w' = log w ++ evs /\ EInput input_prompt ∈ evs /\
    confirmed " YES " = true /\
    writes evs = [EDump (path_join "out" (model_file_name (rec_name (best_model s))));
                  EToCsv (path_join "out" (features_file_name (rec_name (best_model s))))] /\
    fs w' !! path_join "out" (model_file_name (rec_name (best_model s)))
      = Some (JoblibFile (final_model s)) /\
    fs w' !! path_join "out" (features_file_name (rec_name (best_model s)))
      = Some (CsvFile (to_csv (rec_data (best_model s)) false)).
Proof.
  intros w.
  eassert (Hrun : optimize_model (Stub.sk Stub.score_width Stub.keep_leading)
                    5 "data.csv" 1 1 1 "out" w = (Val (Some _), _))
    by (vm_compute; reflexivity).
  match type of Hrun with
  | _ = (Val (Some ?s), ?w') =>
    assert (Hlog : log w' = log w ++ log w') by reflexivity;
    assert (Hin : EInput input_prompt ∈ log w') by (cbn; repeat constructor);
    destruct (features_always_model_if_confirmed
                (Stub.sk Stub.score_width Stub.keep_leading)
                5 "data.csv" 1 1 1 "out" w (Val (Some s)) w' " YES " (log w')
                Hrun eq_refl Hlog Hin)
      as (best & model & y & _ & _ & _ & H);
    exists s, w', (log w')
  end.
  split; [exact Hrun|]. split; [reflexivity|]. split; [exact Hlog|]. split; [exact Hin|].
  split; [reflexivity|].
  destruct H as [((s' & [= <-] & <- & <- & _) & Hw & Hm & Hc)
                 | [([=] & _) | (_ & [=] & _)]].
  split; [exact Hw|]. split; [exact Hm | exact Hc].
Defined.

(** C8, as stated, fails: in this confirmed run the model is dumped first
    and the feature-subset CSV is written after it. *)
Lemma model_file_is_written_first :
  exists s w',
    Stub.run Stub.score_width Stub.keep_leading Stub.table_abc ["yes"] 0%nat 5 1 1 1 "out"
      = (Val (Some s), w') /\
    writes (log w') = [EDump "out/best_model_initial_model.joblib";
                       EToCsv "out/best_features_initial_model.csv"].
Proof. eexists _, _. split; [vm_compute; reflexivity | reflexivity]. Qed.

Lemma model_dumped_before_features_csv_witness :
  exists s w' evs,
    Stub.run Stub.score_width Stub.keep_leading Stub.table_abc ["y"] 0%nat 5 1 1 1 "out"
      = (Val (Some s), w') /\
    log w' = log (Stub.world Stub.table_abc ["y"] 0%nat) ++ evs /\
    writes evs = (if confirmed (save_model s) then [EDump (best_model_file s)] else [])
                 ++ [EToCsv (best_features_file s)].
Proof.
  destruct (model_dumped_before_features_csv
              (Stub.sk Stub.score_width Stub.keep_leading)
              5 "data.csv" 1 1 1 "out" (Stub.world Stub.table_abc ["y"] 0%nat) _ _
              ltac:(vm_compute; reflexivity)) as (evs & Hlog & Hwrites).
  eexists _, _, evs. split; [vm_compute; reflexivity|]. split; [exact Hlog | exact Hwrites].
Defined.

(** A missing dataset, and a ranking that fails. *)
Lemma aborted_run_leaves_no_files_witness :
  (exists w',
     optimize_model (Stub.sk Stub.score_width Stub.keep_leading) 5 "missing.csv" 1 1 1 "out"
       (Stub.world Stub.table_abc ["yes"] 0%nat) = (Val None, w') /\
     fs w' = fs (Stub.world Stub.table_abc ["yes"] 0%nat)) /\
  (exists w',
     Stub.run Stub.score_width Stub.no_ranking Stub.table_abc ["yes"] 0%nat 5 1 1 1 "out"
       = (Raise RankingError, w') /\
     fs w' = fs (Stub.world Stub.table_abc ["yes"] 0%nat)).
Proof.
  split.
  - eexists. split; [vm_compute; reflexivity|].
    exact (proj1 (proj2 (proj1 (aborted_run_leaves_no_files
             (Stub.sk Stub.score_width Stub.keep_leading) 5 "missing.csv" 1 1 1 "out"
             (Stub.world Stub.table_abc ["yes"] 0%nat) _ _ ltac:(vm_compute; reflexivity))
             (or_intror eq_refl)))).
  - eexists. split; [vm_compute; reflexivity|].
    exact (proj1 (proj2 (aborted_run_leaves_no_files
             (Stub.sk Stub.score_width Stub.no_ranking) 5 "data.csv" 1 1 1 "out"
             (Stub.world Stub.table_abc ["yes"] 0%nat) _ _ ltac:(vm_compute; reflexivity))
             eq_refl)).
Defined.

(** A confirmed run whose first iteration wins. *)
Lemma saved_model_is_refit_on_all_rows_witness :
  exists s w' y X_train y_train,
    Stub.run Stub.score_narrow Stub.keep_leading Stub.table_ab ["yes"] 0%nat 5 1 1 1 "out"
      = (Val (Some s), w') /\
    rec_name (best_model s) = iteration_name 1 /\
    iloc_target (rec_data (best_model s)) = Some y /\
    Stub.fit (iloc_features (rec_data (best_model s))) y = Some (final_model s) /\
    fs w' !! best_model_file s = Some (JoblibFile (final_model s)) /\
    (length y_train < length y)%nat /\
    (X_train, y_train) <> (iloc_features (rec_data (best_model s)), y).
Proof.
  destruct (saved_model_is_refit_on_all_rows
              (Stub.sk Stub.score_narrow Stub.keep_leading) (stub_split_holds_out _ _)
              5 "data.csv" 1 1 1 "out" (Stub.world Stub.table_ab ["yes"] 0%nat) _ _
              ltac:(vm_compute; reflexivity))
    as (y & X_train & X_test & y_train & y_test & g & g' & model & y_pred
        & Hy & Hfit & Hfile & _ & _ & _ & _ & Hlen & Hne).
  eexists _, _, y, X_train, y_train. split; [vm_compute; reflexivity|].
  split; [reflexivity|]. split; [exact Hy|].
  split; [exact Hfit|].
  split; [exact (Hfile eq_refl)|]. split; [exact Hlen | exact Hne].
Defined.

(** Three features, one removed per pass, a minimum of one: at most two
    ranking passes. *)
Lemma optimize_model_terminates_witness :
  let out := Stub.run Stub.score_width Stub.keep_leading Stub.table_abc ["no"] 0%nat
                      5 1 1 1 "out" in
  out.1 <> OutOfFuel /\
  exists evs,
    log out.2 = log (Stub.world Stub.table_abc ["no"] 0%nat) ++ evs /\
    Z.of_nat (rfe_calls evs) <= Z.max 0 (ceil_div (3 - 1) 1).
Proof.
  apply (optimize_model_terminates (Stub.sk Stub.score_width Stub.keep_leading)
           (stub_rfe_keeps _) 5 "data.csv" 1 1 1 "out"
           (Stub.world Stub.table_abc ["no"] 0%nat) Stub.table_abc);
    [lia | lia | reflexivity | vm_compute; lia].
Defined.

(** One feature and a minimum of one: no pass. *)
Lemma baseline_alone_when_minimum_reached_witness :
  exists s w' metrics0 data0,
    Stub.run Stub.score_width Stub.keep_leading Stub.table_a ["no"] 0%nat 5 1 1 1 "out"
      = (Val (Some s), w') /\
    read_csv Stub.table_a = Some data0 /\
    models_metrics s = [(initial_model_name, metrics0, data0)] /\
    best_model s = (initial_model_name, metrics0, data0).
Proof.
  destruct (baseline_alone_when_minimum_reached
              (Stub.sk Stub.score_width Stub.keep_leading)
              5 "data.csv" 1 1 1 "out" (Stub.world Stub.table_a ["no"] 0%nat) _ _ Stub.table_a
              ltac:(vm_compute; reflexivity) eq_refl ltac:(vm_compute; discriminate))
    as (metrics0 & data0 & Hread & Hmm & Hbest).
  eexists _, _, metrics0, data0. split; [vm_compute; reflexivity|]. auto.
Defined.

(* --------------------------------------------------------------------- *)
(** ** More concrete runs *)
(* --------------------------------------------------------------------- *)


(** No answer is pending: the run stops at the prompt, having created the
    two directories of [out/models]. *)
Lemma missing_answer_stops_at_prompt_witness :
  exists w',
    Stub.run Stub.score_width Stub.keep_leading Stub.table_abc [] 0%nat 5 1 1 1 "out/models"
      = (Raise EOFError, w') /\
    fs w' = <["out/models" := Dir]> (<["out" := Dir]> {[ "data.csv" := CsvFile Stub.table_abc ]}) /\
    fs w' !! "out/models" <> None /\
    directories_made "out/models" (fs (Stub.world Stub.table_abc [] 0%nat)) (fs w') /\
    exists evs, log w' = evs /\ last evs = Some (EInput input_prompt) /\ writes evs = [].
Proof.
  eexists. split; [vm_compute; reflexivity|]. split; [reflexivity|].
  destruct (missing_answer_stops_at_prompt (Stub.sk Stub.score_width Stub.keep_leading)
              5 "data.csv" 1 1 1 "out/models" (Stub.world Stub.table_abc [] 0%nat) _ _
              ltac:(vm_compute; reflexivity)) as [_ H].
  destruct (H eq_refl) as (_ & _ & Hthere & Hmade & evs & Hlog & Hlast & Hwrites).
  split; [exact Hthere|]. split; [exact Hmade|]. exists evs. auto.
Defined.

(** An empty save directory. *)
Lemma empty_save_dir_saves_nothing_witness :
  exists w',
    Stub.run Stub.score_width Stub.keep_leading Stub.table_abc ["yes"] 0%nat 5 1 1 1 ""
      = (Raise IOError, w') /\
    fs w' = {[ "data.csv" := CsvFile Stub.table_abc ]} /\ stdin w' = ["yes"].
Proof.
  eexists. split; [vm_compute; reflexivity|].
  destruct (empty_save_dir_saves_nothing (Stub.sk Stub.score_width Stub.keep_leading)
              5 "data.csv" 1 1 1 (Stub.world Stub.table_abc ["yes"] 0%nat) _ _
              ltac:(vm_compute; reflexivity)) as (_ & Hfs & Hin).
  split; [exact Hfs | exact Hin].
Defined.

(** The path of the CSV is a directory and the answer confirms: the model
    file stays. *)
Lemma failed_run_writes_at_most_the_model_witness :
  let w := Stub.world_blocked Stub.table_a ["yes"] in
  exists w',
    optimize_model Stub.sk_width 5 "data.csv" 1 1 1 "out" w = (Raise IOError, w') /\
    is_Some (fs w' !! "out/best_model_initial_model.joblib") /\
    fs w !! "out/best_model_initial_model.joblib" = None /\
    (directories_made "out" (fs w) (fs w') \/
     exists best model y answer files evs,
       IOError = IOError /\ head (stdin w) = Some answer /\ confirmed answer = true /\
       iloc_target (rec_data best) = Some y /\
       lr_fit Stub.sk_width (iloc_features (rec_data best)) y = Some model /\
       directories_made "out" (fs w) files /\
       fs w' = <[path_join "out" (model_file_name (rec_name best)) := JoblibFile model]> files /\
       log w' = log w ++ evs /\
       last evs = Some (EToCsv (path_join "out" (features_file_name (rec_name best))))).
Proof.
  intros w. eexists. split; [vm_compute; reflexivity|]. split; [vm_compute; eauto|].
  split; [reflexivity|].
  exact (failed_run_writes_at_most_the_model Stub.sk_width 5 "data.csv" 1 1 1 "out" w _ _
           ltac:(vm_compute; reflexivity)).
Defined.

(** Ten features, two removed per pass, a minimum of four: three passes. *)
Lemma candidates_are_labelled_in_order_witness :
  exists s w',
    Stub.run Stub.score_width Stub.keep_leading Stub.table_10 ["no"] 0%nat 10 1 2 4 "out"
      = (Val (Some s), w') /\
    rec_name <$> models_metrics s
      = ["initial_model"; "model_iteration_1"; "model_iteration_2"; "model_iteration_3"] /\
    exists evs,
      log w' = evs /\
      rec_name <$> models_metrics s
        = initial_model_name :: (iteration_name <$> seq 1 (rfe_calls evs)) /\
      length (models_metrics s) = S (rfe_calls evs) /\
      NoDup (rec_name <$> models_metrics s).
Proof.
  eexists _, _. split; [vm_compute; reflexivity|]. split; [vm_compute; reflexivity|].
  exact (candidates_are_labelled_in_order (Stub.sk Stub.score_width Stub.keep_leading)
           10 "data.csv" 1 2 4 "out" (Stub.world Stub.table_10 ["no"] 0%nat) _ _
           ltac:(vm_compute; reflexivity)).
Defined.

(** Both features are selected, the first of them named [target]: the
    frame returned ends with the feature [b]. *)
Lemma selected_feature_named_target_is_overwritten_witness :
  exists data' w',
    feature_selection Stub.sk_width Stub.frame_target_b 1 0 (Stub.world Stub.table_a [] 0%nat)
      = (Val (data', ["target"; "b"]), w') /\
    data' = [("target", [Stub.num 10; Stub.num 20]); ("b", [Stub.num 3; Stub.num 4])] /\
    exists y,
      iloc_target Stub.frame_target_b = Some y /\
      columns data' = ["target"; "b"] /\
      ("target", y) ∈ data' /\
      (forall c, c ∈ data' -> fst c <> "target" -> c ∈ iloc_features Stub.frame_target_b) /\
      (last ["target"; "b"] <> Some "target" ->
         exists c, c ∈ iloc_features Stub.frame_target_b /\ iloc_target data' = Some (snd c)).
Proof.
  eexists _, _. split; [vm_compute; reflexivity|]. split; [reflexivity|].
  apply (selected_feature_named_target_is_overwritten Stub.sk_width
           Stub.frame_target_b 1 0 (Stub.world Stub.table_a [] 0%nat) _ _ _
           ltac:(vm_compute; reflexivity)).
  - apply (bool_decide_unpack (NoDup (columns Stub.frame_target_b))). vm_compute. exact I.
  - left.
Defined.

(** The first iteration of a run on three features. *)
Lemma recorded_features_shrink_witness :
  exists s w' r1 r2,
    Stub.run Stub.score_width Stub.keep_leading Stub.table_abc ["no"] 0%nat 5 1 1 1 "out"
      = (Val (Some s), w') /\
    models_metrics s !! 0%nat = Some r1 /\ models_metrics s !! 1%nat = Some r2 /\
    columns (iloc_features (rec_data r1)) = ["a"; "b"; "c"] /\
    columns (iloc_features (rec_data r2)) = ["a"; "b"] /\
    sublist (iloc_features (rec_data r2)) (iloc_features (rec_data r1)) /\
    iloc_target (rec_data r2) = iloc_target (rec_data r1).
Proof.
  eexists _, _, _, _. split; [vm_compute; reflexivity|].
  split; [vm_compute; reflexivity|]. split; [vm_compute; reflexivity|].
  split; [reflexivity|]. split; [reflexivity|].
  apply (recorded_features_shrink (Stub.sk Stub.score_width Stub.keep_leading)
           5 "data.csv" 1 1 1 "out" (Stub.world Stub.table_abc ["no"] 0%nat) _ _
           Stub.table_abc ltac:(vm_compute; reflexivity) eq_refl
           ltac:(apply distinct_header; vm_compute; reflexivity)
           ltac:(apply no_target_feature; vm_compute; reflexivity) 0%nat);
    vm_compute; reflexivity.
Defined.

(** Ten features, two removed per pass, a minimum of four: the passes
    leave 8, 6 and 4 features, and there is no fourth ranking pass. *)
Lemma passes_are_counted_witness :
  exists s w',
    Stub.run Stub.score_width Stub.keep_leading Stub.table_10 ["no"] 0%nat 10 1 2 4 "out"
      = (Val (Some s), w') /\
    selected_counts (log w') = [8; 6; 4] /\
    rfe_calls (log w') = 3%nat /\
    exists evs,
      log w' = evs /\
      rfe_calls evs = Z.to_nat (ceil_div (10 - 4) 2) /\
      selected_counts evs
      = (fun i => Z.max 1 (10 - Z.of_nat i * 2)) <$> seq 1 (rfe_calls evs) /\
      length (models_metrics s) = S (rfe_calls evs).
Proof.
  eexists _, _. split; [vm_compute; reflexivity|]. split; [vm_compute; reflexivity|].
  split; [vm_compute; reflexivity|].
  exact (passes_are_counted (Stub.sk Stub.score_width Stub.keep_leading)
           (stub_rfe_keeps _) 10 "data.csv" 1 2 4 "out"
           (Stub.world Stub.table_10 ["no"] 0%nat) _ _ Stub.table_10
           ltac:(lia) ltac:(lia) ltac:(vm_compute; reflexivity) eq_refl
           ltac:(apply distinct_header; vm_compute; reflexivity)
           ltac:(apply no_target_feature; vm_compute; reflexivity)).
Defined.

(** One feature and a minimum of zero; three features and nothing removed
    per pass. *)
Lemma loop_without_exit_witness :
  (forall s w',
     Stub.run Stub.score_width Stub.keep_leading Stub.table_a ["no"] 0%nat 50 1 1 0 "out"
       <> (Val (Some s), w')) /\
  (forall s w',
     Stub.run Stub.score_width Stub.keep_leading Stub.table_abc ["no"] 0%nat 50 1 0 1 "out"
       <> (Val (Some s), w')).
Proof.
  split.
  - apply (loop_without_exit (Stub.sk Stub.score_width Stub.keep_leading)
             (stub_rfe_keeps _) 50 "data.csv" 1 1 0 "out"
             (Stub.world Stub.table_a ["no"] 0%nat) Stub.table_a
             ltac:(left; lia) eq_refl
             ltac:(apply distinct_header; vm_compute; reflexivity)
           ltac:(apply no_target_feature; vm_compute; reflexivity));
      vm_compute; congruence.
  - apply (loop_without_exit (Stub.sk Stub.score_width Stub.keep_leading)
             (stub_rfe_keeps _) 50 "data.csv" 1 0 1 "out"
             (Stub.world Stub.table_abc ["no"] 0%nat) Stub.table_abc
             ltac:(right; lia) eq_refl
             ltac:(apply distinct_header; vm_compute; reflexivity)
           ltac:(apply no_target_feature; vm_compute; reflexivity));
      vm_compute; congruence.
Defined.


(** The third answer is not a number: the program stops at the third
    prompt. *)
Lemma bad_number_stops_at_its_prompt_witness :
  int (strip "one") = None /\
  Stub.program Stub.table_abc ["data.csv"; "1"; "one"; "1"; "out"] 5
  = (Raise ValueError,
     {| fs := {[ "data.csv" := CsvFile Stub.table_abc ]}; stdin := ["1"; "out"]; rng := 0%nat;
        log := take 3 main_prompts |}).
Proof.
  split; [reflexivity|].
  apply (bad_number_stops_at_its_prompt Stub.sk_width 5
           (Stub.world Stub.table_abc ["data.csv"; "1"; "one"; "1"; "out"] 0%nat)
           "data.csv" "1" "one" "1" "out" [] 1%nat "one" eq_refl
           ltac:(repeat constructor) eq_refl eq_refl).
  intros j l Hj Hl. destruct j as [|j]; [|lia]. injection Hl as <-. discriminate.
Defined.

(** A path that names no file. *)
Lemma main_reports_missing_file_after_all_prompts_witness :
  Stub.program Stub.table_abc [" nope.csv "; "1"; " 2"; "+1_0"; "out"; "yes"] 5
  = (Val None,
     {| fs := {[ "data.csv" := CsvFile Stub.table_abc ]}; stdin := ["yes"]; rng := 0%nat;
        log := main_prompts ++ [EPrint (MsgNotFound "nope.csv")] |}).
Proof.
  exact (main_reports_missing_file_after_all_prompts Stub.sk_width 5
           (Stub.world Stub.table_abc [" nope.csv "; "1"; " 2"; "+1_0"; "out"; "yes"] 0%nat)
           " nope.csv " "1" " 2" "+1_0" "out" ["yes"] 1 2 10 eq_refl
           ltac:(repeat constructor) eq_refl eq_refl eq_refl ltac:(right; reflexivity)).
Defined.

(* --------------------------------------------------------------------- *)
(** ** The single-model scripts on the test doubles *)
(* --------------------------------------------------------------------- *)

Section ScriptRuns.
Import Scripts.

(** Two invalid answers, then a no. *)
Lemma invalid_answers_are_asked_again_witness :
  Forall invalid_answer ["maybe"; ""] /\
  save_dialogue (Model := Stub.Model) (2 + 1) ([], []) (world Stub.table_a ["maybe"; ""; "no"])
  = save_dialogue 1 ([], [])
      {| fs := fs (world Stub.table_a []); stdin := ["no"]; rng := 0%nat;
         log := asked_again ["maybe"; ""] |}.
Proof.
  assert (H : Forall invalid_answer ["maybe"; ""]) by (repeat constructor).
  split; [exact H|].
  exact (invalid_answers_are_asked_again ["maybe"; ""] H 1 ([], [])
           (world Stub.table_a ["maybe"; ""; "no"]) ["no"] eq_refl).
Defined.

(** A path that names no file. *)
Lemma missing_dataset_exits_witness :
  linear_regression_model Stub.sk_width PythonFloat 5
    (world Stub.table_a [" nope.csv"; "yes"])
  = (Raise SystemExit,
     {| fs := {[ "data.csv" := CsvFile Stub.table_a ]}; stdin := ["yes"]; rng := 0%nat;
        log := [EInput file_prompt; EPrint (MsgFileNotFound "nope.csv")] |}).
Proof.
  exact (missing_dataset_exits Stub.sk_width PythonFloat 5
           (world Stub.table_a [" nope.csv"; "yes"]) " nope.csv" ["yes"]
           eq_refl ltac:(right; reflexivity)).
Defined.

(** Three pending lines and as much fuel. *)
Lemma linear_regression_model_ends_witness :
  ends (linear_regression_model Stub.sk_width PythonFloat 3)
       (world Stub.table_abc ["data.csv"; "what"; "?"]).
Proof.
  apply (linear_regression_model_ends Stub.sk_width PythonFloat 3
           (world Stub.table_abc ["data.csv"; "what"; "?"])).
  cbn. lia.
Defined.

(** A run that is told no. *)
Lemma nothing_is_saved_without_a_yes_witness :
  exists w',
    linear_regression_model Stub.sk_width PythonFloat 5
      (world Stub.table_abc ["data.csv"; "perhaps"; "N"]) = (Val tt, w') /\
    fs w' = {[ "data.csv" := CsvFile Stub.table_abc ]} /\
    exists evs, log w' = evs /\ Forall (fun e => touches_files e = false) evs.
Proof.
  eexists. split; [vm_compute; reflexivity|].
  exact (nothing_is_saved_without_a_yes Stub.sk_width PythonFloat 5
           (world Stub.table_abc ["data.csv"; "perhaps"; "N"]) _ _
           ltac:(vm_compute; reflexivity) ltac:(repeat constructor)).
Defined.

(** A run that is asked twice, told yes and given a file name and a
    directory. *)
Lemma saved_model_is_the_evaluated_one_witness :
  exists w',
    linear_regression_model Stub.sk_width PythonFloat 5
      (world Stub.table_abc ["data.csv"; "bad"; " YES "; " model.joblib "; "models"])
    = (Val tt, w') /\
    exists lr_model,
      fs w' !! path_join "models" "model.joblib" = Some (JoblibFile lr_model) /\
      last (log w') = Some (EPrint (MsgModelSaved "model.joblib" "models")).
Proof.
  eexists. split; [vm_compute; reflexivity|].
  destruct (saved_model_is_the_evaluated_one Stub.sk_width PythonFloat 5
              (world Stub.table_abc ["data.csv"; "bad"; " YES "; " model.joblib "; "models"])
              _ ltac:(vm_compute; reflexivity))
    as (line & rest & X_test & y_test & g & lr_model & _).
  eexists. split; vm_compute; reflexivity.
Defined.

Lemma table_a_evaluated :
  evaluated sk_two (world Stub.table_a ["data.csv"; "no"]) "data.csv" ["no"]
    [("a", [Stub.num 1; Stub.num 4])]
    [Stub.num 10; Stub.num 20] 0%nat
    ([("a", [Stub.num 7])], [Stub.num 30]) [Stub.num 1; Stub.num 1].
Proof.
  constructor.
  - reflexivity.
  - vm_compute. discriminate.
  - eexists _, _, _, _, _. repeat split; vm_compute; reflexivity.
  - vm_compute. reflexivity.
Defined.

(** One feature and two held-out rows, with a Python float score and with a
    NumPy one. *)
Lemma hold_out_of_one_row_more_than_features_witness :
  (exists w', linear_regression_model sk_two PythonFloat 5
                (world Stub.table_a ["data.csv"; "no"]) = (Raise ZeroDivisionError, w')) /\
  (exists adjusted_r2 w,
     is_finite adjusted_r2 = false /\
     linear_regression_model sk_two NumpyFloat64 5 (world Stub.table_a ["data.csv"; "no"])
     = save_dialogue 5 ([("a", [Stub.num 7])], [Stub.num 30]) w).
Proof.
  split.
  - eexists.
    exact (hold_out_of_one_row_more_than_features sk_two PythonFloat 5 _ _ _ _ _ _ _ _ _
             table_a_evaluated eq_refl eq_refl).
  - destruct (hold_out_of_one_row_more_than_features sk_two NumpyFloat64 5 _ _ _ _ _ _ _ _ _
                table_a_evaluated eq_refl eq_refl) as (a & Hinf & Hrun).
    exists a. eexists. split; [exact Hinf | exact Hrun].
Defined.

(** A path that names no file. *)
Lemma failed_rfe_script_writes_nothing_witness :
  exists r w',
    rfe_linear_regression_feature_selection keep_up_to
      (world table_33 ["nope.csv"; "out.csv"]) = (r, w') /\
    r = Raise FileNotFoundError /\
    w' = {| fs := {[ "data.csv" := CsvFile table_33 ]}; stdin := ["out.csv"]; rng := 0%nat;
            log := [EInput csv_prompt] |}.
Proof.
  eexists _, _. split; [vm_compute; reflexivity|].
  destruct (failed_rfe_script_writes_nothing keep_up_to
              (world table_33 ["nope.csv"; "out.csv"]) _ _ ltac:(vm_compute; reflexivity))
    as [H _].
  exact (H "nope.csv" ["out.csv"] eq_refl ltac:(right; reflexivity)).
Defined.





End ScriptRuns.
